(** * Option-strategy system: pricing, strategies, risk rules and backtest

    A shallow embedding of the Python sources

      - [option_pricing.py]    (Black-Scholes, Monte Carlo, pricing engine),
      - [option_strategies.py] (leg templates, strategy selector),
      - [risk_management.py]   (positions, exit rules, portfolio metrics),
      - [backtesting.py]       (day-stepped backtest engine),
      - [trading_engine.py]    (per-strategy position construction),

    together with the properties the specification states about them.

    Conventions.  Floating-point rounding is not modelled: a Python
    [float] is the number it stands for.  Closed-form pricing uses the
    transcendental functions [exp], [ln], [sqrt] and the normal
    distribution, so it is carried out over the real numbers [R].  The risk
    rules and the backtest only add, multiply, divide and compare amounts
    of money; they are carried out over the rationals [Q], where every
    definition computes.  An exception that a [try] of the code catches is
    part of the embedding; a value outside the numbers (a NaN, an infinity)
    appears only where a property is about comparisons of arbitrary floats.
    Python dictionaries with string keys are [gmap string _]. *)

From Stdlib Require Import ZArith QArith Qround Qminmax Qabs.
From Stdlib Require Import Reals Qreals Lra Lia Psatz.
From Stdlib Require Import List String Ascii Bool.
From stdpp Require Import base gmap strings pretty.
Import ListNotations.

(** ** Python values that reach the strategy selector *)

Module Py.

(** A Python [float]: a finite value, an infinity or a NaN.  Finite values
    are kept as exact rationals; only their order matters below. *)
Inductive pyfloat : Type :=
| Finite (q : Q)
| PosInf
| NegInf
| NaN.

(** [a > b] on floats; every comparison with a NaN is [False]. *)
Definition float_gt (a b : pyfloat) : bool :=
  match a, b with
  | NaN, _ | _, NaN => false
  | PosInf, PosInf => false
  | PosInf, _ => true
  | _, PosInf => false
  | NegInf, _ => false
  | Finite _, NegInf => true
  | Finite x, Finite y => negb (Qle_bool x y)
  end.

(** [a < b] on floats. *)
Definition float_lt (a b : pyfloat) : bool := float_gt b a.

(** The values a [market_conditions] dictionary may hold. *)
Inductive value : Type :=
| VFloat (x : pyfloat)
| VStr (s : string).

(** [v == 'literal']: a float never equals a string. *)
Definition eq_str (v : value) (lit : string) : bool :=
  match v with
  | VStr s => String.eqb s lit
  | VFloat _ => false
  end.

(** [v > c] and [v < c] against a float literal; comparing a [str] with a
    float raises [TypeError], rendered as [None].  The literal is kept as
    the decimal it is written as: no float lies strictly between a decimal
    and the float nearest to it, so a float compares with the one as it
    does with the other. *)
Definition gt_lit (v : value) (c : Q) : option bool :=
  match v with
  | VFloat x => Some (float_gt x (Finite c))
  | VStr _ => None
  end.

Definition lt_lit (v : value) (c : Q) : option bool :=
  match v with
  | VFloat x => Some (float_lt x (Finite c))
  | VStr _ => None
  end.

(** [dict.get(key, default)]. *)
Definition get (d : gmap string value) (key : string) (default : value) : value :=
  match d !! key with
  | Some v => v
  | None => default
  end.

End Py.

(** ** Strings, numbers and dates *)

Module PyStr.
(** [c.lower()] on one ASCII character. *)
Definition lower_ascii (c : ascii) : ascii :=
  let n := nat_of_ascii c in
  if (Nat.leb 65 n && Nat.leb n 90)%bool then ascii_of_nat (n + 32) else c.

(** [s.lower()]. *)
Fixpoint lower (s : string) : string :=
  match s with
  | EmptyString => EmptyString
  | String c rest => String (lower_ascii c) (lower rest)
  end.

(** [option_type.lower() == 'call'] and [option_type.lower() == 'put']. *)
Definition is_call (option_type : string) : bool := String.eqb (lower option_type) "call".
Definition is_put (option_type : string) : bool := String.eqb (lower option_type) "put".
End PyStr.

Module PyNum.

(** [sum(xs)]: Python adds from the left, starting at [0]. *)
Definition py_sum (xs : list Q) : Q := fold_left Qplus xs 0%Q.

(** [a < b] on two numbers. *)
Definition Qlt_bool (a b : Q) : bool := negb (Qle_bool b a).

(** [int(x)] truncates towards zero. *)
Definition py_int (x : Q) : Z := Z.quot (Qnum x) (Zpos (Qden x)).

(** [round(x)] with no digits: nearest integer, ties to the even one. *)
Definition py_round (x : Q) : Z :=
  let f := Qfloor x in
  let r := (x - inject_Z f)%Q in
  match (r ?= 1 # 2)%Q with
  | Lt => f
  | Gt => (f + 1)%Z
  | Eq => if Z.even f then f else (f + 1)%Z
  end.

(** A [datetime] is a count of microseconds since the epoch; a date such as
    the ['%Y-%m-%d'] expiry of a position is the number of its day.  The
    code writes expiry dates with [strftime] and reads them back with
    [strptime]; the embedding keeps the day both denote. *)
Definition us_per_day : Z := 86400000000.

Definition midnight (day : Z) : Z := day * us_per_day.

(** [(a - b).days] for two datetimes: a [timedelta] is normalised with a
    non-negative seconds part, so [days] is the floor of the difference. *)
Definition timedelta_days (a b : Z) : Z := (a - b) / us_per_day.

(** [d.weekday()] for a day number: Monday is 0; day 0 (1970-01-01) was a
    Thursday. *)
Definition weekday (day : Z) : Z := (day + 3) mod 7.

End PyNum.

(** ** Real analysis: derivatives on a segment *)

Module RealAnalysis.
Local Open Scope R_scope.

(** Two functions that agree near [x] have the same derivative at [x]. *)
Lemma derivable_pt_lim_local (f g : R -> R) (x l : R) (delta : posreal) :
  (forall y, Rabs (y - x) < delta -> f y = g y) ->
  derivable_pt_lim f x l -> derivable_pt_lim g x l.
Proof.
  intros Heq Hf eps Heps.
  destruct (Hf eps Heps) as [d Hd].
  assert (Hmin : 0 < Rmin d delta) by (apply Rmin_pos; apply cond_pos).
  exists (mkposreal _ Hmin). cbn. intros h Hh0 Hh.
  rewrite <- (Heq (x + h)), <- (Heq x).
  - apply Hd; [exact Hh0|]. eapply Rlt_le_trans; [exact Hh|apply Rmin_l].
  - replace (x - x) with 0 by ring. rewrite Rabs_R0. apply cond_pos.
  - replace (x + h - x) with h by ring.
    eapply Rlt_le_trans; [exact Hh|apply Rmin_r].
Qed.

(** The derivative of [y |-> F (k * y + d)]. *)
Lemma derivable_pt_lim_affine (F : R -> R) (k d x l : R) :
  derivable_pt_lim F (k * x + d) l ->
  derivable_pt_lim (fun y => F (k * y + d)) x (l * k).
Proof.
  intros HF.
  change (fun y => F (k * y + d)) with (comp F (plus_fct (mult_real_fct k id) (fct_cte d))).
  apply derivable_pt_lim_comp; [|exact HF].
  replace k with (k * 1 + 0) at 2 by ring.
  apply derivable_pt_lim_plus.
  - apply derivable_pt_lim_scal, derivable_pt_lim_id.
  - apply derivable_pt_lim_const.
Qed.

(** Mean-value consequences on a segment. *)
Lemma incr_of_deriv (f f' : R -> R) (a b : R) :
  a <= b ->
  (forall c, a <= c <= b -> derivable_pt_lim f c (f' c)) ->
  (forall c, a < c < b -> 0 <= f' c) ->
  f a <= f b.
Proof.
  intros [Hlt| ->] Hd Hs; [|lra].
  destruct (MVT_cor2 f f' a b Hlt Hd) as [c [Hc Hin]].
  specialize (Hs c Hin). nra.
Qed.

Lemma const_of_deriv (f f' : R -> R) (a b : R) :
  a <= b ->
  (forall c, a <= c <= b -> derivable_pt_lim f c (f' c)) ->
  (forall c, a < c < b -> f' c = 0) ->
  f a = f b.
Proof.
  intros [Hlt| ->] Hd Hs; [|lra].
  destruct (MVT_cor2 f f' a b Hlt Hd) as [c [Hc Hin]].
  rewrite (Hs c Hin) in Hc. lra.
Qed.

Lemma exp_le_compat (x y : R) : x <= y -> exp x <= exp y.
Proof. intros [H| ->]; [left; now apply exp_increasing|right; reflexivity]. Qed.

Lemma div_le_bound (a b c : R) : 0 < b -> a <= c * b -> a / b <= c.
Proof.
  intros Hb H. apply Rmult_le_reg_r with b; [exact Hb|].
  unfold Rdiv. rewrite Rmult_assoc, Rinv_l by lra. lra.
Qed.

Lemma div_lt_bound (a b c : R) : 0 < b -> a < c * b -> a / b < c.
Proof.
  intros Hb H. apply Rmult_lt_reg_r with b; [exact Hb|].
  unfold Rdiv. rewrite Rmult_assoc, Rinv_l by lra. lra.
Qed.

End RealAnalysis.

(** ** The standard normal law

    [scipy.stats.norm] is not part of the repository.  Its density and its
    distribution function are defined here from the Gaussian kernel: the
    distribution function is the normalised integral of the kernel, and the
    normalising constant is the total mass of the kernel. *)

Module Gaussian.
Import RealAnalysis.
Local Open Scope R_scope.

(** The Gaussian kernel [exp (- t^2 / 2)]. *)
Definition kernel (t : R) : R := exp (- (t * t / 2)).

Lemma kernel_pos (t : R) : 0 < kernel t.
Proof. apply exp_pos. Qed.

Lemma kernel_even (t : R) : kernel (- t) = kernel t.
Proof. unfold kernel. apply (f_equal exp). field. Qed.

Lemma kernel_continuity : continuity kernel.
Proof. unfold kernel. reg. Qed.

Lemma kernel_integrable (a b : R) : Riemann_integrable kernel a b.
Proof.
  destruct (Rle_dec a b) as [H|H].
  - apply continuity_implies_RiemannInt; [exact H|].
    intros; apply kernel_continuity.
  - apply RiemannInt_P1, continuity_implies_RiemannInt; [lra|].
    intros; apply kernel_continuity.
Qed.

(** [area x] is the integral of the kernel from [0] to [x]. *)
Definition area (x : R) : R := RiemannInt (kernel_integrable 0 x).

Lemma area_0 : area 0 = 0.
Proof. unfold area. apply RiemannInt_P9. Qed.

Lemma area_derivable_pt_lim (x : R) : derivable_pt_lim area x (kernel x).
Proof.
  set (a := - (Rabs x + 1)). set (b := Rabs x + 1).
  assert (Hx : a + 1 <= x <= b - 1).
  { unfold a, b. pose proof (Rle_abs x). pose proof (Rle_abs (- x)).
    rewrite Rabs_Ropp in *. lra. }
  assert (H0 : a <= 0 <= b) by (unfold a, b; pose proof (Rabs_pos x); lra).
  clearbody a b. destruct Hx as [Hxa Hxb]. destruct H0 as [Ha0 Hb0].
  assert (h : a <= b) by lra.
  assert (C0 : forall y, a <= y <= b -> continuity_pt kernel y)
    by (intros; apply kernel_continuity).
  pose (P := primitive h (FTC_P1 h C0)).
  assert (HP : derivable_pt_lim P x (kernel x)).
  { apply RiemannInt_P27. split; lra. }
  assert (Heq : forall y, a <= y <= b -> P y - P 0 = area y).
  { intros y Hy. unfold P, primitive.
    destruct (Rle_dec a y) as [r1|]; [|lra].
    destruct (Rle_dec y b) as [r2|]; [|lra].
    destruct (Rle_dec a 0) as [r3|]; [|lra].
    destruct (Rle_dec 0 b) as [r4|]; [|lra].
    unfold area.
    rewrite <- (RiemannInt_P26 (FTC_P1 h C0 r3 r4) (kernel_integrable 0 y)
                  (FTC_P1 h C0 r1 r2)).
    ring. }
  apply derivable_pt_lim_local with (f := fun y => P y - P 0) (delta := mkposreal 1 Rlt_0_1).
  - cbn. intros y Hy. apply Heq.
    apply Rabs_def2 in Hy. lra.
  - replace (kernel x) with (kernel x - 0) by ring.
    change (fun y => P y - P 0) with (minus_fct P (fct_cte (P 0))).
    apply derivable_pt_lim_minus; [exact HP|apply derivable_pt_lim_const].
Qed.

Lemma area_increasing (x y : R) : x <= y -> area x <= area y.
Proof.
  intros H. apply incr_of_deriv with (f' := kernel); [exact H| |].
  - intros; apply area_derivable_pt_lim.
  - intros; left; apply kernel_pos.
Qed.

(** The kernel is even, so its integral from [0] is odd. *)
Lemma area_odd (x : R) : area (- x) = - area x.
Proof.
  assert (Hd : forall c, derivable_pt_lim (fun t => area t + area (-1 * t + 0)) c
                           (kernel c + kernel (-1 * c + 0) * -1)).
  { intros c.
    change (fun t => area t + area (-1 * t + 0))
      with (plus_fct area (fun t => area (-1 * t + 0))).
    apply derivable_pt_lim_plus; [apply area_derivable_pt_lim|].
    apply derivable_pt_lim_affine, area_derivable_pt_lim. }
  assert (Hz : forall c, kernel c + kernel (-1 * c + 0) * -1 = 0).
  { intros c. replace (-1 * c + 0) with (- c) by ring. rewrite kernel_even. ring. }
  assert (H0 : forall y, 0 <= y -> area y + area (- y) = 0).
  { intros y Hy.
    pose proof (const_of_deriv _ _ 0 y Hy (fun c _ => Hd c) (fun c _ => Hz c)) as E.
    cbn beta in E.
    replace (-1 * 0 + 0) with 0 in E by ring.
    replace (-1 * y + 0) with (- y) in E by ring.
    rewrite area_0 in E. lra. }
  destruct (Rle_lt_dec 0 x) as [Hx|Hx].
  - specialize (H0 x Hx). lra.
  - specialize (H0 (- x) ltac:(lra)). rewrite Ropp_involutive in H0. lra.
Qed.

(** The integral stays below [exp (1/2)]: the kernel is dominated by
    [exp (1/2 - t)]. *)
Lemma area_bounded (x : R) : area x <= exp (1 / 2).
Proof.
  destruct (Rle_lt_dec 0 x) as [Hx|Hx].
  - pose (f := fun t => - area t - exp (-1 * t + 1 / 2)).
    pose (f' := fun t => - kernel t - exp (-1 * t + 1 / 2) * -1).
    assert (E : f 0 <= f x).
    { apply incr_of_deriv with (f' := f'); [exact Hx| |].
      - intros c _. unfold f, f'.
        change (fun t => - area t - exp (-1 * t + 1 / 2))
          with (minus_fct (opp_fct area) (fun t => exp (-1 * t + 1 / 2))).
        apply derivable_pt_lim_minus.
        + apply derivable_pt_lim_opp, area_derivable_pt_lim.
        + apply derivable_pt_lim_affine, derivable_pt_lim_exp.
      - intros c _. unfold f', kernel.
        assert (exp (- (c * c / 2)) <= exp (-1 * c + 1 / 2)).
        { apply exp_le_compat.
          pose proof (Rle_0_sqr (c - 1)) as Hs. unfold Rsqr in Hs. lra. }
        lra. }
    unfold f in E. rewrite area_0 in E.
    replace (-1 * 0 + 1 / 2) with (1 / 2) in E by lra.
    pose proof (exp_pos (-1 * x + 1 / 2)). lra.
  - pose proof (area_increasing x 0 ltac:(lra)) as H. rewrite area_0 in H.
    pose proof (exp_pos (1 / 2)). lra.
Qed.

(** On [[0, 1]] the kernel is at least [exp (- 1/2)]. *)
Lemma area_1_lower : exp (- (1 / 2)) <= area 1.
Proof.
  pose (f := fun t => area t - exp (- (1 / 2)) * t).
  assert (E : f 0 <= f 1).
  { apply incr_of_deriv with (f' := fun t => kernel t - exp (- (1 / 2)) * 1); [lra| |].
    - intros c _. unfold f.
      change (fun t => area t - exp (- (1 / 2)) * t)
        with (minus_fct area (mult_real_fct (exp (- (1 / 2))) id)).
      apply derivable_pt_lim_minus; [apply area_derivable_pt_lim|].
      apply derivable_pt_lim_scal, derivable_pt_lim_id.
    - intros c Hc. unfold kernel.
      assert (exp (- (1 / 2)) <= exp (- (c * c / 2))) by (apply exp_le_compat; nra).
      lra. }
  unfold f in E. rewrite area_0 in E. lra.
Qed.

(** The integrals over [[0, n]] grow with [n] and are bounded: they
    converge. *)
Definition area_seq (n : nat) : R := area (INR n).

Lemma area_seq_growing : Un_growing area_seq.
Proof.
  intros n. apply area_increasing. rewrite S_INR. lra.
Qed.

Lemma area_seq_has_ub : has_ub area_seq.
Proof.
  exists (exp (1 / 2)). intros y [n ->]. apply area_bounded.
Qed.

(** Half of the total mass of the kernel: the integral over [[0, +oo)]. *)
Definition half_mass : R := proj1_sig (growing_cv area_seq area_seq_growing area_seq_has_ub).

Lemma half_mass_cv : Un_cv area_seq half_mass.
Proof. exact (proj2_sig (growing_cv area_seq area_seq_growing area_seq_has_ub)). Qed.

Lemma area_seq_le_half_mass (n : nat) : area_seq n <= half_mass.
Proof. apply growing_ineq; [apply area_seq_growing|apply half_mass_cv]. Qed.

Lemma half_mass_pos : 0 < half_mass.
Proof.
  pose proof (area_seq_le_half_mass 1) as H. unfold area_seq in H. cbn [INR] in H.
  pose proof area_1_lower. pose proof (exp_pos (- (1 / 2))). lra.
Qed.

Lemma area_le_half_mass (x : R) : area x <= half_mass.
Proof.
  destruct (INR_unbounded x) as [n Hn].
  eapply Rle_trans; [|apply (area_seq_le_half_mass n)].
  apply area_increasing. lra.
Qed.

(** The total mass of the kernel over the real line (its value is
    [sqrt (2 * PI)]; only its definition as the total mass is used). *)
Definition mass : R := 2 * half_mass.

Lemma mass_pos : 0 < mass.
Proof. unfold mass. pose proof half_mass_pos. lra. Qed.

(** [scipy.stats.norm.pdf]: the density of the standard normal law. *)
Definition norm_pdf (x : R) : R := kernel x / mass.

(** [scipy.stats.norm.cdf]: the distribution function of the standard
    normal law, [1/2] plus the normalised integral from [0] to [x]. *)
Definition norm_cdf (x : R) : R := 1 / 2 + area x / mass.

End Gaussian.

(** ** [option_pricing.py] *)

Module Pricing.
Import PyStr Gaussian.
Local Open Scope R_scope.

(** The result of a Python call that may raise: a value, or the message of
    the exception. *)
Inductive outcome (A : Type) : Type :=
| Ok (a : A)
| Raised (exc : string).
Arguments Ok {A} a.
Arguments Raised {A} exc.

Definition bind {A B : Type} (m : outcome A) (k : A -> outcome B) : outcome B :=
  match m with
  | Ok a => k a
  | Raised exc => Raised exc
  end.

Notation "'let*' x ':=' m 'in' k" := (bind m (fun x => k))
  (at level 10, x name, m at level 100, k at level 200).

(** [x / y] on two Python floats raises [ZeroDivisionError] when [y] is
    zero.  (Divisions whose operands are NumPy scalars do not raise; they
    are written with the plain [/] below.) *)
Definition py_div (x y : R) : outcome R :=
  if Req_dec_T y 0 then Raised "float division by zero" else Ok (x / y).

(** [@dataclass OptionParams]. *)
Record OptionParams : Type := mkOptionParams {
  spot_price : R;
  strike_price : R;
  time_to_expiry : R;      (* in years *)
  risk_free_rate : R;
  volatility : R;
  dividend_yield : R
}.

(** The dictionary of Greeks returned by [calculate_greeks]. *)
Record Greeks : Type := mkGreeks {
  delta : R;
  gamma : R;
  theta : R;
  vega : R;
  rho : R
}.

Module BlackScholesPricer.

(** [BlackScholesPricer.calculate_price].  The fields of [params] are
    taken to be Python floats, as [OptionParams] annotates them: [S / K]
    then raises for a zero strike (NumPy scalars would divide to [inf] or
    [nan] without raising).  Python's [sigma ** 2] raises [OverflowError]
    once the square leaves the range of a float, for [|sigma|] above about
    1.3e154; the reals have no such bound, so this is the code for
    volatilities within that range. *)
Definition calculate_price (params : OptionParams) (option_type : string) : outcome R :=
  let S := spot_price params in
  let K := strike_price params in
  let T := time_to_expiry params in
  let r := risk_free_rate params in
  let sigma := volatility params in
  let q := dividend_yield params in
  if Rle_dec T 0 then
    Ok (if is_call option_type then Rmax (S - K) 0 else Rmax (K - S) 0)
  else
    let* ratio := py_div S K in
    let d1 := (ln ratio + (r - q + 1 / 2 * sigma ^ 2) * T) / (sigma * sqrt T) in
    let d2 := d1 - sigma * sqrt T in
    let price :=
      if is_call option_type
      then S * exp (- q * T) * norm_cdf d1 - K * exp (- r * T) * norm_cdf d2
      else K * exp (- r * T) * norm_cdf (- d2) - S * exp (- q * T) * norm_cdf (- d1) in
    Ok (Rmax price 0).

(** [BlackScholesPricer.calculate_greeks]. *)
Definition calculate_greeks (params : OptionParams) (option_type : string) : outcome Greeks :=
  let S := spot_price params in
  let K := strike_price params in
  let T := time_to_expiry params in
  let r := risk_free_rate params in
  let sigma := volatility params in
  let q := dividend_yield params in
  if Rle_dec T 0 then
    Ok (mkGreeks 0 0 0 0 0)
  else
    let* ratio := py_div S K in
    let d1 := (ln ratio + (r - q + 1 / 2 * sigma ^ 2) * T) / (sigma * sqrt T) in
    let d2 := d1 - sigma * sqrt T in
    let delta :=
      if is_call option_type
      then exp (- q * T) * norm_cdf d1
      else - exp (- q * T) * norm_cdf (- d1) in
    let gamma := exp (- q * T) * norm_pdf d1 / (S * sigma * sqrt T) in
    let theta :=
      if is_call option_type
      then (- S * exp (- q * T) * norm_pdf d1 * sigma / (2 * sqrt T)
            - r * K * exp (- r * T) * norm_cdf d2
            + q * S * exp (- q * T) * norm_cdf d1) / 365
      else (- S * exp (- q * T) * norm_pdf d1 * sigma / (2 * sqrt T)
            + r * K * exp (- r * T) * norm_cdf (- d2)
            - q * S * exp (- q * T) * norm_cdf (- d1)) / 365 in
    let vega := S * exp (- q * T) * norm_pdf d1 * sqrt T / 100 in
    let rho :=
      if is_call option_type
      then K * T * exp (- r * T) * norm_cdf d2 / 100
      else - K * T * exp (- r * T) * norm_cdf (- d2) / 100 in
    Ok (mkGreeks delta gamma theta vega rho).

(** *** [implied_volatility]

    [scipy.optimize.minimize_scalar(objective, bounds, method='bounded')]
    is seen from the objective it calls: given the trial points evaluated
    so far with their objective values (latest first), the optimiser either
    asks for the objective at one more point or stops with its
    [OptimizeResult] ([x] and [success]).  [maxfun] bounds the number of
    evaluations (scipy's [maxiter]); when it is exhausted the optimiser
    stops without success at its latest point. *)
Inductive request : Type :=
| Probe (x : R)
| Stop (x : R) (success : bool).

Record minimizer : Type := mkMinimizer {
  next : list (R * R) -> request;
  maxfun : nat
}.

(** [params.volatility = vol]: the assignment inside [objective] writes the
    field of the object the caller passed. *)
Definition set_volatility (params : OptionParams) (vol : R) : OptionParams :=
  mkOptionParams (spot_price params) (strike_price params) (time_to_expiry params)
                 (risk_free_rate params) vol (dividend_yield params).

(** [objective(vol)]: the value, or the exception, and the caller's object
    after the call. *)
Definition objective (market_price : R) (option_type : string)
    (params : OptionParams) (vol : R) : outcome R * OptionParams :=
  let params := set_volatility params vol in
  (let* theoretical_price := calculate_price params option_type in
   Ok ((theoretical_price - market_price) ^ 2),
   params).

(** The optimiser's loop, threading the caller's [params] object. *)
Fixpoint minimize_scalar (opt : minimizer) (fuel : nat) (market_price : R)
    (option_type : string) (history : list (R * R)) (params : OptionParams)
  : outcome (R * bool) * OptionParams :=
  match next opt history with
  | Stop x success => (Ok (x, success), params)
  | Probe vol =>
    match fuel with
    | O => (Ok (match history with (x, _) :: _ => x | [] => vol end, false), params)
    | Datatypes.S fuel' =>
      match objective market_price option_type params vol with
      | (Ok value, params') =>
          minimize_scalar opt fuel' market_price option_type ((vol, value) :: history) params'
      | (Raised exc, params') => (Raised exc, params')
      end
    end
  end.

(** [BlackScholesPricer.implied_volatility]: the returned value ([None] on
    failure or exception) and the caller's [params] after the call. *)
Definition implied_volatility (opt : minimizer) (market_price : R)
    (params : OptionParams) (option_type : string) : option R * OptionParams :=
  match minimize_scalar opt (maxfun opt) market_price option_type [] params with
  | (Ok (x, true), params') => (Some x, params')
  | (Ok (_, false), params') => (None, params')
  | (Raised _, params') => (None, params')
  end.

(** The trial points of a run of the optimiser, in the order they were
    evaluated. *)
Fixpoint trial_points (opt : minimizer) (fuel : nat) (market_price : R)
    (option_type : string) (history : list (R * R)) (params : OptionParams) : list R :=
  match next opt history with
  | Stop _ _ => []
  | Probe vol =>
    match fuel with
    | O => []
    | Datatypes.S fuel' =>
      match objective market_price option_type params vol with
      | (Ok value, params') =>
          vol :: trial_points opt fuel' market_price option_type ((vol, value) :: history) params'
      | (Raised _, _) => [vol]
      end
    end
  end.

End BlackScholesPricer.

Module BinomialPricer.

(** One sweep of the backward induction: entries [0 .. n-1] are replaced
    by the discounted expectation of their two successors, the others are
    left as they are. *)
Fixpoint backward_sweep (p disc : R) (n : nat) (option_values : list R) : list R :=
  match n, option_values with
  | Datatypes.S n', a :: ((b :: _) as rest) =>
      (p * a + (1 - p) * b) * disc :: backward_sweep p disc n' rest
  | _, _ => option_values
  end.

(** [BinomialPricer.calculate_price]; [T / steps] divides a float by an
    [int] and raises when [steps] is zero. *)
Definition calculate_price (params : OptionParams) (option_type : string) (steps : nat)
  : outcome R :=
  let S := spot_price params in
  let K := strike_price params in
  let T := time_to_expiry params in
  let r := risk_free_rate params in
  let sigma := volatility params in
  let q := dividend_yield params in
  if Rle_dec T 0 then
    Ok (if is_call option_type then Rmax (S - K) 0 else Rmax (K - S) 0)
  else
    let* dt := py_div T (INR steps) in
    let u := exp (sigma * sqrt dt) in
    let d := 1 / u in
    let p := (exp ((r - q) * dt) - d) / (u - d) in
    let stock_prices :=
      map (fun i => S * u ^ (steps - i) * d ^ i) (seq 0 (steps + 1)) in
    let option_values :=
      map (fun price => if is_call option_type then Rmax (price - K) 0 else Rmax (K - price) 0)
          stock_prices in
    let option_values :=
      fold_left (fun values step => backward_sweep p (exp (- r * dt)) (step + 1) values)
                (rev (seq 0 steps)) option_values in
    Ok (nth 0 option_values 0).

End BinomialPricer.

(** *** The process-wide NumPy generator

    The state of the global generator is described by the seed it was last
    given and the number of variates drawn since; [normal_variate seed i]
    is the [i]-th standard normal variate NumPy produces after
    [np.random.seed(seed)]. *)
Record rng_state : Type := mkRng {
  last_seed : Z;
  drawn : nat
}.

(** [np.random.seed(seed)]. *)
Definition np_random_seed (seed : Z) (g : rng_state) : rng_state := mkRng seed 0.

(** [np.mean], and [np.std] (the population standard deviation). *)
Definition np_mean (xs : list R) : R := fold_right Rplus 0 xs / INR (length xs).
Definition np_std (xs : list R) : R :=
  let m := np_mean xs in sqrt (np_mean (map (fun x => (x - m) ^ 2) xs)).

(** [np.random.standard_normal(n)]: the next [n] variates and the advanced
    generator. *)
Definition np_random_standard_normal (normal_variate : Z -> nat -> R) (n : nat)
    (g : rng_state) : list R * rng_state :=
  (map (fun i => normal_variate (last_seed g) (drawn g + i)%nat) (seq 0 n),
   mkRng (last_seed g) (drawn g + n)%nat).

Module MonteCarloPricer.
Section Generator.
Variable normal_variate : Z -> nat -> R.

(** [MonteCarloPricer.calculate_price]: the pair (price, standard error) and
    the state of the global generator after the call. *)
Definition calculate_price (g : rng_state) (params : OptionParams)
    (option_type : string) (simulations : nat) : (R * R) * rng_state :=
  let S := spot_price params in
  let K := strike_price params in
  let T := time_to_expiry params in
  let r := risk_free_rate params in
  let sigma := volatility params in
  let q := dividend_yield params in
  if Rle_dec T 0 then
    let payoff := if is_call option_type then Rmax (S - K) 0 else Rmax (K - S) 0 in
    ((payoff, 0), g)
  else
    let g := np_random_seed 42 g in
    let '(Z, g) := np_random_standard_normal normal_variate simulations g in
    let ST := map (fun z => S * exp ((r - q - 1 / 2 * sigma ^ 2) * T + sigma * sqrt T * z)) Z in
    let payoffs :=
      if is_call option_type
      then map (fun st => Rmax (st - K) 0) ST
      else map (fun st => Rmax (K - st) 0) ST in
    let option_price := exp (- r * T) * np_mean payoffs in
    let standard_error := exp (- r * T) * np_std payoffs / sqrt (INR simulations) in
    ((option_price, standard_error), g).

End Generator.

(** The default of the [simulations] argument. *)
Definition default_simulations : nat := Z.to_nat 100000.

End MonteCarloPricer.

Module OptionPricingEngine.

(** The dictionaries [price_option] returns. *)
Inductive PricingResult : Type :=
| BlackScholesResult (price : R) (greeks : Greeks)
    (* {'price': price, 'greeks': greeks, 'method': 'black_scholes'} *)
| BinomialResult (price : R)
    (* {'price': price, 'method': 'binomial'} *)
| MonteCarloResult (price standard_error : R)
    (* {'price': price, 'standard_error': std_error, 'method': 'monte_carlo'} *)
| ErrorResult (error : string).
    (* {'price': 0, 'error': str(e)} *)

(** [result['price']] and [result.get('error')]. *)
Definition result_price (result : PricingResult) : R :=
  match result with
  | BlackScholesResult price _ | BinomialResult price | MonteCarloResult price _ => price
  | ErrorResult _ => 0
  end.


Section Generator.
Variable normal_variate : Z -> nat -> R.

(** [OptionPricingEngine.price_option]: the [try] turns every exception of
    a pricer into an [ErrorResult]. *)
Definition price_option (g : rng_state) (params : OptionParams) (option_type : string)
    (method : string) : PricingResult * rng_state :=
  if String.eqb method "black_scholes" then
    match BlackScholesPricer.calculate_price params option_type with
    | Raised exc => (ErrorResult exc, g)
    | Ok price =>
      match BlackScholesPricer.calculate_greeks params option_type with
      | Raised exc => (ErrorResult exc, g)
      | Ok greeks => (BlackScholesResult price greeks, g)
      end
    end
  else if String.eqb method "binomial" then
    match BinomialPricer.calculate_price params option_type 100 with
    | Raised exc => (ErrorResult exc, g)
    | Ok price => (BinomialResult price, g)
    end
  else if String.eqb method "monte_carlo" then
    let '((price, std_error), g) :=
      MonteCarloPricer.calculate_price normal_variate g params option_type
        MonteCarloPricer.default_simulations in
    (MonteCarloResult price std_error, g)
  else
    (ErrorResult ("Unknown pricing method: " ++ method), g).

End Generator.

(** A position as [OptionPricingEngine.calculate_portfolio_greeks] reads it:
    a dictionary with these seven keys. *)
Record GreekPosition : Type := mkGreekPosition {
  gp_spot_price : R;
  gp_strike_price : R;
  gp_time_to_expiry : R;
  gp_risk_free_rate : R;
  gp_volatility : R;
  gp_option_type : string;
  gp_quantity : Z
}.

Definition add_scaled (total : Greeks) (greeks : Greeks) (quantity : R) : Greeks :=
  mkGreeks (delta total + delta greeks * quantity)
           (gamma total + gamma greeks * quantity)
           (theta total + theta greeks * quantity)
           (vega total + vega greeks * quantity)
           (rho total + rho greeks * quantity).

(** [OptionPricingEngine.calculate_portfolio_greeks]. *)
Fixpoint calculate_portfolio_greeks_from (total : Greeks) (positions : list GreekPosition)
  : outcome Greeks :=
  match positions with
  | [] => Ok total
  | position :: rest =>
    let params := mkOptionParams (gp_spot_price position) (gp_strike_price position)
                    (gp_time_to_expiry position) (gp_risk_free_rate position)
                    (gp_volatility position) 0 in
    let* greeks := BlackScholesPricer.calculate_greeks params (gp_option_type position) in
    calculate_portfolio_greeks_from
      (add_scaled total greeks (IZR (gp_quantity position))) rest
  end.

Definition calculate_portfolio_greeks (positions : list GreekPosition) : outcome Greeks :=
  calculate_portfolio_greeks_from (mkGreeks 0 0 0 0 0) positions.

End OptionPricingEngine.

End Pricing.

(** ** [option_strategies.py]: the strategy classes *)

Module Strategies.
Import Pricing OptionPricingEngine.
Local Open Scope R_scope.

(** [@dataclass StrategyParams]. *)
Record StrategyParams : Type := mkStrategyParams {
  spot_price : R;
  strike_prices : list R;
  expiry_dates : list string;
  option_prices : gmap string R;    (* {option_id: price} *)
  quantities : gmap string Z;       (* {option_id: quantity} *)
  risk_free_rate : R;
  volatility : R
}.

(** [xs[i]] raises [IndexError] past the end of the list. *)
Definition index (xs : list R) (i : nat) : outcome R :=
  match nth_error xs i with
  | Some x => Ok x
  | None => Raised "list index out of range"
  end.

(** The [OptionParams] every [calculate_greeks] builds for a leg: spot, rate
    and volatility come from the strategy parameters, the strike from the
    leg, the horizon is the literal [30/365] and the dividend yield its
    default [0.0]. *)
Definition leg_option_params (strategy_params : StrategyParams) (strike : R) : OptionParams :=
  mkOptionParams (spot_price strategy_params) strike (30 / 365)
                 (risk_free_rate strategy_params) (volatility strategy_params) 0.

Definition zero_greeks : Greeks := mkGreeks 0 0 0 0 0.

(** The loop [for strike, opt_type, qty in zip(...)] of the iron condor and
    of the butterfly, adding [greeks[...] * qty] to the five totals. *)
Fixpoint sum_legs (strategy_params : StrategyParams) (total : Greeks)
    (legs : list (R * string * Z)) : outcome Greeks :=
  match legs with
  | [] => Ok total
  | (strike, opt_type, qty) :: rest =>
    let params := leg_option_params strategy_params strike in
    let* greeks := BlackScholesPricer.calculate_greeks params opt_type in
    sum_legs strategy_params (add_scaled total greeks (IZR qty)) rest
  end.

Module StraddleStrategy.
(** [StraddleStrategy.calculate_greeks]. *)
Definition calculate_greeks (strategy_params : StrategyParams) : outcome Greeks :=
  let* strike := index (strike_prices strategy_params) 0 in
  let call_params := leg_option_params strategy_params strike in
  let* call_greeks := BlackScholesPricer.calculate_greeks call_params "call" in
  let put_params := leg_option_params strategy_params strike in
  let* put_greeks := BlackScholesPricer.calculate_greeks put_params "put" in
  Ok (mkGreeks (delta call_greeks + delta put_greeks)
               (gamma call_greeks + gamma put_greeks)
               (theta call_greeks + theta put_greeks)
               (vega call_greeks + vega put_greeks)
               (rho call_greeks + rho put_greeks)).
End StraddleStrategy.

Module StrangleStrategy.
(** [StrangleStrategy.calculate_greeks]. *)
Definition calculate_greeks (strategy_params : StrategyParams) : outcome Greeks :=
  let* call_strike := index (strike_prices strategy_params) 0 in
  let* put_strike := index (strike_prices strategy_params) 1 in
  let call_params := leg_option_params strategy_params call_strike in
  let* call_greeks := BlackScholesPricer.calculate_greeks call_params "call" in
  let put_params := leg_option_params strategy_params put_strike in
  let* put_greeks := BlackScholesPricer.calculate_greeks put_params "put" in
  Ok (mkGreeks (delta call_greeks + delta put_greeks)
               (gamma call_greeks + gamma put_greeks)
               (theta call_greeks + theta put_greeks)
               (vega call_greeks + vega put_greeks)
               (rho call_greeks + rho put_greeks)).
End StrangleStrategy.

Module IronCondorStrategy.
(** [IronCondorStrategy.calculate_greeks]. *)
Definition calculate_greeks (strategy_params : StrategyParams) : outcome Greeks :=
  let* put_long := index (strike_prices strategy_params) 0 in
  let* put_short := index (strike_prices strategy_params) 1 in
  let* call_short := index (strike_prices strategy_params) 2 in
  let* call_long := index (strike_prices strategy_params) 3 in
  sum_legs strategy_params zero_greeks
    [ (put_long, "put"%string, 1%Z); (put_short, "put"%string, (-1)%Z);
      (call_short, "call"%string, (-1)%Z); (call_long, "call"%string, 1%Z) ].
End IronCondorStrategy.

Module ButterflyStrategy.
(** [ButterflyStrategy.calculate_greeks]. *)
Definition calculate_greeks (strategy_params : StrategyParams) : outcome Greeks :=
  let* lower_strike := index (strike_prices strategy_params) 0 in
  let* middle_strike := index (strike_prices strategy_params) 1 in
  let* upper_strike := index (strike_prices strategy_params) 2 in
  sum_legs strategy_params zero_greeks
    [ (lower_strike, "call"%string, 1%Z); (middle_strike, "call"%string, (-2)%Z);
      (upper_strike, "call"%string, 1%Z) ].
End ButterflyStrategy.


End Strategies.

(** ** [option_strategies.py]: the rule-based selector *)

Module StrategySelector.
Import Py.

(** [a and b] with Python's short circuit: [b] is evaluated only when [a]
    is true, and an exception in [a] propagates. *)
Definition and_then (a : option bool) (b : bool) : option bool :=
  match a with
  | Some true => Some b
  | Some false => Some false
  | None => None
  end.

(** [StrategySelector.select_strategy]; [None] stands for the [TypeError]
    of an ill-typed ['volatility'] entry. *)
Definition select_strategy (market_conditions : gmap string value) : option string :=
  let volatility := get market_conditions "volatility" (VFloat (Finite (2 # 10))) in
  let trend := get market_conditions "trend" (VStr "neutral") in
  match and_then (gt_lit volatility (3 # 10)) (eq_str trend "neutral") with
  | None => None
  | Some true => Some "straddle"%string
  | Some false =>
    match and_then (gt_lit volatility (25 # 100)) (eq_str trend "neutral") with
    | None => None
    | Some true => Some "strangle"%string
    | Some false =>
      match and_then (lt_lit volatility (2 # 10)) (eq_str trend "neutral") with
      | None => None
      | Some true => Some "iron_condor"%string
      | Some false =>
        match and_then (lt_lit volatility (15 # 100)) (eq_str trend "neutral") with
        | None => None
        | Some true => Some "butterfly"%string
        | Some false => Some "straddle"%string
        end
      end
    end
  end.

End StrategySelector.

(** ** [risk_management.py] *)

Module Risk.
Import PyNum PyStr.

(** [@dataclass Position]. *)
Record Position : Type := mkPosition {
  symbol : string;
  option_type : string;      (* 'call' or 'put' *)
  strike_price : Q;
  expiry_date : Z;           (* the day the '%Y-%m-%d' string denotes *)
  quantity : Z;
  entry_price : Q;
  current_price : Q;
  entry_time : Z;
  strategy_name : string
}.

(** [@dataclass RiskMetrics]. *)
Record RiskMetrics : Type := mkRiskMetrics {
  portfolio_value : Q;
  total_delta : Q;
  total_gamma : Q;
  total_theta : Q;
  total_vega : Q;
  total_rho : Q;
  var_95 : Q;
  var_99 : Q;
  max_drawdown : Q;
  sharpe_ratio : Q;
  beta : Q
}.

(** The attributes of a [RiskManager]. *)
Record RiskManager : Type := mkRiskManager {
  max_position_size : Q;
  max_daily_loss : Q;
  stop_loss_pct : Q;
  take_profit_pct : Q;
  daily_pnl : Q;
  positions : list Position
}.

(** [RiskManager()] with the default arguments of [__init__]. *)
Definition default_manager : RiskManager :=
  {| max_position_size := 1000000; max_daily_loss := 50000;
     stop_loss_pct := 2 # 100; take_profit_pct := 5 # 100;
     daily_pnl := 0; positions := [] |}.

Section Manager.
Variable self : RiskManager.

(** [calculate_stop_loss_level]. *)
Definition calculate_stop_loss_level (entry_price : Q) (option_type : string) : Q :=
  if is_call option_type
  then (entry_price * (1 - stop_loss_pct self))%Q
  else (entry_price * (1 + stop_loss_pct self))%Q.

(** [calculate_take_profit_level]. *)
Definition calculate_take_profit_level (entry_price : Q) (option_type : string) : Q :=
  if is_call option_type
  then (entry_price * (1 + take_profit_pct self))%Q
  else (entry_price * (1 - take_profit_pct self))%Q.

(** [should_exit_position]; [now] is the value of [datetime.now()]. *)
Definition should_exit_position (now : Z) (position : Position) (current_price : Q)
  : bool * string :=
  let stop_loss_level :=
    calculate_stop_loss_level (entry_price position) (option_type position) in
  if (is_call (option_type position) && Qle_bool current_price stop_loss_level)%bool
  then (true, "stop_loss"%string)
  else if (is_put (option_type position) && Qle_bool stop_loss_level current_price)%bool
  then (true, "stop_loss"%string)
  else
    let take_profit_level :=
      calculate_take_profit_level (entry_price position) (option_type position) in
    if (is_call (option_type position) && Qle_bool take_profit_level current_price)%bool
    then (true, "take_profit"%string)
    else if (is_put (option_type position) && Qle_bool current_price take_profit_level)%bool
    then (true, "take_profit"%string)
    else
      let days_to_expiry := timedelta_days (midnight (expiry_date position)) now in
      if (days_to_expiry <=? 7)%Z
      then (true, "time_decay"%string)
      else (false, "hold"%string).

(** The placeholder per-position Greeks: [_calculate_delta] and its four
    siblings. *)
Definition _calculate_delta (position : Position) : Q :=
  if is_call (option_type position) then 5 # 10 else - (5 # 10).
Definition _calculate_gamma (position : Position) : Q := 1 # 100.
Definition _calculate_theta (position : Position) : Q := - (1 # 10).
Definition _calculate_vega (position : Position) : Q := 2 # 10.
Definition _calculate_rho (position : Position) : Q := 5 # 100.

(** [_calculate_var]: the pair (95% VaR, 99% VaR). *)
Definition _calculate_var (portfolio_value : Q) : Q * Q :=
  let volatility := 2 # 10 in
  ((portfolio_value * volatility * (1645 # 1000))%Q,
   (portfolio_value * volatility * (2326 # 1000))%Q).

Definition _calculate_max_drawdown : Q := 1 # 10.
Definition _calculate_sharpe_ratio : Q := 15 # 10.
Definition _calculate_beta : Q := 1.

(** [sum(pos.quantity * greek(pos) for pos in self.positions)]. *)
Definition weighted_sum (greek : Position -> Q) : Q :=
  py_sum (map (fun pos => (inject_Z (quantity pos) * greek pos)%Q) (positions self)).

(** [calculate_portfolio_metrics]. *)
Definition calculate_portfolio_metrics (current_prices : gmap string Q) : RiskMetrics :=
  match positions self with
  | [] => mkRiskMetrics 0 0 0 0 0 0 0 0 0 0 0
  | _ =>
    let portfolio_value :=
      py_sum (map (fun pos =>
                     (inject_Z (quantity pos) *
                      match current_prices !! symbol pos with
                      | Some price => price
                      | None => current_price pos
                      end)%Q) (positions self)) in
    let '(var_95, var_99) := _calculate_var portfolio_value in
    {| portfolio_value := portfolio_value;
       total_delta := weighted_sum _calculate_delta;
       total_gamma := weighted_sum _calculate_gamma;
       total_theta := weighted_sum _calculate_theta;
       total_vega := weighted_sum _calculate_vega;
       total_rho := weighted_sum _calculate_rho;
       var_95 := var_95;
       var_99 := var_99;
       max_drawdown := _calculate_max_drawdown;
       sharpe_ratio := _calculate_sharpe_ratio;
       beta := _calculate_beta |}
  end.

End Manager.

(** *** The exit rules as the specification words them

    A stop-loss rule, a take-profit rule and a time-decay rule, tried in
    this order; the first one that matches names the exit reason. *)

Definition stop_loss_rule (self : RiskManager) (position : Position) (current_price : Q) : bool :=
  let entry := entry_price position in
  (is_call (option_type position)
     && Qle_bool current_price (entry * (1 - stop_loss_pct self)))
  || (is_put (option_type position)
     && Qle_bool (entry * (1 + stop_loss_pct self)) current_price).

Definition take_profit_rule (self : RiskManager) (position : Position) (current_price : Q) : bool :=
  let entry := entry_price position in
  (is_call (option_type position)
     && Qle_bool (entry * (1 + take_profit_pct self)) current_price)
  || (is_put (option_type position)
     && Qle_bool current_price (entry * (1 - take_profit_pct self))).

Definition time_decay_rule (now : Z) (position : Position) : bool :=
  (timedelta_days (midnight (expiry_date position)) now <=? 7)%Z.

Definition exit_rules (self : RiskManager) (now : Z) (position : Position) (current_price : Q)
  : list (bool * string) :=
  [ (stop_loss_rule self position current_price, "stop_loss"%string);
    (take_profit_rule self position current_price, "take_profit"%string);
    (time_decay_rule now position, "time_decay"%string) ].

(** First matching rule wins; ['hold'] when none matches. *)
Definition first_match (rules : list (bool * string)) : bool * string :=
  match List.find fst rules with
  | Some (_, reason) => (true, reason)
  | None => (false, "hold"%string)
  end.

End Risk.

(** ** The pricing engine on rational inputs

    The backtest and the trading engine call the pricing engine with
    amounts they go on adding and comparing; this is the ['price'] entry of
    its answer on such inputs. *)

Module RationalPricing.
Import PyNum PyStr.
Local Open Scope Q_scope.

Section ClosedForm.

(** The closed-form [price] of [BlackScholesPricer.calculate_price] for
    [T > 0] and a non-zero strike, as the float the code computes from
    (spot, strike, T, rate, volatility, option type); its definition over
    the reals is [Pricing.BlackScholesPricer.calculate_price]. *)
Variable closed_form : Q -> Q -> Q -> Q -> Q -> string -> Q.

(** [price_option(params, option_type)['price']] for the default method
    ['black_scholes'] and a zero dividend yield: the intrinsic value once
    [T <= 0]; the [ZeroDivisionError] of a zero strike is caught by
    [price_option], which then answers [{'price': 0, 'error': ...}].  (That
    is the division of Python floats; for a spot that is a NumPy scalar, as
    [row['Close']] is in the backtest, [S / K] is [inf] or [nan] at a zero
    strike and no error is returned.  No property below prices an option
    with a zero strike and time left to expiry.) *)
Definition price_option_price (S K T r sigma : Q) (option_type : string) : Q :=
  if Qle_bool T 0 then
    if is_call option_type then Qmax (S - K) 0 else Qmax (K - S) 0
  else if Qeq_bool K 0 then 0
  else Qmax (closed_form S K T r sigma option_type) 0.

End ClosedForm.
End RationalPricing.

(** ** [backtesting.py] *)

Module Backtest.
Import PyNum PyStr Risk RationalPricing.
Local Open Scope Q_scope.

(** [@dataclass Trade]. *)
Module Trade.
Record Trade : Type := mkTrade {
  entry_date : Z;
  exit_date : Z;
  strategy : string;
  entry_price : Q;
  exit_price : Q;
  quantity : Z;
  pnl : Q;
  return_pct : Q;
  duration : Z    (* days *)
}.
End Trade.
Abbreviation Trade := Trade.Trade.

(** A row of the historical [DataFrame], with its index [date] (a day). *)
Record Bar : Type := mkBar {
  date : Z;
  Open : Q;
  High : Q;
  Low : Q;
  Close : Q;
  Volume : Q
}.

(** An entry of [equity_curve]. *)
Record EquityPoint : Type := mkEquityPoint {
  point_date : Z;           (* 'date' *)
  equity : Q;               (* 'equity' *)
  capital : Q;              (* 'capital' *)
  open_positions : nat      (* 'positions' *)
}.

(** The attributes of a [BacktestEngine] that a run reads and writes. *)
Record BacktestEngine : Type := mkEngine {
  initial_capital : Q;
  current_capital : Q;
  positions : list Position;
  trades : list Trade;
  equity_curve : list EquityPoint;
  risk_manager : RiskManager
}.

(** [BacktestEngine(initial_capital)]. *)
Definition new_engine (initial_capital : Q) : BacktestEngine :=
  mkEngine initial_capital initial_capital [] [] [] default_manager.

(** [==] on two [Position] dataclasses: field by field. *)
Definition position_eqb (a b : Position) : bool :=
  String.eqb (symbol a) (symbol b)
  && String.eqb (option_type a) (option_type b)
  && Qeq_bool (strike_price a) (strike_price b)
  && Z.eqb (expiry_date a) (expiry_date b)
  && Z.eqb (Risk.quantity a) (Risk.quantity b)
  && Qeq_bool (Risk.entry_price a) (Risk.entry_price b)
  && Qeq_bool (current_price a) (current_price b)
  && Z.eqb (entry_time a) (entry_time b)
  && String.eqb (strategy_name a) (strategy_name b).

(** [positions.remove(position)]: drops the first equal element; when there
    is none Python raises [ValueError], which [_close_position] catches
    with the list unchanged. *)
Fixpoint list_remove (position : Position) (positions : list Position) : list Position :=
  match positions with
  | [] => []
  | p :: rest => if position_eqb p position then rest else p :: list_remove position rest
  end.

Section Engine.

(** The value of [datetime.now()], taken to be the same throughout a run. *)
Variable now : Z.

(** The closed form of the pricing engine (see [RationalPricing]). *)
Variable closed_form : Q -> Q -> Q -> Q -> Q -> string -> Q.

(** [returns.std() * np.sqrt(252)] for the daily returns of a column of
    closing prices. *)
Variable annualized_std : list Q -> Q.

(** [_calculate_volatility]. *)
Definition _calculate_volatility (data : list Bar) : Q :=
  if (length data <? 20)%nat then 2 # 10
  else annualized_std (map Close data).

(** [_get_atm_strike]: an [int], the spot rounded to the nearest 50. *)
Definition _get_atm_strike (spot_price : Q) : Z := (py_round (spot_price / 50) * 50)%Z.

(** [_get_next_expiry]: the next Thursday after [date]. *)
Definition _get_next_expiry (date : Z) : Z :=
  let days_ahead := ((3 - weekday date) mod 7)%Z in
  let days_ahead := if (days_ahead =? 0)%Z then 7%Z else days_ahead in
  (date + days_ahead)%Z.

(** [_calculate_option_price]. *)
Definition _calculate_option_price (spot strike : Q) (expiry : Z) (option_type : string) : Q :=
  let time_to_expiry := inject_Z (timedelta_days (midnight expiry) now) / 365 in
  price_option_price closed_form spot strike time_to_expiry (5 # 100) (2 # 10) option_type.

Section Methods.
Variable self : BacktestEngine.

(** [_calculate_position_size]. *)
Definition _calculate_position_size (option_price : Q) : Z :=
  let max_risk := current_capital self * (2 # 100) in
  let position_value := option_price * 50 in
  if Qlt_bool 0 position_value then py_int (max_risk / position_value) else 0%Z.

(** [_should_enter_trade]. *)
Definition _should_enter_trade (data : list Bar) : bool :=
  if (0 <? length (positions self))%nat then false
  else if Qlt_bool (current_capital self) 100000 then false
  else
    let volatility := _calculate_volatility data in
    if (Qlt_bool volatility (15 # 100) || Qlt_bool (5 # 10) volatility)%bool then false
    else true.

(** [_select_strategy]: the volatility is computed on a frame that holds
    the single row of the day. *)
Definition _select_strategy (row : Bar) (strategies : list string) : string :=
  let volatility := _calculate_volatility [row] in
  if Qlt_bool (3 # 10) volatility then "straddle"
  else if Qlt_bool (25 # 100) volatility then "strangle"
  else if Qlt_bool volatility (2 # 10) then "iron_condor"
  else "butterfly".

(** [_enter_trade]. *)
Definition _enter_trade (row : Bar) (strategy : string) : BacktestEngine :=
  let spot_price := Close row in
  let strike_price := _get_atm_strike spot_price in
  let expiry_date := _get_next_expiry (date row) in
  let call_price :=
    _calculate_option_price spot_price (inject_Z strike_price) expiry_date "call" in
  let put_price :=
    _calculate_option_price spot_price (inject_Z strike_price) expiry_date "put" in
  let position_size := _calculate_position_size (call_price + put_price) in
  if (0 <? position_size)%Z then
    let call_position :=
      {| symbol := "NIFTY" +:+ pretty strike_price +:+ "CE";
         option_type := "call";
         strike_price := inject_Z strike_price;
         expiry_date := expiry_date;
         Risk.quantity := position_size;
         Risk.entry_price := call_price;
         current_price := call_price;
         entry_time := midnight (date row);
         strategy_name := strategy |} in
    let put_position :=
      {| symbol := "NIFTY" +:+ pretty strike_price +:+ "PE";
         option_type := "put";
         strike_price := inject_Z strike_price;
         expiry_date := expiry_date;
         Risk.quantity := position_size;
         Risk.entry_price := put_price;
         current_price := put_price;
         entry_time := midnight (date row);
         strategy_name := strategy |} in
    mkEngine (initial_capital self)
             (current_capital self - (call_price + put_price) * inject_Z position_size * 50)
             (positions self ++ [call_position; put_position])
             (trades self) (equity_curve self) (risk_manager self)
  else self.

(** [_close_position]: the division in [return_pct] raises for a zero entry
    price, and the [except] then leaves the engine as it was.  This is the
    division of two Python numbers, which a zero entry price and a zero mark
    are ([max(x, 0)] answers its literal [0] for a negative [x]).  With a
    zero entry price and a mark that is a NumPy scalar the division gives
    [inf] or [nan] without raising and the position is closed: the rational
    prices of this embedding do not tell the two kinds of number apart, and
    the properties below that close positions assume entry prices that are
    not zero. *)
Definition _close_position (position : Position) (date : Z) (reason : string)
  : BacktestEngine :=
  let pnl :=
    (current_price position - Risk.entry_price position)
    * inject_Z (Risk.quantity position) * 50 in
  if Qeq_bool (Risk.entry_price position) 0 then self
  else
    let return_pct :=
      (current_price position - Risk.entry_price position) / Risk.entry_price position in
    let trade :=
      {| Trade.entry_date := entry_time position;
         Trade.exit_date := date;
         Trade.strategy := strategy_name position;
         Trade.entry_price := Risk.entry_price position;
         Trade.exit_price := current_price position;
         Trade.quantity := Risk.quantity position;
         Trade.pnl := pnl;
         Trade.return_pct := return_pct;
         Trade.duration := timedelta_days (midnight date) (entry_time position) |} in
    mkEngine (initial_capital self)
             (current_capital self + pnl)
             (list_remove position (positions self))
             (trades self ++ [trade]) (equity_curve self) (risk_manager self).

(** [_update_position_values]. *)
Definition _update_position_values (row : Bar) : BacktestEngine :=
  mkEngine (initial_capital self) (current_capital self)
           (map (fun position =>
                   let new_price :=
                     _calculate_option_price (Close row) (strike_price position)
                       (expiry_date position) (option_type position) in
                   mkPosition (symbol position) (option_type position)
                     (strike_price position) (expiry_date position)
                     (Risk.quantity position) (Risk.entry_price position)
                     new_price (entry_time position) (strategy_name position))
                (positions self))
           (trades self) (equity_curve self) (risk_manager self).

(** [sum(pos.current_price * pos.quantity * 50 for pos in self.positions)]. *)
Definition position_value : Q :=
  py_sum (map (fun pos => current_price pos * inject_Z (Risk.quantity pos) * 50)
              (positions self)).

(** [_update_equity_curve]. *)
Definition _update_equity_curve (date : Z) : BacktestEngine :=
  let total_value := current_capital self + position_value in
  mkEngine (initial_capital self) (current_capital self) (positions self) (trades self)
           (equity_curve self
              ++ [mkEquityPoint date total_value (current_capital self)
                                (length (positions self))])
           (risk_manager self).

End Methods.

(** [_check_exit_signals]: the positions to close are collected first, then
    closed one after the other. *)
Definition positions_to_close (self : BacktestEngine) : list (Position * string) :=
  flat_map (fun position =>
              let '(should_exit, reason) :=
                should_exit_position (risk_manager self) now position (current_price position) in
              if should_exit then [(position, reason)] else [])
           (positions self).

Definition _check_exit_signals (self : BacktestEngine) (date : Z) : BacktestEngine :=
  fold_left (fun engine '(position, reason) => _close_position engine position date reason)
            (positions_to_close self) self.

(** [_process_day]. *)
Definition _process_day (self : BacktestEngine) (row : Bar) (data : list Bar)
    (strategies : list string) : BacktestEngine :=
  let self := _check_exit_signals self (date row) in
  let self :=
    if _should_enter_trade self data then
      let strategy := _select_strategy row strategies in
      if negb (String.eqb strategy "") then _enter_trade self row strategy else self
    else self in
  _update_position_values self row.

(** [_close_all_positions]: iterates over a copy of the list. *)
Definition _close_all_positions (self : BacktestEngine) (last_row : Bar) : BacktestEngine :=
  fold_left (fun engine position =>
               _close_position engine position (date last_row) "end_of_backtest")
            (positions self) self.

(** The day loop of [run_backtest], over the rows [rows] of the frame
    [data] (the whole loop is [run_days self data data strategies]). *)
Definition run_days (self : BacktestEngine) (rows data : list Bar) (strategies : list string)
  : BacktestEngine :=
  fold_left (fun engine row =>
               _update_equity_curve (_process_day engine row data strategies) (date row))
            rows self.

(** [run_backtest], up to the state of the engine from which
    [_calculate_results] computes the statistics: [None] when no bar lies
    in the date range. *)
Definition run_backtest (self : BacktestEngine) (historical_data : list Bar)
    (start_date end_date : Z) (strategies : list string) : option BacktestEngine :=
  let data :=
    filter (fun row => (start_date <=? date row)%Z && (date row <=? end_date)%Z)
           historical_data in
  match data with
  | [] => None
  | _ =>
    let self :=
      mkEngine (initial_capital self) (initial_capital self) [] [] [] (risk_manager self) in
    let self := run_days self data data strategies in
    Some (_close_all_positions self (List.last data (mkBar 0 0 0 0 0 0)))
  end.

End Engine.
End Backtest.

(** ** [trading_engine.py]: how the live engine opens a strategy *)

Module TradingEngine.
Import PyNum PyStr Risk RationalPricing.
Local Open Scope Q_scope.

Section Engine.

(** The value of [datetime.now()]. *)
Variable now : Z.

(** The closed form of the pricing engine (see [RationalPricing]). *)
Variable closed_form : Q -> Q -> Q -> Q -> Q -> string -> Q.

(** [_calculate_option_price]: the horizon is the literal [30 / 365.0]. *)
Definition _calculate_option_price (spot strike : Q) (option_type : string) : Q :=
  let time_to_expiry := 30 / 365 in
  price_option_price closed_form spot strike time_to_expiry (5 # 100) (2 # 10) option_type.

(** [_get_next_expiry]: the next Thursday after today. *)
Definition _get_next_expiry : Z :=
  let today := (now / us_per_day)%Z in
  let days_ahead := ((3 - weekday today) mod 7)%Z in
  let days_ahead := if (days_ahead =? 0)%Z then 7%Z else days_ahead in
  (today + days_ahead)%Z.

(** [_calculate_strike_prices]. *)
Definition _calculate_strike_prices (spot_price : Q) (strategy_name : string) : list Z :=
  let atm_strike := (py_round (spot_price / 50) * 50)%Z in
  if String.eqb strategy_name "straddle" then [atm_strike]
  else if String.eqb strategy_name "strangle" then
    [(atm_strike + 100)%Z; (atm_strike - 100)%Z]
  else if String.eqb strategy_name "iron_condor" then
    [(atm_strike - 200)%Z; (atm_strike - 100)%Z; (atm_strike + 100)%Z; (atm_strike + 200)%Z]
  else if String.eqb strategy_name "butterfly" then
    [(atm_strike - 100)%Z; atm_strike; (atm_strike + 100)%Z]
  else [atm_strike].

(** The [Position(...)] built for one leg. *)
Definition leg_position (spot_price : Q) (strike : Z) (opt_type : string) (qty : Z)
    (strategy_name : string) : Position :=
  let price := _calculate_option_price spot_price (inject_Z strike) opt_type in
  {| symbol := "NIFTY" +:+ pretty strike +:+ (if String.eqb opt_type "call" then "CE" else "PE");
     option_type := opt_type;
     strike_price := inject_Z strike;
     expiry_date := _get_next_expiry;
     quantity := qty;
     entry_price := price;
     current_price := price;
     entry_time := now;
     strategy_name := strategy_name |}.

(** [_create_straddle_position]: the positions it appends. *)
Definition _create_straddle_position (spot_price : Q) (strike_price : Z) (quantity : Z)
  : list Position :=
  [ leg_position spot_price strike_price "call" quantity "straddle";
    leg_position spot_price strike_price "put" quantity "straddle" ].

(** [_create_strangle_position]; a list that is too short raises
    [IndexError], which the method catches without adding a position. *)
Definition _create_strangle_position (spot_price : Q) (strike_prices : list Z) (quantity : Z)
  : list Position :=
  match strike_prices with
  | call_strike :: put_strike :: _ =>
    [ leg_position spot_price call_strike "call" quantity "strangle";
      leg_position spot_price put_strike "put" quantity "strangle" ]
  | _ => []
  end.

(** [_create_iron_condor_position]: long put, short put, short call, long
    call. *)
Definition _create_iron_condor_position (spot_price : Q) (strike_prices : list Z)
    (quantity : Z) : list Position :=
  match strike_prices with
  | put_long :: put_short :: call_short :: call_long :: _ =>
    map (fun '(strike, opt_type, qty) =>
           leg_position spot_price strike opt_type qty "iron_condor")
        [ (put_long, "put"%string, quantity); (put_short, "put"%string, (- quantity)%Z);
          (call_short, "call"%string, (- quantity)%Z); (call_long, "call"%string, quantity) ]
  | _ => []
  end.

(** [_create_butterfly_position]: long call, two short calls, long call. *)
Definition _create_butterfly_position (spot_price : Q) (strike_prices : list Z)
    (quantity : Z) : list Position :=
  match strike_prices with
  | lower_strike :: middle_strike :: upper_strike :: _ =>
    map (fun '(strike, qty) => leg_position spot_price strike "call" qty "butterfly")
        [ (lower_strike, quantity); (middle_strike, (-2 * quantity)%Z);
          (upper_strike, quantity) ]
  | _ => []
  end.

(** The dispatch on [strategy_name] at the end of [_enter_position]: the
    positions added for a strategy, its strikes and a contract count. *)
Definition create_positions (spot_price : Q) (strategy_name : string)
    (strike_prices : list Z) (position_size : Z) : list Position :=
  if String.eqb strategy_name "straddle" then
    match strike_prices with
    | strike :: _ => _create_straddle_position spot_price strike position_size
    | [] => []
    end
  else if String.eqb strategy_name "strangle" then
    _create_strangle_position spot_price strike_prices position_size
  else if String.eqb strategy_name "iron_condor" then
    _create_iron_condor_position spot_price strike_prices position_size
  else if String.eqb strategy_name "butterfly" then
    _create_butterfly_position spot_price strike_prices position_size
  else [].

End Engine.
End TradingEngine.

(** ** [option_strategies.py]: payoff, breakeven and maximum profit and loss *)

Module StrategyClasses.
Import Pricing OptionPricingEngine Strategies.
Local Open Scope R_scope.

(** A float that may be [float('inf')]. *)
Inductive extended : Type :=
| Fin (x : R)
| Infinity.

(** The dictionary [{'max_profit': ..., 'max_loss': ...}]. *)
Record MaxProfitLoss : Type := mkMaxProfitLoss {
  max_profit : extended;
  max_loss : R
}.

(** [strategy_params.option_prices.get(key, 0)]. *)
Definition price_of (strategy_params : StrategyParams) (key : string) : R :=
  match option_prices strategy_params !! key with
  | Some price => price
  | None => 0
  end.

Module StraddleStrategy.

(** [StraddleStrategy.calculate_payoff]. *)
Definition calculate_payoff (spot_price : R) (strategy_params : StrategyParams) : outcome R :=
  let* strike := index (strike_prices strategy_params) 0 in
  let call_payoff := Rmax (spot_price - strike) 0 in
  let put_payoff := Rmax (strike - spot_price) 0 in
  Ok (call_payoff + put_payoff).

(** [StraddleStrategy.calculate_breakeven]. *)
Definition calculate_breakeven (strategy_params : StrategyParams) : outcome (list R) :=
  let* strike := index (strike_prices strategy_params) 0 in
  let net_debit := price_of strategy_params "call" + price_of strategy_params "put" in
  Ok [strike - net_debit; strike + net_debit].

(** [StraddleStrategy.calculate_max_profit_loss]. *)
Definition calculate_max_profit_loss (strategy_params : StrategyParams) : outcome MaxProfitLoss :=
  let net_debit := price_of strategy_params "call" + price_of strategy_params "put" in
  Ok (mkMaxProfitLoss Infinity net_debit).

End StraddleStrategy.

Module StrangleStrategy.

(** [StrangleStrategy.calculate_payoff]. *)
Definition calculate_payoff (spot_price : R) (strategy_params : StrategyParams) : outcome R :=
  let* call_strike := index (strike_prices strategy_params) 0 in   (* higher strike *)
  let* put_strike := index (strike_prices strategy_params) 1 in    (* lower strike *)
  let call_payoff := Rmax (spot_price - call_strike) 0 in
  let put_payoff := Rmax (put_strike - spot_price) 0 in
  Ok (call_payoff + put_payoff).

(** [StrangleStrategy.calculate_breakeven]. *)
Definition calculate_breakeven (strategy_params : StrategyParams) : outcome (list R) :=
  let* call_strike := index (strike_prices strategy_params) 0 in
  let* put_strike := index (strike_prices strategy_params) 1 in
  let net_debit := price_of strategy_params "call" + price_of strategy_params "put" in
  Ok [put_strike - net_debit; call_strike + net_debit].

(** [StrangleStrategy.calculate_max_profit_loss]. *)
Definition calculate_max_profit_loss (strategy_params : StrategyParams) : outcome MaxProfitLoss :=
  let net_debit := price_of strategy_params "call" + price_of strategy_params "put" in
  Ok (mkMaxProfitLoss Infinity net_debit).

End StrangleStrategy.

Module IronCondorStrategy.

(** The [net_credit] of the iron condor. *)
Definition net_credit (strategy_params : StrategyParams) : R :=
  price_of strategy_params "put_short" + price_of strategy_params "call_short"
  - price_of strategy_params "put_long" - price_of strategy_params "call_long".

(** [IronCondorStrategy.calculate_payoff]. *)
Definition calculate_payoff (spot_price : R) (strategy_params : StrategyParams) : outcome R :=
  let* put_long := index (strike_prices strategy_params) 0 in
  let* put_short := index (strike_prices strategy_params) 1 in
  let* call_short := index (strike_prices strategy_params) 2 in
  let* call_long := index (strike_prices strategy_params) 3 in
  let long_put_payoff := Rmax (put_long - spot_price) 0 in
  let short_put_payoff := - Rmax (put_short - spot_price) 0 in
  let short_call_payoff := - Rmax (spot_price - call_short) 0 in
  let long_call_payoff := Rmax (spot_price - call_long) 0 in
  Ok (long_put_payoff + short_put_payoff + short_call_payoff + long_call_payoff).

(** [IronCondorStrategy.calculate_breakeven]. *)
Definition calculate_breakeven (strategy_params : StrategyParams) : outcome (list R) :=
  let* put_short := index (strike_prices strategy_params) 1 in
  let* call_short := index (strike_prices strategy_params) 2 in
  let net_credit := net_credit strategy_params in
  Ok [put_short - net_credit; call_short + net_credit].

(** [IronCondorStrategy.calculate_max_profit_loss]. *)
Definition calculate_max_profit_loss (strategy_params : StrategyParams) : outcome MaxProfitLoss :=
  let net_credit := net_credit strategy_params in
  let* put_long := index (strike_prices strategy_params) 0 in
  let* put_short := index (strike_prices strategy_params) 1 in
  let* call_short := index (strike_prices strategy_params) 2 in
  let* call_long := index (strike_prices strategy_params) 3 in
  let put_wing_width := put_short - put_long in
  let call_wing_width := call_long - call_short in
  Ok (mkMaxProfitLoss (Fin net_credit) (Rmax put_wing_width call_wing_width - net_credit)).

End IronCondorStrategy.

Module ButterflyStrategy.

(** The [net_debit] of the butterfly. *)
Definition net_debit (strategy_params : StrategyParams) : R :=
  price_of strategy_params "lower_call" + price_of strategy_params "upper_call"
  - 2 * price_of strategy_params "middle_call".

(** [ButterflyStrategy.calculate_payoff]. *)
Definition calculate_payoff (spot_price : R) (strategy_params : StrategyParams) : outcome R :=
  let* lower_strike := index (strike_prices strategy_params) 0 in
  let* middle_strike := index (strike_prices strategy_params) 1 in
  let* upper_strike := index (strike_prices strategy_params) 2 in
  let long_lower_payoff := Rmax (spot_price - lower_strike) 0 in
  let short_middle_payoff := -2 * Rmax (spot_price - middle_strike) 0 in
  let long_upper_payoff := Rmax (spot_price - upper_strike) 0 in
  Ok (long_lower_payoff + short_middle_payoff + long_upper_payoff).

(** [ButterflyStrategy.calculate_breakeven]. *)
Definition calculate_breakeven (strategy_params : StrategyParams) : outcome (list R) :=
  let* lower_strike := index (strike_prices strategy_params) 0 in
  let* middle_strike := index (strike_prices strategy_params) 1 in
  let* upper_strike := index (strike_prices strategy_params) 2 in
  let net_debit := net_debit strategy_params in
  Ok [lower_strike + net_debit; upper_strike - net_debit].

(** [ButterflyStrategy.calculate_max_profit_loss]. *)
Definition calculate_max_profit_loss (strategy_params : StrategyParams) : outcome MaxProfitLoss :=
  let* lower_strike := index (strike_prices strategy_params) 0 in
  let* middle_strike := index (strike_prices strategy_params) 1 in
  let* upper_strike := index (strike_prices strategy_params) 2 in
  let net_debit := net_debit strategy_params in
  let max_profit := (middle_strike - lower_strike) - net_debit in
  Ok (mkMaxProfitLoss (Fin max_profit) net_debit).

End ButterflyStrategy.

(** The four instances held by [StrategySelector.strategies], with the
    dispatch of their methods. *)
Inductive OptionStrategy : Type :=
| Straddle
| Strangle
| IronCondor
| Butterfly.

Definition calculate_payoff (strategy : OptionStrategy) (spot_price : R)
    (strategy_params : StrategyParams) : outcome R :=
  match strategy with
  | Straddle => StraddleStrategy.calculate_payoff spot_price strategy_params
  | Strangle => StrangleStrategy.calculate_payoff spot_price strategy_params
  | IronCondor => IronCondorStrategy.calculate_payoff spot_price strategy_params
  | Butterfly => ButterflyStrategy.calculate_payoff spot_price strategy_params
  end.

Definition calculate_greeks (strategy : OptionStrategy) (strategy_params : StrategyParams)
  : outcome Greeks :=
  match strategy with
  | Straddle => Strategies.StraddleStrategy.calculate_greeks strategy_params
  | Strangle => Strategies.StrangleStrategy.calculate_greeks strategy_params
  | IronCondor => Strategies.IronCondorStrategy.calculate_greeks strategy_params
  | Butterfly => Strategies.ButterflyStrategy.calculate_greeks strategy_params
  end.

Definition calculate_breakeven (strategy : OptionStrategy) (strategy_params : StrategyParams)
  : outcome (list R) :=
  match strategy with
  | Straddle => StraddleStrategy.calculate_breakeven strategy_params
  | Strangle => StrangleStrategy.calculate_breakeven strategy_params
  | IronCondor => IronCondorStrategy.calculate_breakeven strategy_params
  | Butterfly => ButterflyStrategy.calculate_breakeven strategy_params
  end.

Definition calculate_max_profit_loss (strategy : OptionStrategy)
    (strategy_params : StrategyParams) : outcome MaxProfitLoss :=
  match strategy with
  | Straddle => StraddleStrategy.calculate_max_profit_loss strategy_params
  | Strangle => StrangleStrategy.calculate_max_profit_loss strategy_params
  | IronCondor => IronCondorStrategy.calculate_max_profit_loss strategy_params
  | Butterfly => ButterflyStrategy.calculate_max_profit_loss strategy_params
  end.

(** [StrategySelector.get_strategy]: [self.strategies.get(strategy_name)]. *)
Definition get_strategy (strategy_name : string) : option OptionStrategy :=
  if String.eqb strategy_name "straddle" then Some Straddle
  else if String.eqb strategy_name "strangle" then Some Strangle
  else if String.eqb strategy_name "iron_condor" then Some IronCondor
  else if String.eqb strategy_name "butterfly" then Some Butterfly
  else None.

(** The dictionary [analyze_strategy_performance] returns for a known
    strategy. *)
Record Analysis : Type := mkAnalysis {
  payoffs : list R;
  greeks : Greeks;
  breakeven_points : list R;
  analysis_max_profit : extended;
  analysis_max_loss : R
}.

(** [[f(x) for x in xs]] where [f] may raise. *)
Fixpoint map_outcome {A B : Type} (f : A -> outcome B) (xs : list A) : outcome (list B) :=
  match xs with
  | [] => Ok []
  | x :: rest =>
    let* y := f x in
    let* ys := map_outcome f rest in
    Ok (y :: ys)
  end.

(** [StrategySelector.analyze_strategy_performance]: [None] is the empty
    dictionary returned for an unknown name; the method has no [try], so an
    exception of a strategy method propagates. *)
Definition analyze_strategy_performance (strategy_name : string)
    (strategy_params : StrategyParams) (spot_prices : list R) : outcome (option Analysis) :=
  match get_strategy strategy_name with
  | None => Ok None
  | Some strategy =>
    let* payoffs :=
      map_outcome (fun spot => calculate_payoff strategy spot strategy_params) spot_prices in
    let* greeks := calculate_greeks strategy strategy_params in
    let* breakeven := calculate_breakeven strategy strategy_params in
    let* max_pnl := calculate_max_profit_loss strategy strategy_params in
    Ok (Some (mkAnalysis payoffs greeks breakeven (max_profit max_pnl) (max_loss max_pnl)))
  end.

End StrategyClasses.

(** ** [option_pricing.py]: the volatility surface *)

Module VolatilitySurface.
Import PyNum.
Local Open Scope Q_scope.

(** [surface_data]: a dictionary from [(strike, expiry)] to a volatility.
    The interpolation walks its keys in insertion order, so it is kept as
    the list of its items in that order, with pairwise different keys. *)
Definition key : Type := (Q * Q)%type.

Definition key_eqb (a b : key) : bool :=
  Qeq_bool (fst a) (fst b) && Qeq_bool (snd a) (snd b).

(** [d[k] = v]: an existing key keeps its place and gets the new value, a
    new key goes to the end. *)
Fixpoint dict_set (k : key) (v : Q) (d : list (key * Q)) : list (key * Q) :=
  match d with
  | [] => [(k, v)]
  | (k', v') :: rest =>
    if key_eqb k' k then (k', v) :: rest else (k', v') :: dict_set k v rest
  end.

(** [d.get(k)]. *)
Fixpoint dict_get (k : key) (d : list (key * Q)) : option Q :=
  match d with
  | [] => None
  | (k', v') :: rest => if key_eqb k' k then Some v' else dict_get k rest
  end.

(** [min(xs, key=f)] for a list [x0 :: xs]: the first element whose key is
    the least. *)
Fixpoint min_by (f : Q -> Q) (best : Q) (xs : list Q) : Q :=
  match xs with
  | [] => best
  | x :: rest => min_by f (if Qlt_bool (f x) (f best) then x else best) rest
  end.

(** [VolatilitySurface.add_volatility_point]. *)
Definition add_volatility_point (surface_data : list (key * Q)) (strike expiry iv : Q)
  : list (key * Q) :=
  dict_set (strike, expiry) iv surface_data.

(** [VolatilitySurface._interpolate_volatility]. *)
Definition _interpolate_volatility (surface_data : list (key * Q)) (strike expiry : Q) : Q :=
  match surface_data with
  | [] => 2 # 10
  | (k0, _) :: rest =>
    let strikes := map (fun item => fst (fst item)) rest in
    let expiries := map (fun item => snd (fst item)) rest in
    let closest_strike := min_by (fun x => Qabs (x - strike)) (fst k0) strikes in
    let closest_expiry := min_by (fun x => Qabs (x - expiry)) (snd k0) expiries in
    match dict_get (closest_strike, closest_expiry) surface_data with
    | Some iv => iv
    | None => 2 # 10
    end
  end.

(** [VolatilitySurface.get_volatility]. *)
Definition get_volatility (surface_data : list (key * Q)) (strike expiry : Q) : Q :=
  match dict_get (strike, expiry) surface_data with
  | Some iv => iv
  | None => _interpolate_volatility surface_data strike expiry
  end.

End VolatilitySurface.

(** ** [risk_management.py]: positions, limits, sizing and hedging *)

Module RiskLimits.
Import PyNum PyStr Risk.
Local Open Scope Q_scope.

(** [class RiskLevel(Enum)]. *)
Inductive RiskLevel : Type :=
| LOW
| MEDIUM
| HIGH
| CRITICAL.

(** An alert dictionary of [check_risk_limits]. *)
Record Alert : Type := mkAlert {
  alert_type : string;      (* 'type' *)
  level : RiskLevel;        (* 'level' *)
  message : string;         (* 'message' *)
  action : string           (* 'action' *)
}.

(** The ['quantity'] of a recommendation: an [int], or the string ['all']. *)
Inductive hedge_quantity : Type :=
| Contracts (n : Z)
| AllPositions.

(** A recommendation dictionary of [get_hedging_recommendations]. *)
Record Recommendation : Type := mkRecommendation {
  rec_type : string;             (* 'type' *)
  rec_action : string;           (* 'action' *)
  rec_quantity : hedge_quantity; (* 'quantity' *)
  reason : string                (* 'reason' *)
}.

(** [add_position]. *)
Definition add_position (self : RiskManager) (position : Position) : RiskManager :=
  mkRiskManager (max_position_size self) (max_daily_loss self) (stop_loss_pct self)
                (take_profit_pct self) (daily_pnl self) (positions self ++ [position]).

(** [remove_position]. *)
Definition remove_position (self : RiskManager) (position_id : string) : RiskManager :=
  mkRiskManager (max_position_size self) (max_daily_loss self) (stop_loss_pct self)
                (take_profit_pct self) (daily_pnl self)
                (List.filter (fun p => negb (String.eqb (symbol p) position_id))
                             (positions self)).

(** [if cond: alerts.append(alert)]. *)
Definition append_if {A : Type} (cond : bool) (item : A) (items : list A) : list A :=
  if cond then items ++ [item] else items.

Section Formatting.

(** The text Python's f-strings print for a number. *)
Variable repr : Q -> string.

(** [check_risk_limits]: the list it returns (and keeps in
    [self.risk_alerts]). *)
Definition check_risk_limits (self : RiskManager) (current_prices : gmap string Q)
  : list Alert :=
  let alerts := [] in
  let metrics := calculate_portfolio_metrics self current_prices in
  let alerts :=
    append_if (Qlt_bool (max_position_size self) (Qabs (portfolio_value metrics)))
      (mkAlert "position_size" CRITICAL
         ("Portfolio value " +:+ repr (portfolio_value metrics) +:+ " exceeds limit "
            +:+ repr (max_position_size self))
         "reduce_positions") alerts in
  let alerts :=
    append_if (Qlt_bool (daily_pnl self) (- max_daily_loss self))
      (mkAlert "daily_loss" CRITICAL
         ("Daily loss " +:+ repr (daily_pnl self) +:+ " exceeds limit "
            +:+ repr (max_daily_loss self))
         "close_all_positions") alerts in
  let alerts :=
    append_if (Qlt_bool (max_position_size self * (1 # 10)) (Qabs (total_delta metrics)))
      (mkAlert "delta_exposure" HIGH
         ("Delta exposure " +:+ repr (total_delta metrics) +:+ " is too high")
         "hedge_delta") alerts in
  let alerts :=
    append_if (Qlt_bool (max_position_size self * (1 # 100)) (Qabs (total_gamma metrics)))
      (mkAlert "gamma_exposure" MEDIUM
         ("Gamma exposure " +:+ repr (total_gamma metrics) +:+ " is high")
         "monitor_closely") alerts in
  let alerts :=
    append_if (Qlt_bool (total_theta metrics) (- max_position_size self * (1 # 1000)))
      (mkAlert "theta_decay" MEDIUM
         ("High theta decay " +:+ repr (total_theta metrics))
         "consider_rolling") alerts in
  let alerts :=
    append_if (Qlt_bool (max_position_size self * (5 # 100)) (var_95 metrics))
      (mkAlert "var_limit" HIGH
         ("VaR 95% " +:+ repr (var_95 metrics) +:+ " exceeds limit")
         "reduce_risk") alerts in
  alerts.

End Formatting.

(** [get_hedging_recommendations]. *)
Definition get_hedging_recommendations (self : RiskManager) (metrics : RiskMetrics)
  : list Recommendation :=
  let recommendations := [] in
  let recommendations :=
    if Qlt_bool (max_position_size self * (5 # 100)) (Qabs (total_delta metrics)) then
      if Qlt_bool 0 (total_delta metrics) then
        recommendations
          ++ [mkRecommendation "delta_hedge" "buy_puts"
                (Contracts (py_int (Qabs (total_delta metrics) / 50)))
                "Reduce positive delta exposure"]
      else
        recommendations
          ++ [mkRecommendation "delta_hedge" "buy_calls"
                (Contracts (py_int (Qabs (total_delta metrics) / 50)))
                "Reduce negative delta exposure"]
    else recommendations in
  let recommendations :=
    append_if (Qlt_bool (max_position_size self * (5 # 1000)) (Qabs (total_gamma metrics)))
      (mkRecommendation "gamma_hedge" "reduce_position_size"
         (Contracts (py_int (Qabs (total_gamma metrics) / 10)))
         "Reduce gamma exposure") recommendations in
  let recommendations :=
    append_if (Qlt_bool (total_theta metrics) (- max_position_size self * (5 # 10000)))
      (mkRecommendation "theta_hedge" "roll_positions" AllPositions "Reduce theta decay")
      recommendations in
  recommendations.

(** [strategy_params.get(key, default)]. *)
Definition get_default (d : gmap string Q) (key : string) (default : Q) : Q :=
  match d !! key with
  | Some v => v
  | None => default
  end.

(** [calculate_position_sizing]: the division by a zero [avg_win] raises
    inside the [try], whose [except] returns 0. *)
Definition calculate_position_sizing (strategy_params : gmap string Q)
    (available_capital : Q) : Z :=
  let win_rate := get_default strategy_params "win_rate" (5 # 10) in
  let avg_win := get_default strategy_params "avg_win" 100 in
  let avg_loss := get_default strategy_params "avg_loss" 100 in
  if Qeq_bool avg_loss 0 then 0%Z
  else if Qeq_bool avg_win 0 then 0%Z
  else
    let kelly_fraction := (win_rate * avg_win - (1 - win_rate) * avg_loss) / avg_win in
    let kelly_fraction := Qmax 0 (Qmin kelly_fraction (25 # 100)) in
    let risk_per_trade := available_capital * kelly_fraction in
    let max_loss_per_contract := get_default strategy_params "max_loss" 1000 in
    if Qeq_bool max_loss_per_contract 0 then 0%Z
    else
      let position_size := py_int (risk_per_trade / max_loss_per_contract) in
      let max_position := py_int (available_capital * (1 # 10) / max_loss_per_contract) in
      let position_size := Z.min position_size max_position in
      Z.max 0 position_size.

End RiskLimits.

(** ** [backtesting.py]: the statistics of [_calculate_results] *)

Module BacktestResults.
Import PyNum Backtest.
Local Open Scope Q_scope.

(** [np.mean] of a list of numbers. *)
Definition np_mean (xs : list Q) : Q := py_sum xs / inject_Z (Z.of_nat (length xs)).

(** [max(xs)] and [min(xs)] of a list that starts with [x]. *)
Definition py_max (x : Q) (xs : list Q) : Q := fold_left Qmax xs x.
Definition py_min (x : Q) (xs : list Q) : Q := fold_left Qmin xs x.

(** A [profit_factor]: a float, or [float('inf')]. *)
Inductive profit_factor_value : Type :=
| Ratio (x : Q)
| Inf.

(** The fields of a [BacktestResult] that are computed from the trades. *)
Record TradeStatistics : Type := mkTradeStatistics {
  win_rate : Q;
  profit_factor : profit_factor_value;
  total_trades : nat;
  winning_trades : nat;
  losing_trades : nat;
  avg_win : Q;
  avg_loss : Q;
  max_win : Q;
  max_loss : Q
}.

(** The trade statistics of [_calculate_results], with the three trade
    counts of the [BacktestResult] it builds. *)
Definition trade_statistics (trades : list Trade) : TradeStatistics :=
  let winning := List.filter (fun t => Qlt_bool 0 (Trade.pnl t)) trades in
  let losing := List.filter (fun t => Qlt_bool (Trade.pnl t) 0) trades in
  match trades with
  | [] => mkTradeStatistics 0 (Ratio 0) 0 (length winning) (length losing) 0 0 0 0
  | first :: rest =>
    let win_rate :=
      inject_Z (Z.of_nat (length winning)) / inject_Z (Z.of_nat (length trades)) in
    let avg_win :=
      match winning with [] => 0 | _ => np_mean (map Trade.pnl winning) end in
    let avg_loss :=
      match losing with [] => 0 | _ => np_mean (map Trade.pnl losing) end in
    let max_win := py_max (Trade.pnl first) (map Trade.pnl rest) in
    let max_loss := py_min (Trade.pnl first) (map Trade.pnl rest) in
    let profit_factor :=
      if negb (Qeq_bool avg_loss 0) then Ratio (Qabs (avg_win / avg_loss)) else Inf in
    mkTradeStatistics win_rate profit_factor (length trades) (length winning)
                      (length losing) avg_win avg_loss max_win max_loss
  end.

(** [np.maximum.accumulate]: the running maximum, from a first value
    [peak]. *)
Fixpoint maximum_accumulate (peak : Q) (xs : list Q) : list Q :=
  match xs with
  | [] => []
  | x :: rest => Qmax peak x :: maximum_accumulate (Qmax peak x) rest
  end.

(** The maximum drawdown of [_calculate_results], from the equity values of
    the curve; the method answers 0 for an empty curve. *)
Definition max_drawdown (equity_values : list Q) : Q :=
  match equity_values with
  | [] => 0
  | first :: rest =>
    let peak := first :: maximum_accumulate first rest in
    let drawdown :=
      map (fun '(value, peak) => (value - peak) / peak) (combine equity_values peak) in
    match drawdown with
    | [] => 0
    | d :: ds => py_min d ds
    end
  end.

End BacktestResults.

(** * Properties *)

Module GaussianFacts.
Import RealAnalysis Gaussian.
Local Open Scope R_scope.

Lemma norm_pdf_pos (x : R) : 0 < norm_pdf x.
Proof. apply Rdiv_lt_0_compat; [apply kernel_pos|apply mass_pos]. Qed.

(** The distribution function has the density as derivative. *)
Lemma norm_cdf_derivable_pt_lim (x : R) : derivable_pt_lim norm_cdf x (norm_pdf x).
Proof.
  unfold norm_pdf.
  replace (kernel x / mass) with (0 + / mass * kernel x) by (unfold Rdiv; ring).
  change norm_cdf with (plus_fct (fct_cte (1 / 2)) (fun t => area t / mass)).
  apply derivable_pt_lim_plus; [apply derivable_pt_lim_const|].
  apply derivable_pt_lim_local with (f := mult_real_fct (/ mass) area)
                                    (delta := mkposreal 1 Rlt_0_1).
  - intros y _. unfold mult_real_fct, Rdiv. ring.
  - apply derivable_pt_lim_scal, area_derivable_pt_lim.
Qed.

Lemma norm_cdf_increasing (x y : R) : x <= y -> norm_cdf x <= norm_cdf y.
Proof.
  intros H. unfold norm_cdf.
  pose proof (area_increasing x y H). pose proof mass_pos.
  apply Rplus_le_compat_l. unfold Rdiv.
  apply Rmult_le_compat_r; [left; now apply Rinv_0_lt_compat|assumption].
Qed.

(** Symmetry of the normal law. *)
Lemma norm_cdf_opp (x : R) : norm_cdf (- x) = 1 - norm_cdf x.
Proof. unfold norm_cdf. rewrite area_odd. field. apply Rgt_not_eq, mass_pos. Qed.

Lemma norm_cdf_le_1 (x : R) : norm_cdf x <= 1.
Proof.
  unfold norm_cdf. pose proof (area_le_half_mass x). pose proof half_mass_pos.
  assert (area x / mass <= 1 / 2); [|lra].
  unfold mass. apply div_le_bound; lra.
Qed.

Lemma norm_cdf_nonneg (x : R) : 0 <= norm_cdf x.
Proof. pose proof (norm_cdf_le_1 (- x)). rewrite norm_cdf_opp in H. lra. Qed.

(** The limits at both ends: [norm_cdf (- n)] tends to [0] and
    [norm_cdf n] tends to [1]. *)
Lemma norm_cdf_cv_1 : Un_cv (fun n => norm_cdf (INR n)) 1.
Proof.
  intros eps Heps.
  pose proof mass_pos as Hm.
  destruct (half_mass_cv (eps * mass)) as [N HN]; [nra|].
  exists N. intros n Hn. specialize (HN n Hn).
  unfold R_dist in *. unfold area_seq in HN.
  pose proof (area_le_half_mass (INR n)) as Hle.
  rewrite Rabs_left1 in HN by lra.
  rewrite Rabs_left1 by (pose proof (norm_cdf_le_1 (INR n)); lra).
  unfold norm_cdf.
  assert (E : - (1 / 2 + area (INR n) / mass - 1) = - (area (INR n) - half_mass) / mass).
  { unfold mass. field. pose proof half_mass_pos. lra. }
  rewrite E. apply div_lt_bound; lra.
Qed.

Lemma norm_cdf_cv_0 : Un_cv (fun n => norm_cdf (- INR n)) 0.
Proof.
  intros eps Heps. destruct (norm_cdf_cv_1 eps Heps) as [N HN].
  exists N. intros n Hn. specialize (HN n Hn).
  unfold R_dist in *. rewrite norm_cdf_opp.
  replace (1 - norm_cdf (INR n) - 0) with (- (norm_cdf (INR n) - 1)) by ring.
  now rewrite Rabs_Ropp.
Qed.

End GaussianFacts.

Module BlackScholesAnalysis.
Import RealAnalysis Gaussian GaussianFacts.
Local Open Scope R_scope.

(** Shifting the kernel by [s] multiplies it by [exp (- (c s + s^2/2))]. *)
Lemma kernel_shift_le (a b s c : R) :
  0 < a -> 0 < b ->
  c * s + s * s / 2 <= ln a - ln b ->
  b * kernel c <= a * kernel (c + s).
Proof.
  intros Ha Hb H. unfold kernel.
  rewrite <- (exp_ln a Ha) at 1. rewrite <- (exp_ln b Hb) at 1.
  rewrite <- !exp_plus. apply exp_le_compat. nra.
Qed.

(** The discounted-spot term dominates the discounted-strike term: with
    [d = (ln a - ln b) / s - s / 2], [b * N(d) <= a * N(d + s)]. *)
Lemma call_value_nonneg (a b s d : R) :
  0 < a -> 0 < b -> 0 < s ->
  d = (ln a - ln b) / s - s / 2 ->
  b * norm_cdf d <= a * norm_cdf (d + s).
Proof.
  intros Ha Hb Hs Hd.
  pose (k := fun x => a * norm_cdf (1 * x + s) - b * norm_cdf x).
  pose (k' := fun x => a * (norm_pdf (1 * x + s) * 1) - b * norm_pdf x).
  assert (Hk : forall c, derivable_pt_lim k c (k' c)).
  { intros c. unfold k, k'.
    change (fun x => a * norm_cdf (1 * x + s) - b * norm_cdf x)
      with (minus_fct (mult_real_fct a (fun x => norm_cdf (1 * x + s)))
                      (mult_real_fct b norm_cdf)).
    apply derivable_pt_lim_minus; apply derivable_pt_lim_scal.
    - apply derivable_pt_lim_affine, norm_cdf_derivable_pt_lim.
    - apply norm_cdf_derivable_pt_lim. }
  assert (Hds : d * s + s * s / 2 = ln a - ln b).
  { rewrite Hd. field. lra. }
  assert (Hsign : forall c, c <= d -> 0 <= k' c).
  { intros c Hc. unfold k', norm_pdf.
    pose proof mass_pos as Hm.
    assert (Hle : b * kernel c <= a * kernel (c + s)).
    { apply kernel_shift_le; try assumption. nra. }
    replace (1 * c + s) with (c + s) by ring.
    replace (a * (kernel (c + s) / mass * 1) - b * (kernel c / mass))
      with ((a * kernel (c + s) - b * kernel c) / mass) by (field; lra).
    apply Rmult_le_pos; [lra|]. left. now apply Rinv_0_lt_compat. }
  assert (Hlow : forall n : nat, - INR n <= d -> - b * norm_cdf (- INR n) <= k d).
  { intros n Hn.
    assert (E : k (- INR n) <= k d).
    { apply incr_of_deriv with (f' := k'); [exact Hn| |].
      - intros; apply Hk.
      - intros c Hc. apply Hsign. lra. }
    unfold k in E at 1.
    pose proof (norm_cdf_nonneg (1 * - INR n + s)).
    assert (0 <= a * norm_cdf (1 * - INR n + s)) by (apply Rmult_le_pos; lra).
    lra. }
  assert (Hkd : 0 <= k d).
  { destruct (Rle_lt_dec 0 (k d)) as [|Hneg]; [assumption|exfalso].
    assert (Heps : 0 < - k d / b) by (apply Rdiv_lt_0_compat; lra).
    destruct (norm_cdf_cv_0 _ Heps) as [N HN].
    destruct (INR_unbounded (- d)) as [m Hm].
    specialize (HN (Nat.max N m) (Nat.le_max_l _ _)).
    assert (Hge : - INR (Nat.max N m) <= d).
    { pose proof (le_INR _ _ (Nat.le_max_r N m)). lra. }
    specialize (Hlow _ Hge).
    unfold R_dist in HN. rewrite Rminus_0_r in HN.
    rewrite Rabs_right in HN by (apply Rle_ge, norm_cdf_nonneg).
    assert (b * norm_cdf (- INR (Nat.max N m)) < - k d).
    { replace (- k d) with (b * (- k d / b)) by (field; lra).
      apply Rmult_lt_compat_l; assumption. }
    lra. }
  unfold k in Hkd. replace (1 * d + s) with (d + s) in Hkd by ring. lra.
Qed.

End BlackScholesAnalysis.

Module PricingFacts.
Import RealAnalysis Gaussian GaussianFacts BlackScholesAnalysis PyStr Pricing.
Local Open Scope R_scope.

Lemma Rmax_0_of_nonneg (x : R) : 0 <= x -> Rmax x 0 = x.
Proof. intros H. apply Rmax_left. exact H. Qed.

Lemma intrinsic_difference (S K : R) : Rmax (S - K) 0 - Rmax (K - S) 0 = S - K.
Proof. unfold Rmax. repeat destruct (Rle_dec _ _); lra. Qed.

Lemma py_div_nonzero (x y : R) : y <> 0 -> py_div x y = Ok (x / y).
Proof. intros H. unfold py_div. destruct (Req_dec_T y 0); [contradiction|reflexivity]. Qed.

Lemma py_div_zero (x : R) : py_div x 0 = Raised "float division by zero".
Proof. unfold py_div. destruct (Req_dec_T 0 0); [reflexivity|contradiction]. Qed.

Lemma ln_ratio (S K : R) : 0 < S -> 0 < K -> ln (S / K) = ln S - ln K.
Proof.
  intros HS HK. unfold Rdiv.
  rewrite ln_mult by (try apply Rinv_0_lt_compat; assumption).
  rewrite ln_Rinv by assumption. ring.
Qed.

Lemma ln_discounted (S c : R) : 0 < S -> ln (S * exp c) = ln S + c.
Proof. intros HS. rewrite ln_mult by (try apply exp_pos; assumption). now rewrite ln_exp. Qed.

(** The two raw closed-form values are non-negative, and they differ by the
    discounted forward minus the discounted strike. *)
Lemma closed_form_values (S K T r q sigma : R) :
  0 < S -> 0 < K -> 0 < sigma -> 0 < T ->
  let d1 := (ln (S / K) + (r - q + 1 / 2 * sigma ^ 2) * T) / (sigma * sqrt T) in
  let d2 := d1 - sigma * sqrt T in
  let call := S * exp (- q * T) * norm_cdf d1 - K * exp (- r * T) * norm_cdf d2 in
  let put := K * exp (- r * T) * norm_cdf (- d2) - S * exp (- q * T) * norm_cdf (- d1) in
  0 <= call /\ 0 <= put /\ call - put = S * exp (- q * T) - K * exp (- r * T).
Proof.
  intros HS HK Hsig HT d1 d2 call put.
  pose proof (sqrt_lt_R0 T HT) as Hw.
  pose proof (sqrt_sqrt T (Rlt_le _ _ HT)) as Hww.
  set (w := sqrt T) in *.
  set (a := S * exp (- q * T)). set (b := K * exp (- r * T)).
  assert (Ha : 0 < a) by (apply Rmult_lt_0_compat; [assumption|apply exp_pos]).
  assert (Hb : 0 < b) by (apply Rmult_lt_0_compat; [assumption|apply exp_pos]).
  assert (Hs : 0 < sigma * w) by (apply Rmult_lt_0_compat; assumption).
  assert (Hla : ln a = ln S + - q * T) by (apply ln_discounted; assumption).
  assert (Hlb : ln b = ln K + - r * T) by (apply ln_discounted; assumption).
  assert (Hd1 : d1 = (ln a - ln b) / (sigma * w) + sigma * w / 2).
  { unfold d1. rewrite Hla, Hlb, ln_ratio by assumption.
    rewrite <- Hww. field. split; lra. }
  assert (Hd2 : d2 = (ln a - ln b) / (sigma * w) - sigma * w / 2).
  { unfold d2. rewrite Hd1. field. split; lra. }
  assert (Hcall : b * norm_cdf d2 <= a * norm_cdf d1).
  { replace d1 with (d2 + sigma * w) by (unfold d2; ring).
    apply call_value_nonneg; assumption. }
  assert (Hput : a * norm_cdf (- d1) <= b * norm_cdf (- d2)).
  { replace (- d2) with (- d1 + sigma * w) by (unfold d2; ring).
    apply call_value_nonneg; try assumption.
    rewrite Hd1. field. split; lra. }
  unfold call, put. fold a b. rewrite !norm_cdf_opp in *.
  repeat split; lra.
Qed.

(** C4.  Put-call parity.  For spot, strike and volatility above zero the
    closed-form pricer returns a call price and a put price whose difference
    is [S exp(-qT) - K exp(-rT)] when [T > 0], and [S - K], through the
    intrinsic-value branch, when [T <= 0]. *)
Theorem put_call_parity (params : OptionParams) :
  0 < spot_price params ->
  0 < strike_price params ->
  0 < volatility params ->
  exists call put : R,
    BlackScholesPricer.calculate_price params "call" = Ok call
    /\ BlackScholesPricer.calculate_price params "put" = Ok put
    /\ call - put =
       if Rle_dec (time_to_expiry params) 0
       then spot_price params - strike_price params
       else spot_price params * exp (- dividend_yield params * time_to_expiry params)
            - strike_price params * exp (- risk_free_rate params * time_to_expiry params).
Proof.
  destruct params as [S K T r sigma q]; cbn [spot_price strike_price volatility
    time_to_expiry dividend_yield risk_free_rate].
  intros HS HK Hsig.
  unfold BlackScholesPricer.calculate_price;
    cbn [spot_price strike_price volatility time_to_expiry dividend_yield risk_free_rate].
  change (is_call "call") with true. change (is_call "put") with false.
  destruct (Rle_dec T 0) as [HT|HT].
  - eexists _, _. split; [reflexivity|]. split; [reflexivity|].
    apply intrinsic_difference.
  - rewrite py_div_nonzero by lra. cbn [bind].
    destruct (closed_form_values S K T r q sigma HS HK Hsig ltac:(lra)) as (Hc & Hp & Hpar).
    eexists _, _. split; [reflexivity|]. split; [reflexivity|].
    rewrite !Rmax_0_of_nonneg by assumption. exact Hpar.
Qed.

(** At expiry the two forms of the parity value coincide. *)
Lemma parity_value_at_expiry (S K r q : R) :
  S * exp (- q * 0) - K * exp (- r * 0) = S - K.
Proof. rewrite !Rmult_0_r, exp_0. ring. Qed.

Lemma put_call_parity_witness :
  exists call put : R,
    BlackScholesPricer.calculate_price
      (mkOptionParams 18000 18000 (30 / 365) (5 / 100) (25 / 100) 0) "call" = Ok call
    /\ BlackScholesPricer.calculate_price
      (mkOptionParams 18000 18000 (30 / 365) (5 / 100) (25 / 100) 0) "put" = Ok put
    /\ call - put = 18000 * exp (- 0 * (30 / 365)) - 18000 * exp (- (5 / 100) * (30 / 365)).
Proof.
  destruct (put_call_parity (mkOptionParams 18000 18000 (30 / 365) (5 / 100) (25 / 100) 0))
    as (call & put & Hc & Hp & E); cbn; try lra.
  exists call, put. split; [exact Hc|]. split; [exact Hp|].
  cbn in E. destruct (Rle_dec (30 / 365) 0) as [H|H]; [lra|exact E].
Defined.

End PricingFacts.

Module EngineFacts.
Import PyStr Pricing OptionPricingEngine PricingFacts.
Local Open Scope R_scope.

(** *** Monte Carlo and the global generator *)

(** C6 (as the code has it).  The Monte Carlo pricer takes no seed: for
    [T > 0] it reseeds the process-wide generator with the constant 42 and
    draws [simulations] variates from it, so the price and the standard
    error do not depend on the state the generator was in, and the
    generator is left "seeded with 42, [simulations] variates drawn"; for
    [T <= 0] the generator is not touched. *)
Theorem monte_carlo_reseeds_global_generator
    (normal_variate : Z -> nat -> R) (g g' : rng_state)
    (params : OptionParams) (option_type : string) (simulations : nat) :
  fst (MonteCarloPricer.calculate_price normal_variate g params option_type simulations)
  = fst (MonteCarloPricer.calculate_price normal_variate g' params option_type simulations)
  /\ snd (MonteCarloPricer.calculate_price normal_variate g params option_type simulations)
     = if Rle_dec (time_to_expiry params) 0 then g else mkRng 42 simulations.
Proof.
  unfold MonteCarloPricer.calculate_price.
  destruct (Rle_dec (time_to_expiry params) 0); split; reflexivity.
Qed.

(** The call leaves a mark on the process-wide generator: a generator
    seeded with 7 by the caller is seeded with 42 afterwards. *)
Lemma monte_carlo_mutates_global_generator :
  ~ (forall (normal_variate : Z -> nat -> R) (g : rng_state) (params : OptionParams)
            (option_type : string) (simulations : nat),
        snd (MonteCarloPricer.calculate_price normal_variate g params option_type simulations) = g).
Proof.
  intros H.
  specialize (H (fun _ _ => 0) (mkRng 7 0) (mkOptionParams 100 100 1 (5 / 100) (2 / 10) 0)
                "call"%string 1%nat).
  unfold MonteCarloPricer.calculate_price in H. cbn [time_to_expiry] in H.
  destruct (Rle_dec 1 0) as [Hle|_]; [lra|].
  cbn in H. discriminate H.
Qed.

(** *** The error results of [price_option] *)






(** *** [implied_volatility] and the caller's parameters *)

Import BlackScholesPricer.

Lemma set_volatility_frame (params : OptionParams) (vol : R) :
  spot_price (set_volatility params vol) = spot_price params
  /\ strike_price (set_volatility params vol) = strike_price params
  /\ time_to_expiry (set_volatility params vol) = time_to_expiry params
  /\ risk_free_rate (set_volatility params vol) = risk_free_rate params
  /\ dividend_yield (set_volatility params vol) = dividend_yield params.
Proof. repeat split; reflexivity. Qed.

Lemma minimize_scalar_last_trial (opt : minimizer) (fuel : nat) (market_price : R)
    (option_type : string) (history : list (R * R)) (params : OptionParams) :
  snd (minimize_scalar opt fuel market_price option_type history params)
  = match rev (trial_points opt fuel market_price option_type history params) with
    | vol :: _ => set_volatility params vol
    | [] => params
    end.
Proof.
  revert history params.
  induction fuel as [|fuel IH]; intros history params; cbn [minimize_scalar trial_points].
  - destruct (next opt history); reflexivity.
  - destruct (next opt history) as [vol|x ok]; [|reflexivity].
    unfold objective.
    destruct (calculate_price (set_volatility params vol) option_type) as [price|exc];
      cbn [bind]; [|reflexivity].
    rewrite IH. cbn [rev].
    destruct (rev (trial_points opt fuel market_price option_type _ _)) as [|v rest];
      reflexivity.
Qed.

(** [implied_volatility] hands back the object as the optimiser's loop left
    it, and the loop leaves in its [volatility] field the last trial
    point. *)
Lemma implied_volatility_params (opt : minimizer) (market_price : R)
    (params : OptionParams) (option_type : string) :
  snd (implied_volatility opt market_price params option_type)
  = set_volatility params
      (List.last (trial_points opt (maxfun opt) market_price option_type [] params)
                 (volatility params)).
Proof.
  assert (E : snd (implied_volatility opt market_price params option_type)
              = snd (minimize_scalar opt (maxfun opt) market_price option_type [] params)).
  { unfold implied_volatility.
    destruct (minimize_scalar _ _ _ _ _ _) as [[[x [|]]|exc] p]; reflexivity. }
  rewrite E, minimize_scalar_last_trial.
  set (trials := trial_points _ _ _ _ _ _).
  destruct (rev trials) as [|v rest] eqn:Er.
  - apply (f_equal (@rev R)) in Er. rewrite rev_involutive in Er. rewrite Er.
    destruct params; reflexivity.
  - apply (f_equal (@rev R)) in Er. rewrite rev_involutive in Er. cbn [rev] in Er.
    rewrite Er, last_last. reflexivity.
Qed.

(** C9 on the code.  What [implied_volatility] does to the [OptionParams]
    object it is given: the [volatility] field ends up holding the last
    trial point of the optimiser (and keeps its value only if the optimiser
    never evaluated the objective); the other fields are not written. *)
Theorem implied_volatility_overwrites_volatility (opt : minimizer) (market_price : R)
    (params : OptionParams) (option_type : string) :
  let params' := snd (implied_volatility opt market_price params option_type) in
  volatility params'
  = List.last (trial_points opt (maxfun opt) market_price option_type [] params)
              (volatility params)
  /\ spot_price params' = spot_price params
  /\ strike_price params' = strike_price params
  /\ time_to_expiry params' = time_to_expiry params
  /\ risk_free_rate params' = risk_free_rate params
  /\ dividend_yield params' = dividend_yield params.
Proof.
  cbn zeta. rewrite implied_volatility_params. repeat split; reflexivity.
Qed.

(** The parameters of the test suite, and an optimiser that evaluates the
    objective once, at the first trial point of the bounded method on
    [(0.01, 5.0)], and stops there. *)
Definition test_params : OptionParams :=
  mkOptionParams 18000 18000 (30 / 365) (5 / 100) (25 / 100) 0.

Definition first_trial_point : R := 1 / 100 + (3 - sqrt 5) / 2 * (5 - 1 / 100).

Definition one_probe : minimizer :=
  {| next := fun history =>
       match history with
       | [] => Probe first_trial_point
       | (x, _) :: _ => Stop x true
       end;
     maxfun := 500 |}.

Lemma first_trial_point_above_1 : 1 < first_trial_point.
Proof.
  unfold first_trial_point.
  assert (sqrt 5 < 5 / 2).
  { rewrite <- (sqrt_Rsqr (5 / 2)) by lra. apply sqrt_lt_1_alt. unfold Rsqr. lra. }
  lra.
Qed.

(** After [implied_volatility(150.0, params, 'call')] the caller's
    [params.volatility] is no longer 0.25. *)
Lemma implied_volatility_changes_test_params :
  volatility test_params = 25 / 100
  /\ volatility (snd (implied_volatility one_probe 150 test_params "call")) = first_trial_point
  /\ volatility (snd (implied_volatility one_probe 150 test_params "call"))
     <> volatility test_params.
Proof.
  assert (E : volatility (snd (implied_volatility one_probe 150 test_params "call"))
              = first_trial_point).
  { rewrite implied_volatility_params. cbn [volatility set_volatility].
    unfold one_probe; cbn [maxfun trial_points next].
    unfold objective, calculate_price.
    cbn [time_to_expiry set_volatility test_params spot_price strike_price].
    destruct (Rle_dec (30 / 365) 0) as [H|_]; [lra|].
    rewrite py_div_nonzero by lra. reflexivity. }
  split; [reflexivity|]. split; [exact E|].
  rewrite E. cbn. pose proof first_trial_point_above_1. lra.
Qed.

End EngineFacts.

Module StrategyFacts.
Import Pricing Strategies.
Local Open Scope R_scope.






End StrategyFacts.

Module StrategySelectorFacts.
Import Py StrategySelector.

(** Below 0.15 is below 0.2, for every float. *)
Lemma lt_015_lt_02 (x : pyfloat) :
  float_lt x (Finite (15 # 100)) = true -> float_lt x (Finite (2 # 10)) = true.
Proof.
  destruct x as [q| | |]; cbn; try discriminate; auto.
  rewrite !negb_true_iff.
  intros H.
  destruct (Qle_bool (2 # 10) q) eqn:E; [|reflexivity].
  apply Qle_bool_iff in E.
  assert (Hle : (15 # 100 <= q)%Q).
  { eapply Qle_trans; [|exact E]. discriminate. }
  apply Qle_bool_iff in Hle. congruence.
Qed.

(** C10.  For every [market_conditions] dictionary, [select_strategy]
    either raises (only when the ['volatility'] entry is a string) or
    returns one of straddle, strangle, iron_condor; it never returns
    butterfly, because the iron_condor test [volatility < 0.2] precedes and
    subsumes the butterfly test [volatility < 0.15]. *)
Theorem select_strategy_never_butterfly (market_conditions : gmap string value) :
  match select_strategy market_conditions with
  | Some name =>
      In name ["straddle"; "strangle"; "iron_condor"]%string
      /\ name <> "butterfly"%string
  | None => exists s, market_conditions !! "volatility"%string = Some (VStr s)
  end.
Proof.
  unfold select_strategy, get.
  destruct (market_conditions !! "volatility"%string) as [[x|s]|] eqn:Ev; cbn -[float_gt float_lt];
    [ | eexists; reflexivity | ].
  - destruct (float_gt x (Finite (3 # 10))) eqn:E1;
      destruct (float_gt x (Finite (25 # 100))) eqn:E2;
      destruct (float_lt x (Finite (2 # 10))) eqn:E3;
      destruct (float_lt x (Finite (15 # 100))) eqn:E4;
      try (apply lt_015_lt_02 in E4; congruence);
      try destruct (eq_str _ _); cbn; intuition congruence.
  - destruct (eq_str _ _); vm_compute; intuition congruence.
Qed.

End StrategySelectorFacts.

Module RiskFacts.
Import PyNum PyStr Risk.

(** The stop level of a call is [entry_price * (1 - stop_loss_pct)], that of
    any other option type [entry_price * (1 + stop_loss_pct)]. *)
Lemma stop_loss_level_call (self : RiskManager) (entry : Q) (option_type : string) :
  is_call option_type = true ->
  calculate_stop_loss_level self entry option_type = (entry * (1 - stop_loss_pct self))%Q.
Proof. unfold calculate_stop_loss_level. now intros ->. Qed.

Lemma stop_loss_level_put (self : RiskManager) (entry : Q) (option_type : string) :
  is_put option_type = true ->
  calculate_stop_loss_level self entry option_type = (entry * (1 + stop_loss_pct self))%Q.
Proof.
  unfold calculate_stop_loss_level, is_put, is_call.
  intros H. apply String.eqb_eq in H. now rewrite H.
Qed.

Lemma take_profit_level_call (self : RiskManager) (entry : Q) (option_type : string) :
  is_call option_type = true ->
  calculate_take_profit_level self entry option_type = (entry * (1 + take_profit_pct self))%Q.
Proof. unfold calculate_take_profit_level. now intros ->. Qed.

Lemma take_profit_level_put (self : RiskManager) (entry : Q) (option_type : string) :
  is_put option_type = true ->
  calculate_take_profit_level self entry option_type = (entry * (1 - take_profit_pct self))%Q.
Proof.
  unfold calculate_take_profit_level, is_put, is_call.
  intros H. apply String.eqb_eq in H. now rewrite H.
Qed.

(** The if-chain of [should_exit_position] is the first-match evaluation of
    the three rules. *)
Lemma should_exit_first_match (self : RiskManager) (now : Z) (position : Position)
    (current_price : Q) :
  should_exit_position self now position current_price
  = first_match (exit_rules self now position current_price).
Proof.
  unfold should_exit_position, first_match, exit_rules, stop_loss_rule,
    take_profit_rule, time_decay_rule.
  destruct (is_call (option_type position)) eqn:Ec;
    destruct (is_put (option_type position)) eqn:Ep.
  - (* no string is both 'call' and 'put' *)
    unfold is_call, is_put in Ec, Ep.
    apply String.eqb_eq in Ec. apply String.eqb_eq in Ep. congruence.
  - rewrite (stop_loss_level_call self _ _ Ec), (take_profit_level_call self _ _ Ec).
    cbn [andb orb find fst].
    repeat match goal with
           | |- context [Qle_bool ?a ?b] => destruct (Qle_bool a b); cbn [andb orb find fst]
           end; try reflexivity;
      destruct (_ <=? 7)%Z; reflexivity.
  - rewrite (stop_loss_level_put self _ _ Ep), (take_profit_level_put self _ _ Ep).
    cbn [andb orb find fst].
    repeat match goal with
           | |- context [Qle_bool ?a ?b] => destruct (Qle_bool a b); cbn [andb orb find fst]
           end; try reflexivity;
      destruct (_ <=? 7)%Z; reflexivity.
  - cbn [andb orb find fst].
    destruct (_ <=? 7)%Z; reflexivity.
Qed.

(** C5.  The exit-signal check is the first-match evaluation of the rules
    stop-loss, take-profit, time-decay in this order, with ['hold'] when none
    matches; the stop level of a call is [entry_price * (1 - stop_loss_pct)]
    and the rule fires when the current price is at or below it; a call
    position entered at 150 under a 2% stop has stop level 147, and a
    current price of 146 gives the exit signal [stop_loss], whatever the
    clock and the other fields are. *)
Theorem exit_signal_priority_order :
  (forall (self : RiskManager) (now : Z) (position : Position) (current_price : Q),
      should_exit_position self now position current_price
      = first_match
          [ (stop_loss_rule self position current_price, "stop_loss"%string);
            (take_profit_rule self position current_price, "take_profit"%string);
            (time_decay_rule now position, "time_decay"%string) ])
  /\ (forall (self : RiskManager) (entry : Q),
         calculate_stop_loss_level self entry "call" = (entry * (1 - stop_loss_pct self))%Q)
  /\ (forall (self : RiskManager) (position : Position) (current_price : Q),
         stop_loss_rule self position current_price = true <->
         (is_call (option_type position) = true
          /\ (current_price <= entry_price position * (1 - stop_loss_pct self))%Q)
         \/ (is_put (option_type position) = true
          /\ (entry_price position * (1 + stop_loss_pct self) <= current_price)%Q))
  /\ (forall (mps mdl tpp dpnl : Q) (held : list Position)
             (sym strat : string) (strike mark : Q) (expiry qty opened now : Z),
         let self := mkRiskManager mps mdl (2 # 100) tpp dpnl held in
         let position := mkPosition sym "call" strike expiry qty 150 mark opened strat in
         (calculate_stop_loss_level self (entry_price position) (option_type position) == 147)%Q
         /\ should_exit_position self now position 146 = (true, "stop_loss"%string)).
Proof.
  split; [|split; [|split]].
  - intros. apply should_exit_first_match.
  - intros. reflexivity.
  - intros self position current_price. unfold stop_loss_rule.
    rewrite orb_true_iff, !andb_true_iff, !Qle_bool_iff. reflexivity.
  - intros. split; [vm_compute; reflexivity|].
    subst self position. reflexivity.
Qed.

End RiskFacts.

Module BacktestFacts.
Import PyNum PyStr Risk RationalPricing Backtest.
Local Open Scope Q_scope.

(** *** Sums of marks *)

Lemma fold_left_Qplus_acc (xs : list Q) (a : Q) :
  fold_left Qplus xs a == a + fold_left Qplus xs 0.
Proof.
  revert a. induction xs as [|x xs IH]; intros a; cbn [fold_left].
  - ring.
  - rewrite (IH (a + x)), (IH (0 + x)). ring.
Qed.

Lemma py_sum_cons (x : Q) (xs : list Q) : py_sum (x :: xs) == x + py_sum xs.
Proof. unfold py_sum. cbn [fold_left]. rewrite fold_left_Qplus_acc. ring. Qed.

(** The mark-to-market value of one position. *)
Definition mark (position : Position) : Q :=
  current_price position * inject_Z (quantity position) * 50.

Lemma position_eqb_mark (a b : Position) : position_eqb a b = true -> mark a == mark b.
Proof.
  unfold position_eqb, mark. rewrite !andb_true_iff.
  intros [[[[[[[[_ _] _] _] Hq] _] Hc] _] _].
  apply Z.eqb_eq in Hq. apply Qeq_bool_iff in Hc. now rewrite Hq, Hc.
Qed.

Lemma marks_after_remove (position : Position) (held : list Position) :
  existsb (fun p => position_eqb p position) held = true ->
  py_sum (map mark held) == mark position + py_sum (map mark (list_remove position held)).
Proof.
  induction held as [|p rest IH]; cbn [existsb list_remove map]; [discriminate|].
  destruct (position_eqb p position) eqn:E; cbn [orb].
  - intros _. rewrite py_sum_cons, (position_eqb_mark _ _ E). reflexivity.
  - intros H. cbn [map]. rewrite !py_sum_cons, (IH H). ring.
Qed.

(** The equity the engine would record for its current state. *)
Definition equity_of (self : BacktestEngine) : Q :=
  current_capital self + position_value self.

(** What closing does to the equity: the cash receives the P&L, the mark
    of the position leaves the equity, and the premium paid at entry is
    never returned. *)
Lemma close_position_loses_entry_premium (self : BacktestEngine) (position : Position)
    (date : Z) (reason : string) :
  existsb (fun p => position_eqb p position) (positions self) = true ->
  ~ entry_price position == 0 ->
  equity_of (_close_position self position date reason)
  == equity_of self - entry_price position * inject_Z (quantity position) * 50.
Proof.
  intros Hin Hentry. unfold _close_position.
  destruct (Qeq_bool (entry_price position) 0) eqn:E.
  - apply Qeq_bool_iff in E. contradiction.
  - unfold equity_of, position_value; cbn [current_capital positions].
    change (fun pos : Position => current_price pos * inject_Z (quantity pos) * 50) with mark.
    rewrite (marks_after_remove position (positions self) Hin).
    unfold mark. ring.
Qed.

(** *** Capital conservation over one day

    [realized_pnl] adds the P&L of the trades closed on [day].  For a
    position that is open at the end of the day, [mark_change] is its mark
    minus its mark at the end of the previous day or, when it was opened
    during the day, minus what was paid for it. *)
Definition realized_pnl (self : BacktestEngine) (day : Z) : Q :=
  py_sum (map Trade.pnl (filter (fun trade => (Trade.exit_date trade =? day)%Z) (trades self))).

Definition mark_change (before : BacktestEngine) (position : Position) : Q :=
  match List.find (fun p => String.eqb (symbol p) (symbol position)) (positions before) with
  | Some previous => mark position - mark previous
  | None => mark position - entry_price position * inject_Z (quantity position) * 50
  end.

Definition conserved (before after : BacktestEngine) (day : Z) : Prop :=
  equity_of after
  == equity_of before + realized_pnl after day
     + py_sum (map (mark_change before) (positions after)).

(** The equity recorded for a day is the equity of the state of that day. *)
Lemma recorded_equity (self : BacktestEngine) (day : Z) :
  List.last (map equity (equity_curve (_update_equity_curve self day))) 0 = equity_of self.
Proof.
  unfold _update_equity_curve; cbn [equity_curve].
  rewrite map_app. cbn [map]. rewrite last_last. reflexivity.
Qed.

(** *** A two-day run

    Two bars, Monday 2024-01-01 and Tuesday 2024-01-02, both closing at
    18010; one million of capital; the clock of the machine reads
    2026-11-03 12:00. *)
Definition monday : Z := 19723.
Definition tuesday : Z := 19724.

Definition two_bars : list Bar :=
  [ mkBar monday 18000 18020 17990 18010 0; mkBar tuesday 18010 18030 18000 18010 0 ].

Definition wall_clock : Z := (20760 * us_per_day + 43200000000)%Z.

Section TwoDayRun.
Variable closed_form : Q -> Q -> Q -> Q -> Q -> string -> Q.
Variable annualized_std : list Q -> Q.

Definition at_start : BacktestEngine := new_engine 1000000.

Definition after_monday : BacktestEngine :=
  run_days wall_clock closed_form annualized_std at_start (firstn 1 two_bars) two_bars [].

Definition after_tuesday : BacktestEngine :=
  run_days wall_clock closed_form annualized_std at_start two_bars two_bars [].

(** A summary of a position: symbol, type, strike, contracts, entry
    price, mark, strategy tag. *)
Definition summary (position : Position) : string * string * Q * Z * Q * Q * string :=
  (symbol position, option_type position, Qred (strike_price position), quantity position,
   Qred (entry_price position), Qred (current_price position), strategy_name position).

Lemma monday_positions :
  map summary (positions after_monday)
  = [ ("NIFTY18000CE", "call", 18000, 40%Z, 10, 10, "butterfly");
      ("NIFTY18000PE", "put", 18000, 40%Z, 0, 0, "butterfly") ]%string.
Proof. vm_compute. reflexivity. Qed.

Lemma tuesday_positions :
  map summary (positions after_tuesday)
  = [ ("NIFTY18000PE", "put", 18000, 40%Z, 0, 0, "butterfly") ]%string.
Proof. vm_compute. reflexivity. Qed.

Lemma tuesday_trades :
  map (fun trade => (Trade.exit_date trade, Qred (Trade.pnl trade))) (trades after_tuesday)
  = [ (tuesday, 0) ].
Proof. vm_compute. reflexivity. Qed.

End TwoDayRun.

(** C1 on the two-day run.  [run_backtest] records an equity of 1,000,000
    on Monday and of 980,000 on Tuesday.  On Tuesday the call is closed with a realized P&L
    of 0 and the put that stays open is marked 0 on both days, so the
    conservation equation holds for Monday and fails for Tuesday: the
    20,000 paid for the call on Monday are gone. *)
Theorem equity_not_conserved_when_closing
    (closed_form : Q -> Q -> Q -> Q -> Q -> string -> Q) (annualized_std : list Q -> Q) :
  let monday_state := after_monday closed_form annualized_std in
  let tuesday_state := after_tuesday closed_form annualized_std in
  option_map (fun engine => map (fun point => (point_date point, Qred (equity point)))
                                (equity_curve engine))
             (run_backtest wall_clock closed_form annualized_std at_start two_bars
                           monday tuesday [])
  = Some [ (monday, 1000000); (tuesday, 980000) ]
  /\ map (fun point => (point_date point, Qred (equity point))) (equity_curve tuesday_state)
     = [ (monday, 1000000); (tuesday, 980000) ]
  /\ Qred (realized_pnl tuesday_state tuesday) = 0
  /\ Qred (py_sum (map (mark_change monday_state) (positions tuesday_state))) = 0
  /\ conserved at_start monday_state monday
  /\ ~ conserved monday_state tuesday_state tuesday.
Proof.
  cbn zeta. split; [vm_compute; reflexivity|].
  split; [vm_compute; reflexivity|]. split; [vm_compute; reflexivity|].
  split; [vm_compute; reflexivity|]. split.
  - unfold conserved. vm_compute. reflexivity.
  - unfold conserved. intros H. vm_compute in H. discriminate H.
Qed.

(** *** What a backtest entry opens *)

(** The selector of the backtest sees a one-row frame, for which
    [_calculate_volatility] answers its default 0.2: the choice is always
    ['butterfly']. *)
Lemma select_strategy_always_butterfly (annualized_std : list Q -> Q) (row : Bar)
    (strategies : list string) :
  _select_strategy annualized_std row strategies = "butterfly"%string.
Proof. reflexivity. Qed.

(** Whatever the strategy name, [_enter_trade] adds nothing or one call and
    one put, both at the at-the-money strike and both tagged with the
    name. *)
Lemma enter_trade_shape (now : Z) (closed_form : Q -> Q -> Q -> Q -> Q -> string -> Q)
    (self : BacktestEngine) (row : Bar) (strategy : string) :
  let self' := _enter_trade now closed_form self row strategy in
  positions self' = positions self
  \/ exists call put : Position,
       positions self' = positions self ++ [call; put]
       /\ option_type call = "call"%string /\ option_type put = "put"%string
       /\ strike_price call = inject_Z (_get_atm_strike (Close row))
       /\ strike_price put = inject_Z (_get_atm_strike (Close row))
       /\ strategy_name call = strategy /\ strategy_name put = strategy.
Proof.
  cbn zeta. unfold _enter_trade.
  destruct (0 <? _)%Z; [right|left; reflexivity].
  eexists _, _. cbn [positions]. split; [reflexivity|].
  cbn [option_type strike_price strategy_name]. tauto.
Qed.

(** C3 on the code.  The backtest always selects ['butterfly']; an entry
    opens an at-the-money call and put whatever the selected name is (on
    the Monday of the two-day run: 40 calls and 40 puts struck at 18000,
    tagged butterfly), whereas the trading engine opens three calls at three
    strikes for a butterfly and four options at four strikes for an iron
    condor. *)
Theorem backtest_entry_ignores_strategy_legs
    (closed_form : Q -> Q -> Q -> Q -> Q -> string -> Q) (annualized_std : list Q -> Q) :
  (forall (row : Bar) (strategies : list string),
      _select_strategy annualized_std row strategies = "butterfly"%string)
  /\ (forall (now : Z) (self : BacktestEngine) (row : Bar) (strategy : string),
         let self' := _enter_trade now closed_form self row strategy in
         positions self' = positions self
         \/ exists call put : Position,
              positions self' = positions self ++ [call; put]
              /\ option_type call = "call"%string /\ option_type put = "put"%string
              /\ strike_price call = inject_Z (_get_atm_strike (Close row))
              /\ strike_price put = inject_Z (_get_atm_strike (Close row))
              /\ strategy_name call = strategy /\ strategy_name put = strategy)
  /\ map summary (positions (after_monday closed_form annualized_std))
     = [ ("NIFTY18000CE", "call", 18000, 40%Z, 10, 10, "butterfly");
         ("NIFTY18000PE", "put", 18000, 40%Z, 0, 0, "butterfly") ]%string
  /\ map (fun p => (option_type p, Qred (strike_price p), quantity p))
         (TradingEngine.create_positions wall_clock closed_form 18010 "butterfly"
            (TradingEngine._calculate_strike_prices 18010 "butterfly") 40)
     = [ ("call", 17900, 40%Z); ("call", 18000, (-80)%Z); ("call", 18100, 40%Z) ]%string
  /\ map (fun p => (option_type p, Qred (strike_price p), quantity p))
         (TradingEngine.create_positions wall_clock closed_form 18010 "iron_condor"
            (TradingEngine._calculate_strike_prices 18010 "iron_condor") 40)
     = [ ("put", 17800, 40%Z); ("put", 17900, (-40)%Z);
         ("call", 18100, (-40)%Z); ("call", 18200, 40%Z) ]%string.
Proof.
  split; [intros; reflexivity|].
  split; [intros; apply enter_trade_shape|].
  split; [apply monday_positions|].
  split; vm_compute; reflexivity.
Qed.

End BacktestFacts.

(** *** The two embeddings of the pricing engine agree

    On rational inputs the ['price'] entry computed by [RationalPricing] is
    the one of [Pricing.price_option] in the two cases that do not go
    through the closed form. *)
Module PricingBridge.
Import PyStr Pricing OptionPricingEngine RationalPricing PricingFacts.
Local Open Scope R_scope.

Lemma Q2R_Qmax_0 (x : Q) : Q2R (Qmax x 0) = Rmax (Q2R x) 0.
Proof.
  destruct (Qlt_le_dec x 0) as [H|H].
  - rewrite (Qeq_eqR _ _ (Q.max_r x 0 (Qlt_le_weak _ _ H))).
    apply Qlt_Rlt in H. rewrite RMicromega.Q2R_0 in *.
    symmetry. apply Rmax_right. lra.
  - rewrite (Qeq_eqR _ _ (Q.max_l x 0 H)).
    apply Qle_Rle in H. rewrite RMicromega.Q2R_0 in *.
    symmetry. apply Rmax_left. lra.
Qed.

Lemma price_option_price_expired
    (closed_form : Q -> Q -> Q -> Q -> Q -> string -> Q)
    (normal_variate : Z -> nat -> R) (g : rng_state)
    (S K T r sigma : Q) (option_type : string) :
  (T <= 0)%Q ->
  Q2R (price_option_price closed_form S K T r sigma option_type)
  = result_price
      (fst (price_option normal_variate g
              (mkOptionParams (Q2R S) (Q2R K) (Q2R T) (Q2R r) (Q2R sigma) 0)
              option_type "black_scholes")).
Proof.
  intros HT. unfold price_option_price, price_option.
  cbn [String.eqb Ascii.eqb Bool.eqb].
  unfold BlackScholesPricer.calculate_price, BlackScholesPricer.calculate_greeks.
  cbn [time_to_expiry spot_price strike_price].
  assert (HT' := HT). apply Qle_bool_iff in HT'. rewrite HT'.
  apply Qle_Rle in HT. rewrite RMicromega.Q2R_0 in HT.
  destruct (Rle_dec (Q2R T) 0) as [_|Hn]; [|contradiction].
  cbn [fst result_price].
  destruct (is_call option_type); rewrite Q2R_Qmax_0, Q2R_minus; reflexivity.
Qed.

Lemma price_option_price_zero_strike
    (closed_form : Q -> Q -> Q -> Q -> Q -> string -> Q)
    (normal_variate : Z -> nat -> R) (g : rng_state)
    (S K T r sigma : Q) (option_type : string) :
  (0 < T)%Q -> (K == 0)%Q ->
  Q2R (price_option_price closed_form S K T r sigma option_type)
  = result_price
      (fst (price_option normal_variate g
              (mkOptionParams (Q2R S) (Q2R K) (Q2R T) (Q2R r) (Q2R sigma) 0)
              option_type "black_scholes")).
Proof.
  intros HT HK. unfold price_option_price, price_option.
  cbn [String.eqb Ascii.eqb Bool.eqb].
  unfold BlackScholesPricer.calculate_price.
  cbn [time_to_expiry spot_price strike_price].
  destruct (Qle_bool T 0) eqn:E.
  { apply Qle_bool_iff in E. exfalso. apply (Qlt_not_le _ _ HT E). }
  assert (HK' := HK). apply Qeq_bool_iff in HK'. rewrite HK'.
  apply Qlt_Rlt in HT. rewrite RMicromega.Q2R_0 in HT.
  destruct (Rle_dec (Q2R T) 0) as [Hle|_]; [lra|].
  rewrite (Qeq_eqR _ _ HK), RMicromega.Q2R_0, py_div_zero.
  reflexivity.
Qed.

End PricingBridge.

(** *** Portfolio Greeks: the risk layer against the pricing engine *)

Module PortfolioGreeksFacts.
Import PyStr Gaussian GaussianFacts Pricing OptionPricingEngine PricingFacts Risk.
Local Open Scope R_scope.

(** The per-position Greeks of the risk layer depend on the option type at
    most: two positions of the same type get the same five numbers,
    whatever their strikes, expiries and prices are. *)
Lemma risk_layer_greeks_constant (a b : Position) :
  is_call (option_type a) = is_call (option_type b) ->
  _calculate_delta a = _calculate_delta b
  /\ _calculate_gamma a = _calculate_gamma b
  /\ _calculate_theta a = _calculate_theta b
  /\ _calculate_vega a = _calculate_vega b
  /\ _calculate_rho a = _calculate_rho b.
Proof. unfold _calculate_delta. intros ->. repeat split; reflexivity. Qed.

(** The rho of a put computed by the pricing engine is never positive. *)
Lemma put_rho_nonpos (params : OptionParams) (greeks : Greeks) :
  0 < Pricing.strike_price params ->
  BlackScholesPricer.calculate_greeks params "put" = Ok greeks ->
  rho greeks <= 0.
Proof.
  intros HK. unfold BlackScholesPricer.calculate_greeks.
  change (is_call "put") with false.
  destruct (Rle_dec (time_to_expiry params) 0) as [HT|HT].
  - intros [= <-]. cbn. lra.
  - rewrite py_div_nonzero by lra. cbn [bind]. intros [= <-]. cbn [rho].
    set (d2 := _ - _).
    pose proof (norm_cdf_nonneg (- d2)) as Hc.
    pose proof (exp_pos (- risk_free_rate params * time_to_expiry params)) as He.
    assert (0 <= Pricing.strike_price params * time_to_expiry params
                 * exp (- risk_free_rate params * time_to_expiry params)
                 * norm_cdf (- d2)).
    { repeat apply Rmult_le_pos; lra. }
    lra.
Qed.

(** A risk manager that holds ten long puts struck at 18000, and the same
    holding as the pricing engine reads it (spot 18000, thirty days to
    expiry, rate 5%, volatility 25%). *)
Definition ten_puts : Position :=
  {| symbol := "NIFTY18000PE"; option_type := "put"; strike_price := 18000;
     expiry_date := 19747; quantity := 10; entry_price := 120; current_price := 130;
     entry_time := 0; strategy_name := "straddle" |}.

Definition ten_puts_manager : RiskManager :=
  mkRiskManager 1000000 50000 (2 # 100) (5 # 100) 0 [ten_puts].

Definition ten_puts_for_engine : GreekPosition :=
  mkGreekPosition 18000 18000 (30 / 365) (5 / 100) (25 / 100) "put" 10.

(** C2 on the code.  For the ten puts the risk layer reports the Greeks
    (-5, 0.1, -1, 2, 0.5): ten times the constants -0.5, 0.01, -0.1, 0.2
    and 0.05.  The pricing engine computes a portfolio rho that is not
    positive for the same holding, so the rho of the risk layer is not the
    quantity-weighted Black-Scholes rho. *)
Theorem risk_layer_greeks_are_placeholders :
  let metrics := calculate_portfolio_metrics ten_puts_manager ∅ in
  (Qred (total_delta metrics), Qred (total_gamma metrics), Qred (total_theta metrics),
   Qred (total_vega metrics), Qred (total_rho metrics))
  = ((- 5)%Q, (1 # 10)%Q, (- 1)%Q, 2%Q, (1 # 2)%Q)
  /\ exists real : Greeks,
       calculate_portfolio_greeks [ten_puts_for_engine] = Ok real
       /\ rho real <= 0
       /\ Q2R (total_rho metrics) <> rho real.
Proof.
  cbn zeta. split; [vm_compute; reflexivity|].
  unfold calculate_portfolio_greeks; cbn [calculate_portfolio_greeks_from].
  cbn [ten_puts_for_engine gp_spot_price gp_strike_price gp_time_to_expiry
       gp_risk_free_rate gp_volatility gp_option_type gp_quantity].
  destruct (BlackScholesPricer.calculate_greeks
              (mkOptionParams 18000 18000 (30 / 365) (5 / 100) (25 / 100) 0) "put")
    as [greeks|exc] eqn:E.
  - assert (Hrho : rho greeks <= 0)
      by (eapply put_rho_nonpos; [|exact E]; cbn; lra).
    cbn [bind]. eexists. split; [reflexivity|].
    cbn [rho add_scaled].
    assert (Hq : Q2R (total_rho (calculate_portfolio_metrics ten_puts_manager ∅)) = 1 / 2).
    { assert (Er : (total_rho (calculate_portfolio_metrics ten_puts_manager ∅) == 1 # 2)%Q)
        by (vm_compute; reflexivity).
      rewrite (Qeq_eqR _ _ Er). unfold Q2R. cbn. lra. }
    rewrite Hq. split; lra.
  - exfalso. revert E. unfold BlackScholesPricer.calculate_greeks.
    cbn [time_to_expiry spot_price Pricing.strike_price].
    destruct (Rle_dec (30 / 365) 0) as [H|_]; [lra|].
    rewrite py_div_nonzero by lra. discriminate.
Qed.

End PortfolioGreeksFacts.

(** *** Small evaluations of the helpers *)

Module Evaluations.
Import Py PyStr PyNum Risk Backtest.

Example round_half_to_even :
  map py_round [5 # 2; 7 # 2; - (1 # 2); - (3 # 2); 18010 / 50; 18030 / 50]%Q
  = [2; 4; 0; -2; 360; 361]%Z.
Proof. reflexivity. Qed.

Example int_truncates : map py_int [7 # 2; - (7 # 2); 20000 / 500]%Q = [3; -3; 40]%Z.
Proof. reflexivity. Qed.

Example lower_is_ascii_lowercase : map lower ["Call"; "PUT"; "put"]%string = ["call"; "put"; "put"]%string.
Proof. reflexivity. Qed.

(** 2024-01-04 was a Thursday; the expiry after a Monday is the Thursday of
    the same week, the expiry after a Thursday the next Thursday. *)
Example thursday_expiry :
  weekday 19726 = 3%Z
  /\ _get_next_expiry BacktestFacts.monday = 19726%Z
  /\ _get_next_expiry 19726 = 19733%Z.
Proof. repeat split; reflexivity. Qed.

(** A difference of minus a second is minus one day. *)
Example timedelta_floor : timedelta_days 0 1000000 = (-1)%Z.
Proof. reflexivity. Qed.

(** The dictionary of the test suite: volatility 0.3 is not above 0.3, and
    it is above 0.25. *)
Example select_strategy_test_suite :
  StrategySelector.select_strategy
    (<["volatility"%string := VFloat (Finite (3 # 10))]>
       (<["trend"%string := VStr "neutral"]> ∅))
  = Some "strangle"%string.
Proof. reflexivity. Qed.

(** Scenario D: with a take-profit of 5% the level of a call entered at 150
    is 157.5, and a price of 160 gives [take_profit]. *)
Example take_profit_scenario :
  let position := mkPosition "NIFTY18000CE" "call" 18000 19747 10 150 160 0 "straddle" in
  (calculate_take_profit_level default_manager 150 "call" == 315 # 2)%Q
  /\ forall now : Z,
       should_exit_position default_manager now position 160 = (true, "take_profit"%string).
Proof. split; [reflexivity|]. intros now. reflexivity. Qed.

End Evaluations.

(** *** Strategy payoffs, breakevens and reported extremes *)

Module StrategyClassFacts.
Import Pricing OptionPricingEngine Strategies StrategyClasses.
Local Open Scope R_scope.

Ltac split_max := unfold Rmax, Rmin, Rabs; repeat destruct (Rle_dec _ _);
                  repeat destruct (Rcase_abs _); try lra.

Lemma index_0 (x : R) (rest : list R) : index (x :: rest) 0 = Ok x.
Proof. reflexivity. Qed.

Lemma index_raises_iff (xs : list R) (i : nat) :
  (exists exc, index xs i = Raised exc) <-> (length xs <= i)%nat.
Proof.
  unfold index. destruct (nth_error xs i) eqn:E.
  - split; [intros [exc H]; discriminate|].
    intros H. apply nth_error_None in H. congruence.
  - split; [intros _; now apply nth_error_None|intros _; eexists; reflexivity].
Qed.

Lemma index_ok_iff (xs : list R) (i : nat) :
  (exists x, index xs i = Ok x) <-> (i < length xs)%nat.
Proof.
  unfold index. destruct (nth_error xs i) eqn:E.
  - split; [intros _; apply nth_error_Some; congruence|intros _; eexists; reflexivity].
  - split; [intros [x H]; discriminate|].
    intros H. apply nth_error_None in E. lia.
Qed.

(** The number of strikes each payoff reads. *)
Definition strikes_needed (strategy : OptionStrategy) : nat :=
  match strategy with
  | Straddle => 1
  | Strangle => 2
  | IronCondor => 4
  | Butterfly => 3
  end.

(** [calculate_payoff] raises [IndexError] exactly when the strategy
    parameters hold fewer strikes than the strategy has strike slots: one
    for a straddle, two for a strangle, four for an iron condor, three for a
    butterfly. *)
Theorem payoff_raises_iff_too_few_strikes (strategy : OptionStrategy) (spot_price : R)
    (strategy_params : StrategyParams) :
  (exists exc, calculate_payoff strategy spot_price strategy_params = Raised exc)
  <-> (length (strike_prices strategy_params) < strikes_needed strategy)%nat.
Proof.
  destruct strategy_params as [spot strikes dates prices qtys rate vol].
  destruct strategy; cbn [calculate_payoff strikes_needed];
    unfold StraddleStrategy.calculate_payoff, StrangleStrategy.calculate_payoff,
      IronCondorStrategy.calculate_payoff, ButterflyStrategy.calculate_payoff;
    cbn [strike_prices];
    destruct strikes as [|k1 [|k2 [|k3 [|k4 rest]]]]; cbn;
    (split; [intros [exc H]; try discriminate H; lia
            |intros H; try lia; eexists; reflexivity]).
Qed.

(** The maximum profit and loss of a straddle or a strangle is computed
    from the option prices alone and never raises; an iron condor needs four
    strikes and a butterfly three. *)
Theorem max_profit_loss_raises_iff (strategy : OptionStrategy)
    (strategy_params : StrategyParams) :
  (exists exc, calculate_max_profit_loss strategy strategy_params = Raised exc)
  <-> match strategy with
      | Straddle | Strangle => False
      | IronCondor => (length (strike_prices strategy_params) < 4)%nat
      | Butterfly => (length (strike_prices strategy_params) < 3)%nat
      end.
Proof.
  destruct strategy_params as [spot strikes dates prices qtys rate vol].
  destruct strategy; cbn [calculate_max_profit_loss];
    unfold StraddleStrategy.calculate_max_profit_loss,
      StrangleStrategy.calculate_max_profit_loss,
      IronCondorStrategy.calculate_max_profit_loss,
      ButterflyStrategy.calculate_max_profit_loss;
    cbn [strike_prices];
    try (split; [intros [exc H]; discriminate H|intros []]);
    destruct strikes as [|k1 [|k2 [|k3 [|k4 rest]]]]; cbn;
    (split; [intros [exc H]; try discriminate H; lia
            |intros H; try lia; eexists; reflexivity]).
Qed.

(** *** Straddle *)

(** The payoff of a straddle is the distance of the spot from the strike;
    with a net debit that is not negative, the payoff at each of the two
    breakeven points is the net debit, so the profit there is zero. *)
Theorem straddle_payoff_and_breakeven (strategy_params : StrategyParams)
    (strike : R) (rest : list R) :
  strike_prices strategy_params = strike :: rest ->
  0 <= price_of strategy_params "call" + price_of strategy_params "put" ->
  (forall spot : R,
      StraddleStrategy.calculate_payoff spot strategy_params = Ok (Rabs (spot - strike)))
  /\ exists low high : R,
       StraddleStrategy.calculate_breakeven strategy_params = Ok [low; high]
       /\ low <= high
       /\ StraddleStrategy.calculate_payoff low strategy_params
          = Ok (price_of strategy_params "call" + price_of strategy_params "put")
       /\ StraddleStrategy.calculate_payoff high strategy_params
          = Ok (price_of strategy_params "call" + price_of strategy_params "put").
Proof.
  intros Hk Hd.
  assert (Hp : forall spot,
             StraddleStrategy.calculate_payoff spot strategy_params
             = Ok (Rabs (spot - strike))).
  { intros spot. unfold StraddleStrategy.calculate_payoff. rewrite Hk, index_0.
    cbn [bind]. f_equal. split_max. }
  split; [exact Hp|].
  unfold StraddleStrategy.calculate_breakeven. rewrite Hk, index_0. cbn [bind].
  set (d := price_of strategy_params "call" + price_of strategy_params "put") in *.
  eexists _, _. split; [reflexivity|]. split; [lra|].
  rewrite !Hp. split; f_equal; split_max.
Qed.

(** *** Strangle *)

(** With the put strike at or below the call strike, the payoff of a
    strangle is never negative and is zero between the strikes; with a net
    debit that is not negative, the payoff at each breakeven point is the
    net debit. *)
Theorem strangle_payoff_and_breakeven (strategy_params : StrategyParams)
    (call_strike put_strike : R) (rest : list R) :
  strike_prices strategy_params = call_strike :: put_strike :: rest ->
  put_strike <= call_strike ->
  0 <= price_of strategy_params "call" + price_of strategy_params "put" ->
  (forall spot : R, exists payoff : R,
      StrangleStrategy.calculate_payoff spot strategy_params = Ok payoff
      /\ 0 <= payoff
      /\ (put_strike <= spot <= call_strike -> payoff = 0))
  /\ exists low high : R,
       StrangleStrategy.calculate_breakeven strategy_params = Ok [low; high]
       /\ StrangleStrategy.calculate_payoff low strategy_params
          = Ok (price_of strategy_params "call" + price_of strategy_params "put")
       /\ StrangleStrategy.calculate_payoff high strategy_params
          = Ok (price_of strategy_params "call" + price_of strategy_params "put").
Proof.
  intros Hk Hord Hd.
  unfold StrangleStrategy.calculate_payoff, StrangleStrategy.calculate_breakeven.
  rewrite Hk. cbn [index nth_error bind].
  set (d := price_of strategy_params "call" + price_of strategy_params "put") in *.
  split.
  - intros spot. eexists. split; [reflexivity|]. split; [split_max|intros H; split_max].
  - eexists _, _. split; [reflexivity|]. split; f_equal; split_max.
Qed.

(** *** Iron condor *)

(** For strikes in increasing order the payoff of an iron condor lies
    between minus the wider wing and zero, and is zero between the two short
    strikes; the profit (payoff plus net credit) therefore stays within the
    reported maximum loss and maximum profit. *)
Theorem iron_condor_payoff_within_reported_extremes (strategy_params : StrategyParams)
    (put_long put_short call_short call_long : R) (rest : list R) (spot : R) :
  strike_prices strategy_params = put_long :: put_short :: call_short :: call_long :: rest ->
  put_long <= put_short -> put_short <= call_short -> call_short <= call_long ->
  exists payoff reported_loss : R,
    IronCondorStrategy.calculate_payoff spot strategy_params = Ok payoff
    /\ IronCondorStrategy.calculate_max_profit_loss strategy_params
       = Ok (mkMaxProfitLoss (Fin (IronCondorStrategy.net_credit strategy_params))
                             reported_loss)
    /\ - reported_loss <= payoff + IronCondorStrategy.net_credit strategy_params
    /\ payoff + IronCondorStrategy.net_credit strategy_params
       <= IronCondorStrategy.net_credit strategy_params
    /\ (put_short <= spot <= call_short -> payoff = 0).
Proof.
  intros Hk H12 H23 H34.
  unfold IronCondorStrategy.calculate_payoff, IronCondorStrategy.calculate_max_profit_loss.
  rewrite Hk. cbn [index nth_error bind].
  eexists _, _. split; [reflexivity|]. split; [reflexivity|].
  split; [split_max|]. split; [split_max|]. intros H. split_max.
Qed.

(** With a net credit between zero and the width of each wing, the profit
    of an iron condor is zero at both breakeven points. *)
Theorem iron_condor_breakeven_zero_profit (strategy_params : StrategyParams)
    (put_long put_short call_short call_long : R) (rest : list R) :
  strike_prices strategy_params = put_long :: put_short :: call_short :: call_long :: rest ->
  put_short <= call_short ->
  0 <= IronCondorStrategy.net_credit strategy_params ->
  IronCondorStrategy.net_credit strategy_params <= put_short - put_long ->
  IronCondorStrategy.net_credit strategy_params <= call_long - call_short ->
  exists low high : R,
    IronCondorStrategy.calculate_breakeven strategy_params = Ok [low; high]
    /\ IronCondorStrategy.calculate_payoff low strategy_params
       = Ok (- IronCondorStrategy.net_credit strategy_params)
    /\ IronCondorStrategy.calculate_payoff high strategy_params
       = Ok (- IronCondorStrategy.net_credit strategy_params).
Proof.
  intros Hk H23 Hc Hp Hcw.
  unfold IronCondorStrategy.calculate_payoff, IronCondorStrategy.calculate_breakeven.
  rewrite Hk. cbn [index nth_error bind].
  set (c := IronCondorStrategy.net_credit strategy_params) in *.
  eexists _, _. split; [reflexivity|]. split; f_equal; split_max.
Qed.

(** *** Butterfly *)

(** For strikes in increasing order the payoff of a butterfly is at most
    the distance from the lower to the middle strike, which it reaches at
    the middle strike, and at least the smaller of zero and
    [2 * middle - lower - upper], the value it takes above the upper strike:
    the loss is bounded by the net debit only when the upper wing is not
    wider than the lower one. *)
Theorem butterfly_payoff_bounds (strategy_params : StrategyParams)
    (lower middle upper : R) (rest : list R) (spot : R) :
  strike_prices strategy_params = lower :: middle :: upper :: rest ->
  lower <= middle -> middle <= upper ->
  exists payoff at_middle : R,
    ButterflyStrategy.calculate_payoff spot strategy_params = Ok payoff
    /\ ButterflyStrategy.calculate_payoff middle strategy_params = Ok at_middle
    /\ at_middle = middle - lower
    /\ payoff <= middle - lower
    /\ Rmin 0 (2 * middle - lower - upper) <= payoff
    /\ (upper <= spot -> payoff = 2 * middle - lower - upper).
Proof.
  intros Hk H12 H23.
  unfold ButterflyStrategy.calculate_payoff.
  rewrite Hk. cbn [index nth_error bind].
  eexists _, _. split; [reflexivity|]. split; [reflexivity|].
  split; [split_max|]. split; [split_max|]. split; [split_max|].
  intros H. split_max.
Qed.

(** *** [analyze_strategy_performance] *)

Lemma map_outcome_length {A B : Type} (f : A -> outcome B) (xs : list A) (ys : list B) :
  map_outcome f xs = Ok ys -> length ys = length xs.
Proof.
  revert ys. induction xs as [|x xs IH]; intros ys; cbn [map_outcome].
  - intros [= <-]. reflexivity.
  - destruct (f x) as [y|exc]; cbn [bind]; [|discriminate].
    destruct (map_outcome f xs) as [ys'|exc]; cbn [bind]; [|discriminate].
    intros [= <-]. cbn [length]. f_equal. now apply IH.
Qed.

Lemma get_strategy_known (strategy_name : string) :
  match get_strategy strategy_name with
  | Some _ => In strategy_name ["straddle"; "strangle"; "iron_condor"; "butterfly"]%string
  | None => ~ In strategy_name ["straddle"; "strangle"; "iron_condor"; "butterfly"]%string
  end.
Proof.
  unfold get_strategy.
  destruct (String.eqb_spec strategy_name "straddle"); [subst; cbn; tauto|].
  destruct (String.eqb_spec strategy_name "strangle"); [subst; cbn; tauto|].
  destruct (String.eqb_spec strategy_name "iron_condor"); [subst; cbn; tauto|].
  destruct (String.eqb_spec strategy_name "butterfly"); [subst; cbn; tauto|].
  cbn. intros [H|[H|[H|[H|[]]]]]; congruence.
Qed.

(** [analyze_strategy_performance] answers the empty dictionary exactly for
    a name that is none of the four strategies; for a known strategy it
    either raises or returns one payoff per spot price of the grid. *)
Theorem analyze_strategy_performance_cases (strategy_name : string)
    (strategy_params : StrategyParams) (spot_prices : list R) :
  match analyze_strategy_performance strategy_name strategy_params spot_prices with
  | Ok None =>
      ~ In strategy_name ["straddle"; "strangle"; "iron_condor"; "butterfly"]%string
  | Ok (Some analysis) =>
      In strategy_name ["straddle"; "strangle"; "iron_condor"; "butterfly"]%string
      /\ length (payoffs analysis) = length spot_prices
  | Raised _ =>
      In strategy_name ["straddle"; "strangle"; "iron_condor"; "butterfly"]%string
  end.
Proof.
  unfold analyze_strategy_performance.
  pose proof (get_strategy_known strategy_name) as Hk.
  destruct (get_strategy strategy_name) as [strategy|]; [|exact Hk].
  destruct (map_outcome _ spot_prices) as [ps|exc] eqn:Ep; cbn [bind]; [|exact Hk].
  destruct (calculate_greeks strategy strategy_params); cbn [bind]; [|exact Hk].
  destruct (calculate_breakeven strategy strategy_params); cbn [bind]; [|exact Hk].
  destruct (calculate_max_profit_loss strategy strategy_params); cbn [bind]; [|exact Hk].
  split; [exact Hk|]. cbn [payoffs]. now apply map_outcome_length in Ep.
Qed.

(** *** Instances

    Parameters with the given strikes and no recorded option price. *)
Definition unpriced (strikes : list R) : StrategyParams :=
  mkStrategyParams 18000 strikes [] ∅ ∅ (5 / 100) (25 / 100).

Lemma unpriced_price_of (strikes : list R) (key : string) :
  price_of (unpriced strikes) key = 0.
Proof. unfold price_of, unpriced. cbn [option_prices]. now rewrite lookup_empty. Qed.

Lemma unpriced_net_credit (strikes : list R) :
  IronCondorStrategy.net_credit (unpriced strikes) = 0.
Proof. unfold IronCondorStrategy.net_credit. rewrite !unpriced_price_of. ring. Qed.

(** Quoted strategies: a straddle struck at 18000 with the call at 150
    and the put at 120; a strangle with the call struck at 18100 and
    quoted 90, the put struck at 17900 and quoted 80; an iron condor on
    17800/17900/18100/18200 that sells the put at 60 and the call at 55
    and buys the wings at 30 and 25. *)
Definition quoted_straddle : StrategyParams :=
  mkStrategyParams 18000 [18000] []
    (<["call"%string := 150]> (<["put"%string := 120]> ∅)) ∅ (5 / 100) (25 / 100).

Definition quoted_strangle : StrategyParams :=
  mkStrategyParams 18000 [18100; 17900] []
    (<["call"%string := 90]> (<["put"%string := 80]> ∅)) ∅ (5 / 100) (25 / 100).

Definition quoted_condor : StrategyParams :=
  mkStrategyParams 18000 [17800; 17900; 18100; 18200] []
    (<["put_short"%string := 60]>
       (<["call_short"%string := 55]>
          (<["put_long"%string := 30]> (<["call_long"%string := 25]> ∅))))
    ∅ (5 / 100) (25 / 100).

Lemma quoted_straddle_prices :
  price_of quoted_straddle "call" = 150 /\ price_of quoted_straddle "put" = 120.
Proof. split; reflexivity. Qed.

Lemma quoted_strangle_prices :
  price_of quoted_strangle "call" = 90 /\ price_of quoted_strangle "put" = 80.
Proof. split; reflexivity. Qed.

Lemma quoted_condor_net_credit :
  IronCondorStrategy.net_credit quoted_condor = 60 + 55 - 30 - 25.
Proof. reflexivity. Qed.

Lemma straddle_payoff_and_breakeven_witness :
  (forall spot : R,
      StraddleStrategy.calculate_payoff spot quoted_straddle = Ok (Rabs (spot - 18000)))
  /\ exists low high : R,
       StraddleStrategy.calculate_breakeven quoted_straddle = Ok [low; high]
       /\ low <= high
       /\ StraddleStrategy.calculate_payoff low quoted_straddle = Ok (150 + 120)
       /\ StraddleStrategy.calculate_payoff high quoted_straddle = Ok (150 + 120).
Proof.
  destruct quoted_straddle_prices as [Hcall Hput].
  assert (Hdebit : 0 <= price_of quoted_straddle "call" + price_of quoted_straddle "put")
    by (rewrite Hcall, Hput; lra).
  pose proof (straddle_payoff_and_breakeven quoted_straddle 18000 [] eq_refl Hdebit) as H.
  rewrite Hcall, Hput in H. exact H.
Defined.

Lemma strangle_payoff_and_breakeven_witness :
  (forall spot : R, exists payoff : R,
      StrangleStrategy.calculate_payoff spot quoted_strangle = Ok payoff
      /\ 0 <= payoff
      /\ (17900 <= spot <= 18100 -> payoff = 0))
  /\ exists low high : R,
       StrangleStrategy.calculate_breakeven quoted_strangle = Ok [low; high]
       /\ StrangleStrategy.calculate_payoff low quoted_strangle = Ok (90 + 80)
       /\ StrangleStrategy.calculate_payoff high quoted_strangle = Ok (90 + 80).
Proof.
  destruct quoted_strangle_prices as [Hcall Hput].
  assert (Hstrikes : 17900 <= 18100) by lra.
  assert (Hdebit : 0 <= price_of quoted_strangle "call" + price_of quoted_strangle "put")
    by (rewrite Hcall, Hput; lra).
  pose proof (strangle_payoff_and_breakeven quoted_strangle 18100 17900 []
                eq_refl Hstrikes Hdebit) as H.
  rewrite Hcall, Hput in H. exact H.
Defined.

Lemma iron_condor_payoff_within_reported_extremes_witness :
  exists payoff reported_loss : R,
    IronCondorStrategy.calculate_payoff 17700 (unpriced [17800; 17900; 18100; 18200])
    = Ok payoff
    /\ - reported_loss <= payoff.
Proof.
  assert (H1 : 17800 <= 17900) by lra.
  assert (H2 : 17900 <= 18100) by lra.
  assert (H3 : 18100 <= 18200) by lra.
  destruct (iron_condor_payoff_within_reported_extremes
              (unpriced [17800; 17900; 18100; 18200]) 17800 17900 18100 18200 [] 17700
              eq_refl H1 H2 H3) as (payoff & reported_loss & Hpayoff & _ & Hloss & _).
  exists payoff, reported_loss. split; [exact Hpayoff|].
  rewrite unpriced_net_credit in Hloss. lra.
Defined.

Lemma iron_condor_breakeven_zero_profit_witness :
  exists low high : R,
    IronCondorStrategy.calculate_breakeven quoted_condor = Ok [low; high]
    /\ IronCondorStrategy.calculate_payoff low quoted_condor = Ok (- (60 + 55 - 30 - 25))
    /\ IronCondorStrategy.calculate_payoff high quoted_condor = Ok (- (60 + 55 - 30 - 25)).
Proof.
  pose proof quoted_condor_net_credit as Hcredit.
  assert (H1 : 17900 <= 18100) by lra.
  assert (H2 : 0 <= IronCondorStrategy.net_credit quoted_condor) by (rewrite Hcredit; lra).
  assert (H3 : IronCondorStrategy.net_credit quoted_condor <= 17900 - 17800)
    by (rewrite Hcredit; lra).
  assert (H4 : IronCondorStrategy.net_credit quoted_condor <= 18200 - 18100)
    by (rewrite Hcredit; lra).
  pose proof (iron_condor_breakeven_zero_profit quoted_condor 17800 17900 18100 18200 []
                eq_refl H1 H2 H3 H4) as H.
  rewrite Hcredit in H. exact H.
Defined.

Lemma butterfly_payoff_bounds_witness :
  exists payoff at_middle : R,
    ButterflyStrategy.calculate_payoff 18300 (unpriced [17900; 18000; 18100]) = Ok payoff
    /\ ButterflyStrategy.calculate_payoff 18000 (unpriced [17900; 18000; 18100])
       = Ok at_middle
    /\ at_middle = 18000 - 17900
    /\ payoff <= 18000 - 17900
    /\ Rmin 0 (2 * 18000 - 17900 - 18100) <= payoff
    /\ (18100 <= 18300 -> payoff = 2 * 18000 - 17900 - 18100).
Proof.
  apply (butterfly_payoff_bounds (unpriced [17900; 18000; 18100]) 17900 18000 18100 []
           18300 eq_refl); lra.
Defined.

End StrategyClassFacts.

(** *** The volatility surface *)

Module VolatilitySurfaceFacts.
Import PyNum VolatilitySurface.
Local Open Scope Q_scope.

Lemma key_eqb_refl (k : key) : key_eqb k k = true.
Proof.
  unfold key_eqb. apply andb_true_iff. split; apply Qeq_bool_iff; reflexivity.
Qed.

Lemma key_eqb_trans_l (a b c : key) :
  key_eqb a b = true -> key_eqb a c = key_eqb b c.
Proof.
  unfold key_eqb. rewrite andb_true_iff, !Qeq_bool_iff. intros [H1 H2].
  assert (E1 : Qeq_bool (fst a) (fst c) = Qeq_bool (fst b) (fst c)).
  { destruct (Qeq_bool (fst b) (fst c)) eqn:E.
    - apply Qeq_bool_iff in E. apply Qeq_bool_iff. now rewrite H1.
    - destruct (Qeq_bool (fst a) (fst c)) eqn:E'; [|reflexivity].
      apply Qeq_bool_iff in E'. rewrite H1 in E'. apply Qeq_bool_iff in E'. congruence. }
  assert (E2 : Qeq_bool (snd a) (snd c) = Qeq_bool (snd b) (snd c)).
  { destruct (Qeq_bool (snd b) (snd c)) eqn:E.
    - apply Qeq_bool_iff in E. apply Qeq_bool_iff. now rewrite H2.
    - destruct (Qeq_bool (snd a) (snd c)) eqn:E'; [|reflexivity].
      apply Qeq_bool_iff in E'. rewrite H2 in E'. apply Qeq_bool_iff in E'. congruence. }
  now rewrite E1, E2.
Qed.

Lemma dict_get_set_same (k : key) (v : Q) (d : list (key * Q)) :
  dict_get k (dict_set k v d) = Some v.
Proof.
  induction d as [|[k' v'] rest IH]; cbn [dict_set dict_get].
  - now rewrite key_eqb_refl.
  - destruct (key_eqb k' k) eqn:E; cbn [dict_get]; rewrite E; [reflexivity|exact IH].
Qed.

Lemma dict_get_set_other (k k2 : key) (v : Q) (d : list (key * Q)) :
  key_eqb k k2 = false ->
  dict_get k2 (dict_set k v d) = dict_get k2 d.
Proof.
  intros Hne.
  induction d as [|[k' v'] rest IH]; cbn [dict_set dict_get].
  - now rewrite Hne.
  - destruct (key_eqb k' k) eqn:E; cbn [dict_get].
    + rewrite (key_eqb_trans_l _ _ k2 E), Hne. reflexivity.
    + now rewrite IH.
Qed.

(** A point added to the surface is read back exactly, whatever the
    surface held before, and adding it changes the stored volatility of no
    other point. *)
Theorem surface_add_then_get (surface_data : list (key * Q)) (strike expiry iv : Q) :
  get_volatility (add_volatility_point surface_data strike expiry iv) strike expiry = iv
  /\ forall (strike' expiry' iv' : Q),
       key_eqb (strike, expiry) (strike', expiry') = false ->
       dict_get (strike', expiry') surface_data = Some iv' ->
       get_volatility (add_volatility_point surface_data strike expiry iv) strike' expiry'
       = iv'.
Proof.
  unfold get_volatility, add_volatility_point. split.
  - now rewrite dict_get_set_same.
  - intros strike' expiry' iv' Hne Hget.
    now rewrite (dict_get_set_other _ _ _ _ Hne), Hget.
Qed.

Lemma dict_get_stored (k : key) (d : list (key * Q)) (v : Q) :
  dict_get k d = Some v -> In v (map snd d).
Proof.
  induction d as [|[k' v'] rest IH]; cbn [dict_get map snd]; [discriminate|].
  destruct (key_eqb k' k); [intros [= ->]; now left|intros H; right; now apply IH].
Qed.

(** A lookup never invents a volatility: [get_volatility] answers a stored
    value or the default 0.2; on an empty surface it answers 0.2. *)
Theorem surface_get_is_stored_or_default (surface_data : list (key * Q)) (strike expiry : Q) :
  (get_volatility surface_data strike expiry = 2 # 10
   \/ In (get_volatility surface_data strike expiry) (map snd surface_data))
  /\ get_volatility [] strike expiry = 2 # 10.
Proof.
  split; [|reflexivity].
  unfold get_volatility.
  destruct (dict_get (strike, expiry) surface_data) as [iv|] eqn:E.
  - right. now apply dict_get_stored in E.
  - unfold _interpolate_volatility.
    destruct surface_data as [|[k0 v0] rest]; [now left|].
    clear E.
    destruct (dict_get _ _) as [iv|] eqn:E'; [right; now apply dict_get_stored in E'|now left].
Qed.

End VolatilitySurfaceFacts.

(** *** Positions, exit levels, sizing, limits and hedges of the risk manager *)

Module RiskLimitFacts.
Import PyNum PyStr Risk RiskLimits.
Local Open Scope Q_scope.

Lemma Qlt_bool_iff (a b : Q) : Qlt_bool a b = true <-> a < b.
Proof.
  unfold Qlt_bool. rewrite negb_true_iff. split.
  - intros H. apply Qnot_le_lt. intros Hle. apply Qle_bool_iff in Hle. congruence.
  - intros H. destruct (Qle_bool b a) eqn:E; [|reflexivity].
    apply Qle_bool_iff in E. exfalso. apply (Qlt_not_le _ _ H E).
Qed.

Lemma Qlt_bool_false_iff (a b : Q) : Qlt_bool a b = false <-> b <= a.
Proof.
  unfold Qlt_bool. rewrite negb_false_iff. apply Qle_bool_iff.
Qed.

(** [int] of a number that is not negative is its floor. *)
Lemma py_int_nonneg (x : Q) : 0 <= x -> (0 <= py_int x)%Z /\ inject_Z (py_int x) <= x.
Proof.
  intros Hx. destruct x as [n d]. unfold py_int; cbn [Qnum Qden].
  assert (Hn : (0 <= n)%Z).
  { unfold Qle in Hx. cbn in Hx. lia. }
  rewrite Z.quot_div_nonneg by lia.
  split; [apply Z.div_pos; lia|].
  change (n / Z.pos d)%Z with (Qfloor (n # d)). apply Qfloor_le.
Qed.

(** *** Adding and removing positions *)

Lemma filter_keeps_all {A : Type} (f : A -> bool) (xs : list A) :
  (forall x, In x xs -> f x = true) -> List.filter f xs = xs.
Proof.
  induction xs as [|x xs IH]; intros H; cbn [List.filter]; [reflexivity|].
  rewrite (H x (or_introl eq_refl)). f_equal. apply IH. intros y Hy. apply H. now right.
Qed.

(** [remove_position] drops every position that carries the symbol, and
    only those; removing the symbol of a position just added gives the
    manager back when no other position carried that symbol. *)
Theorem remove_position_by_symbol (self : RiskManager) (position : Position)
    (position_id : string) :
  (forall p : Position,
      In p (positions (remove_position self position_id))
      <-> In p (positions self) /\ symbol p <> position_id)
  /\ ((forall p : Position, In p (positions self) -> symbol p <> symbol position) ->
      remove_position (add_position self position) (symbol position) = self).
Proof.
  split.
  - intros p. unfold remove_position; cbn [positions].
    rewrite filter_In, negb_true_iff. 
    destruct (String.eqb_spec (symbol p) position_id); split; intros [H1 H2];
      (split; [assumption|congruence]).
  - intros Hfresh. destruct self as [mps mdl slp tpp dpnl held].
    unfold remove_position, add_position; cbn [positions max_position_size max_daily_loss
      stop_loss_pct take_profit_pct daily_pnl] in *.
    f_equal. rewrite List.filter_app. cbn [List.filter].
    rewrite String.eqb_refl. cbn [negb]. rewrite app_nil_r.
    apply filter_keeps_all. intros p Hp. apply negb_true_iff.
    destruct (String.eqb_spec (symbol p) (symbol position)) as [E|E]; [|reflexivity].
    now apply Hfresh in Hp.
Qed.

(** *** Stop-loss and take-profit levels *)

(** For a positive entry price and positive percentages the stop level of
    a call lies below the entry price and its take-profit level above; for a
    put it is the other way round; and no price triggers both the stop-loss
    rule and the take-profit rule. *)
Theorem exit_levels_bracket_entry (self : RiskManager) (position : Position)
    (current_price : Q) :
  0 < entry_price position -> 0 < stop_loss_pct self -> 0 < take_profit_pct self ->
  (is_call (option_type position) = true ->
     calculate_stop_loss_level self (entry_price position) (option_type position)
       < entry_price position
     /\ entry_price position
       < calculate_take_profit_level self (entry_price position) (option_type position))
  /\ (is_call (option_type position) = false ->
     calculate_take_profit_level self (entry_price position) (option_type position)
       < entry_price position
     /\ entry_price position
       < calculate_stop_loss_level self (entry_price position) (option_type position))
  /\ (stop_loss_rule self position current_price
      && take_profit_rule self position current_price = false)%bool.
Proof.
  intros He Hs Ht.
  unfold calculate_stop_loss_level, calculate_take_profit_level,
    stop_loss_rule, take_profit_rule.
  set (e := entry_price position) in *. set (s := stop_loss_pct self) in *.
  set (t := take_profit_pct self) in *.
  assert (Hes : 0 < e * s) by (apply Qmult_lt_0_compat; assumption).
  assert (Het : 0 < e * t) by (apply Qmult_lt_0_compat; assumption).
  clearbody e s t.
  split; [intros ->; cbv iota; split; lra|]. split; [intros ->; cbv iota; split; lra|].
  destruct (is_call (option_type position)) eqn:Ec;
    destruct (is_put (option_type position)) eqn:Ep; cbn [andb orb].
  - unfold is_call, is_put in Ec, Ep.
    apply String.eqb_eq in Ec. apply String.eqb_eq in Ep. congruence.
  - rewrite orb_false_r.
    destruct (Qle_bool current_price (e * (1 - s))) eqn:E1; [|reflexivity].
    destruct (Qle_bool (e * (1 + t)) current_price) eqn:E2; [|reflexivity].
    apply Qle_bool_iff in E1, E2. exfalso. lra.
  - destruct (Qle_bool (e * (1 + s)) current_price) eqn:E1; [|reflexivity].
    destruct (Qle_bool current_price (e * (1 - t))) eqn:E2; [|reflexivity].
    apply Qle_bool_iff in E1, E2. exfalso. lra.
  - reflexivity.
Qed.

(** *** Kelly sizing *)

(** The contract count of [calculate_position_sizing] is never negative,
    and for a capital that is not negative and a positive maximum loss per
    contract the contracts cannot lose more than a tenth of the capital. *)
Theorem position_sizing_within_tenth_of_capital (strategy_params : gmap string Q)
    (available_capital : Q) :
  0 <= available_capital ->
  0 < get_default strategy_params "max_loss" 1000 ->
  (0 <= calculate_position_sizing strategy_params available_capital)%Z
  /\ inject_Z (calculate_position_sizing strategy_params available_capital)
     * get_default strategy_params "max_loss" 1000
     <= available_capital * (1 # 10).
Proof.
  intros Hc Hm. unfold calculate_position_sizing.
  set (ml := get_default strategy_params "max_loss" 1000) in *.
  assert (Hzero : (0 <= 0)%Z /\ inject_Z 0 * ml <= available_capital * (1 # 10)).
  { split; [lia|]. change (inject_Z 0) with 0. lra. }
  destruct (Qeq_bool _ 0); [exact Hzero|].
  destruct (Qeq_bool _ 0); [exact Hzero|].
  destruct (Qeq_bool ml 0); [exact Hzero|].
  set (ps := py_int _). set (x := available_capital * (1 # 10) / ml).
  assert (Hx : 0 <= x).
  { unfold x. apply Qle_shift_div_l; [exact Hm|]. lra. }
  destruct (py_int_nonneg x Hx) as [Hmp0 Hmp].
  split; [lia|].
  assert (Hle : (Z.max 0 (Z.min ps (py_int x)) <= py_int x)%Z) by lia.
  assert (Hq : inject_Z (Z.max 0 (Z.min ps (py_int x))) <= x).
  { eapply Qle_trans; [|exact Hmp]. rewrite <- Zle_Qle. exact Hle. }
  assert (Hxm : x * ml == available_capital * (1 # 10)).
  { unfold x. field. lra. }
  rewrite <- Hxm. apply Qmult_le_compat_r; [exact Hq|lra].
Qed.

(** Without average loss, without average win or without maximum loss per
    contract the answer is zero contracts. *)
Theorem position_sizing_zero_cases (strategy_params : gmap string Q) (available_capital : Q) :
  get_default strategy_params "avg_loss" 100 == 0
  \/ get_default strategy_params "avg_win" 100 == 0
  \/ get_default strategy_params "max_loss" 1000 == 0 ->
  calculate_position_sizing strategy_params available_capital = 0%Z.
Proof.
  unfold calculate_position_sizing. intros [H|[H|H]]; apply Qeq_bool_iff in H; rewrite H.
  - reflexivity.
  - destruct (Qeq_bool (get_default strategy_params "avg_loss" 100) 0); reflexivity.
  - destruct (Qeq_bool (get_default strategy_params "avg_loss" 100) 0); [reflexivity|].
    destruct (Qeq_bool (get_default strategy_params "avg_win" 100) 0); reflexivity.
Qed.

(** *** Instances *)

(** A long call bought at 120. *)
Definition long_call : Position :=
  {| symbol := "NIFTY18000CE"; option_type := "call"; strike_price := 18000;
     expiry_date := 19747; quantity := 100; entry_price := 120; current_price := 130;
     entry_time := 0; strategy_name := "straddle" |}.

Lemma exit_levels_bracket_entry_witness :
  (stop_loss_rule default_manager long_call 130
   && take_profit_rule default_manager long_call 130 = false)%bool.
Proof.
  assert (H1 : 0 < entry_price long_call) by reflexivity.
  assert (H2 : 0 < stop_loss_pct default_manager) by reflexivity.
  assert (H3 : 0 < take_profit_pct default_manager) by reflexivity.
  exact (proj2 (proj2 (exit_levels_bracket_entry default_manager long_call 130 H1 H2 H3))).
Defined.

(** A strategy that wins six times in ten, 200 on average, and loses 100
    on average: the Kelly fraction 0.4 is cut to 0.25, which would buy 250
    contracts of the default maximum loss 1000 with a capital of one
    million; the cap of a tenth of the capital leaves 100. *)
Definition winning_strategy : gmap string Q :=
  <["win_rate"%string := 6 # 10]>
    (<["avg_win"%string := 200]> (<["avg_loss"%string := 100]> ∅)).

Lemma position_sizing_within_tenth_of_capital_witness :
  calculate_position_sizing winning_strategy 1000000 = 100%Z
  /\ (0 <= calculate_position_sizing winning_strategy 1000000)%Z
  /\ inject_Z (calculate_position_sizing winning_strategy 1000000)
     * get_default winning_strategy "max_loss" 1000
     <= 1000000 * (1 # 10).
Proof.
  split; [vm_compute; reflexivity|].
  apply (position_sizing_within_tenth_of_capital winning_strategy 1000000).
  - discriminate.
  - reflexivity.
Defined.

End RiskLimitFacts.

(** *** Risk alerts and hedging recommendations *)

Module RiskAlertFacts.
Import PyNum PyStr Risk RiskLimits RiskLimitFacts.
Local Open Scope Q_scope.

Lemma In_append_if {A : Type} (cond : bool) (item x : A) (items : list A) :
  In x (append_if cond item items) <-> In x items \/ (cond = true /\ x = item).
Proof.
  unfold append_if. destruct cond.
  - rewrite in_app_iff. cbn [In]. intuition congruence.
  - intuition congruence.
Qed.

(** The alerts come in one fixed order, each kind at most once: position
    size, daily loss, delta, gamma, theta, VaR; and each kind has its own
    severity and recommended action. *)
Theorem risk_alerts_fixed_order (repr : Q -> string) (self : RiskManager)
    (current_prices : gmap string Q) :
  sublist (map alert_type (check_risk_limits repr self current_prices))
          ["position_size"; "daily_loss"; "delta_exposure"; "gamma_exposure";
           "theta_decay"; "var_limit"]%string
  /\ Forall (fun alert =>
               In (alert_type alert, level alert, action alert)
                  [ ("position_size", CRITICAL, "reduce_positions");
                    ("daily_loss", CRITICAL, "close_all_positions");
                    ("delta_exposure", HIGH, "hedge_delta");
                    ("gamma_exposure", MEDIUM, "monitor_closely");
                    ("theta_decay", MEDIUM, "consider_rolling");
                    ("var_limit", HIGH, "reduce_risk") ]%string)
            (check_risk_limits repr self current_prices).
Proof.
  split.
  - unfold check_risk_limits, append_if.
    repeat match goal with
           | |- context [Qlt_bool ?a ?b] => destruct (Qlt_bool a b)
           end;
      cbn [map app alert_type];
      repeat first [apply sublist_nil | apply sublist_skip | apply sublist_cons].
  - apply List.Forall_forall. intros alert Hin. unfold check_risk_limits in Hin.
    cbv zeta in Hin.
    repeat (apply In_append_if in Hin; destruct Hin as [Hin|[_ ->]]);
      [destruct Hin|..]; cbn [alert_type level action];
      repeat first [left; reflexivity | right].
Qed.

(** With no position held and a position limit that is not negative, the
    only alert that can fire is the daily-loss alert, and it fires exactly
    when the day's loss exceeds the limit. *)
Theorem risk_alerts_without_positions (repr : Q -> string) (self : RiskManager)
    (current_prices : gmap string Q) :
  positions self = [] ->
  0 <= max_position_size self ->
  map alert_type (check_risk_limits repr self current_prices)
  = if Qlt_bool (daily_pnl self) (- max_daily_loss self)
    then ["daily_loss"%string] else [].
Proof.
  intros Hp Hm. unfold check_risk_limits, calculate_portfolio_metrics. rewrite Hp.
  cbn [portfolio_value total_delta total_gamma total_theta var_95].
  change (Qabs 0) with 0.
  assert (E1 : Qlt_bool (max_position_size self) 0 = false)
    by (apply Qlt_bool_false_iff; lra).
  assert (E2 : Qlt_bool (max_position_size self * (1 # 10)) 0 = false)
    by (apply Qlt_bool_false_iff; lra).
  assert (E3 : Qlt_bool (max_position_size self * (1 # 100)) 0 = false)
    by (apply Qlt_bool_false_iff; lra).
  assert (E4 : Qlt_bool 0 (- max_position_size self * (1 # 1000)) = false)
    by (apply Qlt_bool_false_iff; lra).
  assert (E5 : Qlt_bool (max_position_size self * (5 # 100)) 0 = false)
    by (apply Qlt_bool_false_iff; lra).
  rewrite E1, E2, E3, E4, E5. unfold append_if.
  destruct (Qlt_bool (daily_pnl self) (- max_daily_loss self)); reflexivity.
Qed.

(** Whenever [check_risk_limits] raises a delta, gamma or theta alert,
    [get_hedging_recommendations] proposes the matching hedge for the same
    metrics (the position limit not being negative): the recommendation
    thresholds are half the alert thresholds. *)
Theorem greek_alert_has_hedge (repr : Q -> string) (self : RiskManager)
    (current_prices : gmap string Q) (alert : Alert) :
  0 <= max_position_size self ->
  In alert (check_risk_limits repr self current_prices) ->
  In (alert_type alert, action alert)
     [ ("delta_exposure", "hedge_delta"); ("gamma_exposure", "monitor_closely");
       ("theta_decay", "consider_rolling") ]%string ->
  exists recommendation : Recommendation,
    In recommendation
       (get_hedging_recommendations self (calculate_portfolio_metrics self current_prices))
    /\ rec_type recommendation
       = (if String.eqb (alert_type alert) "delta_exposure" then "delta_hedge"
          else if String.eqb (alert_type alert) "gamma_exposure" then "gamma_hedge"
          else "theta_hedge")%string.
Proof.
  intros Hm Hin Hkind.
  unfold check_risk_limits in Hin. cbv zeta in Hin.
  set (metrics := calculate_portfolio_metrics self current_prices) in *.
  repeat (apply In_append_if in Hin; destruct Hin as [Hin|[Hc ->]]);
    try (cbn [In] in Hin; contradiction);
    cbn [alert_type action In] in Hkind;
    try (exfalso; intuition congruence);
    clear Hkind; apply Qlt_bool_iff in Hc; cbn [alert_type String.eqb Ascii.eqb Bool.eqb];
    unfold get_hedging_recommendations.
  - (* delta *)
    assert (E : Qlt_bool (max_position_size self * (5 # 100)) (Qabs (total_delta metrics)) = true)
      by (apply Qlt_bool_iff; lra).
    rewrite E.
    destruct (Qlt_bool 0 (total_delta metrics)); eexists;
      (split; [apply In_append_if; left; apply In_append_if; left; cbn; now left
              |reflexivity]).
  - (* gamma *)
    assert (E : Qlt_bool (max_position_size self * (5 # 1000)) (Qabs (total_gamma metrics)) = true)
      by (apply Qlt_bool_iff; lra).
    rewrite E. eexists. split.
    + apply In_append_if. left. unfold append_if at 1. apply in_or_app. right. now left.
    + reflexivity.
  - (* theta *)
    assert (E : Qlt_bool (total_theta metrics) (- max_position_size self * (5 # 10000)) = true)
      by (apply Qlt_bool_iff; lra).
    rewrite E. unfold append_if at 1. eexists. split; [apply in_or_app; right; now left|].
    reflexivity.
Qed.

(** *** Instances *)

(** A manager with a position limit of 10 that holds a hundred calls. *)
Definition small_manager : RiskManager :=
  mkRiskManager 10 50000 (2 # 100) (5 # 100) 0 [long_call].

Lemma risk_alerts_without_positions_witness :
  map alert_type (check_risk_limits (fun _ => ""%string) default_manager ∅)
  = if Qlt_bool (daily_pnl default_manager) (- max_daily_loss default_manager)
    then ["daily_loss"%string] else [].
Proof.
  apply (risk_alerts_without_positions (fun _ => ""%string) default_manager ∅).
  - reflexivity.
  - discriminate.
Defined.

Lemma greek_alert_has_hedge_witness :
  exists recommendation : Recommendation,
    In recommendation
       (get_hedging_recommendations small_manager
          (calculate_portfolio_metrics small_manager ∅))
    /\ rec_type recommendation = "delta_hedge"%string.
Proof.
  apply (greek_alert_has_hedge (fun _ => ""%string) small_manager ∅
           (mkAlert "delta_exposure" HIGH "Delta exposure  is too high" "hedge_delta")).
  - discriminate.
  - vm_compute. right. left. reflexivity.
  - left. reflexivity.
Defined.

End RiskAlertFacts.

(** *** The backtest: strikes, expiries, entries *)

Module BacktestEntryFacts.
Import PyNum PyStr Risk RationalPricing Backtest RiskLimitFacts BacktestFacts.
Local Open Scope Q_scope.

(** [round] moves a number by at most one half. *)
Lemma py_round_close (x : Q) :
  inject_Z (py_round x) - (1 # 2) <= x /\ x <= inject_Z (py_round x) + (1 # 2).
Proof.
  pose proof (Qfloor_le x) as Hlo. pose proof (Qlt_floor x) as Hhi.
  unfold py_round.
  set (f := Qfloor x) in *.
  rewrite inject_Z_plus in Hhi. change (inject_Z 1) with 1 in Hhi.
  destruct (x - inject_Z f ?= 1 # 2) eqn:E.
  - apply Qeq_alt in E. destruct (Z.even f).
    + lra.
    + rewrite inject_Z_plus. change (inject_Z 1) with 1. lra.
  - apply Qlt_alt in E. lra.
  - apply Qgt_alt in E. rewrite inject_Z_plus. change (inject_Z 1) with 1. lra.
Qed.

(** The at-the-money strike is a multiple of 50 that lies within 25 of the
    spot. *)
Theorem atm_strike_is_nearest_fifty (spot_price : Q) :
  (_get_atm_strike spot_price mod 50 = 0)%Z
  /\ inject_Z (_get_atm_strike spot_price) - 25 <= spot_price
  /\ spot_price <= inject_Z (_get_atm_strike spot_price) + 25.
Proof.
  unfold _get_atm_strike. split; [apply Z.mod_mul; lia|].
  destruct (py_round_close (spot_price / 50)) as [Hlo Hhi].
  rewrite inject_Z_mult. change (inject_Z 50) with 50.
  set (k := inject_Z (py_round (spot_price / 50))) in *. clearbody k.
  assert (E : spot_price / 50 * 50 == spot_price) by (field).
  split; nra.
Qed.

(** The expiry chosen for a trade is a Thursday, strictly after the day of
    the bar and at most seven days later; the live engine chooses its expiry
    the same way from today's date. *)
Theorem next_expiry_is_following_thursday (date now : Z) :
  (weekday (_get_next_expiry date) = 3
   /\ date < _get_next_expiry date <= date + 7)%Z
  /\ (weekday (TradingEngine._get_next_expiry now) = 3
      /\ now / us_per_day < TradingEngine._get_next_expiry now <= now / us_per_day + 7)%Z.
Proof.
  assert (H : forall day : Z,
             let days_ahead := ((3 - weekday day) mod 7)%Z in
             let expiry :=
               (day + (if (days_ahead =? 0)%Z then 7 else days_ahead))%Z in
             (weekday expiry = 3 /\ day < expiry <= day + 7)%Z).
  { intros day. cbn zeta. unfold weekday.
    destruct (Z.eqb_spec ((3 - (day + 3) mod 7) mod 7) 0) as [E|E];
      Z.div_mod_to_equations; lia. }
  split; [apply (H date)|apply (H (now / us_per_day)%Z)].
Qed.

Lemma py_sum_app (xs ys : list Q) : py_sum (xs ++ ys) == py_sum xs + py_sum ys.
Proof.
  unfold py_sum. rewrite fold_left_app, fold_left_Qplus_acc. reflexivity.
Qed.

(** Entering a trade exchanges cash for options of the same value: the
    equity of the engine is unchanged. *)
Theorem enter_trade_preserves_equity (now : Z)
    (closed_form : Q -> Q -> Q -> Q -> Q -> string -> Q)
    (self : BacktestEngine) (row : Bar) (strategy : string) :
  equity_of (_enter_trade now closed_form self row strategy) == equity_of self.
Proof.
  unfold _enter_trade. cbv zeta.
  destruct (0 <? _)%Z; [|reflexivity].
  unfold equity_of, position_value. cbn [current_capital positions].
  rewrite map_app, py_sum_app. cbn [map current_price quantity].
  rewrite !py_sum_cons. change (py_sum []) with 0. ring.
Qed.

(** An entry never spends more than 2% of the cash, when the cash is not
    negative; it opens either nothing or the same positive number of calls
    and puts. *)
Theorem enter_trade_spends_at_most_two_percent (now : Z)
    (closed_form : Q -> Q -> Q -> Q -> Q -> string -> Q)
    (self : BacktestEngine) (row : Bar) (strategy : string) :
  0 <= current_capital self ->
  let self' := _enter_trade now closed_form self row strategy in
  current_capital self * (98 # 100) <= current_capital self'
  /\ current_capital self' <= current_capital self
  /\ (positions self' = positions self
      \/ exists (call put : Position),
           positions self' = positions self ++ [call; put]
           /\ (0 < quantity call)%Z /\ quantity put = quantity call).
Proof.
  intros Hcap. cbv zeta. unfold _enter_trade. cbv zeta.
  set (price :=
         _calculate_option_price now closed_form (Close row)
           (inject_Z (_get_atm_strike (Close row))) (_get_next_expiry (date row)) "call"
         + _calculate_option_price now closed_form (Close row)
             (inject_Z (_get_atm_strike (Close row))) (_get_next_expiry (date row)) "put").
  destruct (0 <? _calculate_position_size self price)%Z eqn:Esize.
  - apply Z.ltb_lt in Esize. cbn [current_capital positions].
    unfold _calculate_position_size in *.
    destruct (Qlt_bool 0 (price * 50)) eqn:Epos; [|lia].
    apply Qlt_bool_iff in Epos.
    assert (Hrisk : 0 <= current_capital self * (2 # 100) / (price * 50)).
    { apply Qle_shift_div_l; [exact Epos|]. lra. }
    destruct (py_int_nonneg _ Hrisk) as [_ Hint].
    set (n := py_int (current_capital self * (2 # 100) / (price * 50))) in *.
    assert (Hn : 0 < inject_Z n).
    { change 0 with (inject_Z 0). rewrite <- Zlt_Qlt. exact Esize. }
    assert (Hcost : inject_Z n * (price * 50) <= current_capital self * (2 # 100)).
    { assert (E : current_capital self * (2 # 100) / (price * 50) * (price * 50)
                  == current_capital self * (2 # 100)) by (field; intros E; lra).
      rewrite <- E. apply Qmult_le_compat_r; [exact Hint|lra]. }
    assert (Hcost0 : 0 < inject_Z n * (price * 50)) by (apply Qmult_lt_0_compat; assumption).
    clearbody n price.
    split; [lra|]. split; [lra|].
    right. eexists _, _. split; [reflexivity|]. cbn [quantity]. split; [exact Esize|reflexivity].
  - split; [lra|]. split; [lra|]. left. reflexivity.
Qed.

(** *** Instances *)

Lemma enter_trade_spends_at_most_two_percent_witness :
  current_capital
    (_enter_trade wall_clock (fun _ _ _ _ _ _ => 0) (new_engine 1000000)
       (mkBar monday 18000 18020 17990 18010 0) "straddle")
  <= current_capital (new_engine 1000000).
Proof.
  assert (Hcash : 0 <= current_capital (new_engine 1000000)) by discriminate.
  pose proof (enter_trade_spends_at_most_two_percent wall_clock (fun _ _ _ _ _ _ => 0)
                (new_engine 1000000) (mkBar monday 18000 18020 17990 18010 0) "straddle"
                Hcash) as H.
  cbv zeta in H. exact (proj1 (proj2 H)).
Defined.

End BacktestEntryFacts.

(** *** The backtest on historical bars *)

Module BacktestRunFacts.
Import PyNum PyStr Risk RationalPricing Backtest RiskLimitFacts BacktestFacts.
Local Open Scope Q_scope.

(** The expiry of a trade entered on [date] lies at most seven days after
    it. *)
Lemma next_expiry_within_week (date : Z) :
  (date < _get_next_expiry date <= date + 7)%Z.
Proof.
  unfold _get_next_expiry, weekday. cbv zeta.
  destruct (Z.eqb_spec ((3 - (date + 3) mod 7) mod 7) 0) as [E|E];
    Z.div_mod_to_equations; lia.
Qed.

(** The backtest prices its options against the clock of the machine.  For
    a bar that is at least a week old the option has already expired by
    then, so the price is the intrinsic value and the closed form is not
    consulted. *)
Theorem week_old_bars_priced_at_intrinsic_value (now : Z)
    (closed_form : Q -> Q -> Q -> Q -> Q -> string -> Q)
    (spot strike : Q) (date : Z) (option_type : string) :
  (midnight (date + 7) <= now)%Z ->
  _calculate_option_price now closed_form spot strike (_get_next_expiry date) option_type
  = if is_call option_type then Qmax (spot - strike) 0 else Qmax (strike - spot) 0.
Proof.
  intros Hold. unfold _calculate_option_price, price_option_price. cbv zeta.
  pose proof (next_expiry_within_week date) as Hexp.
  assert (Hdays : (timedelta_days (midnight (_get_next_expiry date)) now <= 0)%Z).
  { unfold timedelta_days, midnight, us_per_day in *.
    set (e := _get_next_expiry date) in *. clearbody e.
    Z.div_mod_to_equations. lia. }
  set (days := timedelta_days _ _) in *. clearbody days.
  assert (E : Qle_bool (inject_Z days / 365) 0 = true).
  { apply Qle_bool_iff. apply Qle_shift_div_r; [reflexivity|].
    rewrite Qmult_0_l. change 0 with (inject_Z 0). rewrite <- Zle_Qle. exact Hdays. }
  rewrite E. reflexivity.
Qed.

(** Every leg opened on a bar that is not in the future is flagged for exit
    at the next check, whatever its price then: its expiry is at most seven
    days after the bar, hence at most seven days after the clock of the
    machine. *)
Theorem entered_legs_flagged_for_exit (now : Z)
    (closed_form : Q -> Q -> Q -> Q -> Q -> string -> Q)
    (self : BacktestEngine) (row : Bar) (strategy : string)
    (manager : RiskManager) (position : Position) (price : Q) :
  (midnight (date row) <= now)%Z ->
  In position (positions (_enter_trade now closed_form self row strategy)) ->
  In position (positions self)
  \/ fst (should_exit_position manager now position price) = true.
Proof.
  intros Hpast. unfold _enter_trade. cbv zeta.
  destruct (0 <? _)%Z; [|now left].
  cbn [positions]. rewrite in_app_iff. intros [Hin|Hin]; [now left|right].
  assert (Hdays : forall p : Position,
             expiry_date p = _get_next_expiry (date row) ->
             fst (should_exit_position manager now p price) = true).
  { intros p Hp. unfold should_exit_position. cbv zeta. rewrite Hp.
    pose proof (next_expiry_within_week (date row)) as Hexp.
    assert (E : (timedelta_days (midnight (_get_next_expiry (date row))) now <=? 7)%Z = true).
    { apply Z.leb_le. unfold timedelta_days, midnight, us_per_day in *.
      set (e := _get_next_expiry (date row)) in *. clearbody e.
      Z.div_mod_to_equations. lia. }
    rewrite E.
    repeat match goal with
           | |- fst (if ?c then _ else _) = true => destruct c; [reflexivity|]
           end.
    reflexivity. }
  destruct Hin as [<-|[<-|[]]]; apply Hdays; reflexivity.
Qed.

(** *** Closing positions *)

Lemma position_eqb_refl (p : Position) : position_eqb p p = true.
Proof.
  unfold position_eqb.
  rewrite !String.eqb_refl, !Z.eqb_refl.
  rewrite !(proj2 (Qeq_bool_iff _ _) (Qeq_refl _)). reflexivity.
Qed.

(** The record [_close_position] appends for a position closed on [date]. *)
Definition closing_trade (position : Position) (date : Z) : Trade :=
  {| Trade.entry_date := entry_time position;
     Trade.exit_date := date;
     Trade.strategy := strategy_name position;
     Trade.entry_price := entry_price position;
     Trade.exit_price := current_price position;
     Trade.quantity := quantity position;
     Trade.pnl := (current_price position - entry_price position)
                  * inject_Z (quantity position) * 50;
     Trade.return_pct := (current_price position - entry_price position)
                         / entry_price position;
     Trade.duration := timedelta_days (midnight date) (entry_time position) |}.

Lemma close_all_from (date : Z) (held : list Position) (self : BacktestEngine) :
  Forall (fun p => ~ entry_price p == 0) held ->
  positions self = held ->
  let self' :=
    fold_left (fun engine position => _close_position engine position date "end_of_backtest")
              held self in
  positions self' = []
  /\ trades self' = trades self ++ map (fun p => closing_trade p date) held
  /\ current_capital self'
     == current_capital self + py_sum (map (fun p => Trade.pnl (closing_trade p date)) held)
  /\ equity_curve self' = equity_curve self
  /\ initial_capital self' = initial_capital self.
Proof.
  revert self. induction held as [|p rest IH]; intros self Hnz Hpos; cbn zeta.
  - cbn [fold_left map]. rewrite app_nil_r. change (py_sum []) with 0.
    repeat split; [exact Hpos|ring].
  - cbn [fold_left]. inversion Hnz as [|? ? Hp Hrest]; subst.
    set (next := _close_position self p date "end_of_backtest").
    assert (Hnext : positions next = rest
                    /\ trades next = trades self ++ [closing_trade p date]
                    /\ current_capital next
                       = current_capital self + Trade.pnl (closing_trade p date)
                    /\ equity_curve next = equity_curve self
                    /\ initial_capital next = initial_capital self).
    { unfold next, _close_position.
      destruct (Qeq_bool (entry_price p) 0) eqn:E.
      - apply Qeq_bool_iff in E. contradiction.
      - cbn [positions trades current_capital equity_curve initial_capital].
        rewrite Hpos. cbn [list_remove]. rewrite position_eqb_refl.
        repeat split; reflexivity. }
    destruct Hnext as (H1 & H2 & H3 & H4 & H5).
    destruct (IH next Hrest H1) as (I1 & I2 & I3 & I4 & I5).
    cbn zeta in *. split; [exact I1|]. split.
    + rewrite I2, H2, <- app_assoc. reflexivity.
    + split; [|split; congruence].
      rewrite I3, H3. cbn [map]. rewrite py_sum_cons. ring.
Qed.

(** At the end of a backtest every open position bought at a non-zero
    price is closed, in the order held: the position list is emptied, one
    trade is recorded per position, and the cash receives the sum of their
    profits and losses. *)
Theorem close_all_positions_closes_every_position (self : BacktestEngine) (last_row : Bar) :
  Forall (fun p => ~ entry_price p == 0) (positions self) ->
  let self' := _close_all_positions self last_row in
  positions self' = []
  /\ trades self'
     = trades self ++ map (fun p => closing_trade p (date last_row)) (positions self)
  /\ current_capital self'
     == current_capital self
        + py_sum (map (fun p => Trade.pnl (closing_trade p (date last_row))) (positions self)).
Proof.
  intros Hnz. cbn zeta. unfold _close_all_positions.
  destruct (close_all_from (date last_row) (positions self) self Hnz eq_refl)
    as (H1 & H2 & H3 & _).
  cbn zeta in *. auto.
Qed.

(** *** Instances *)

Lemma week_old_bars_priced_at_intrinsic_value_witness :
  _calculate_option_price wall_clock (fun _ _ _ _ _ _ => 0) 18010 18000
    (_get_next_expiry monday) "call"
  = Qmax (18010 - 18000) 0.
Proof.
  apply (week_old_bars_priced_at_intrinsic_value wall_clock (fun _ _ _ _ _ _ => 0)
           18010 18000 monday "call").
  apply Z.leb_le. reflexivity.
Defined.

(** The engine after an entry on the Monday bar, and its first leg. *)
Definition entered_on_monday : BacktestEngine :=
  _enter_trade wall_clock (fun _ _ _ _ _ _ => 0) (new_engine 1000000)
    (mkBar monday 18000 18020 17990 18010 0) "straddle".

Definition first_leg : Position :=
  hd (mkPosition "" "" 0 0 0 0 0 0 "") (positions entered_on_monday).

Lemma entered_legs_flagged_for_exit_witness :
  In first_leg (positions (new_engine 1000000))
  \/ fst (should_exit_position default_manager wall_clock first_leg 10) = true.
Proof.
  apply (entered_legs_flagged_for_exit wall_clock (fun _ _ _ _ _ _ => 0)
           (new_engine 1000000) (mkBar monday 18000 18020 17990 18010 0) "straddle"
           default_manager first_leg 10).
  - apply Z.leb_le. reflexivity.
  - vm_compute. left. reflexivity.
Defined.

(** A backtest over the Monday bar alone, with the clock on that Monday,
    three days before the expiry; the closed form answers the
    Black-Scholes values of that bar (spot 18010, strike 18000), rounded:
    139 for the call and 122 for the put.  The day loop enters one lot of
    each leg, which [_close_all_positions] then finds open. *)
Definition monday_bar : Bar := mkBar monday 18000 18020 17990 18010 0.

Definition monday_quotes (S K T r sigma : Q) (option_type : string) : Q :=
  if is_call option_type then 139 else 122.

Definition after_one_bar : BacktestEngine :=
  run_days (midnight monday) monday_quotes (fun _ => 0) (new_engine 1000000)
           [monday_bar] [monday_bar] [].

Lemma close_all_positions_closes_every_position_witness :
  map (fun p => (option_type p, Qred (entry_price p), quantity p)) (positions after_one_bar)
  = [ ("call"%string, 139, 1%Z); ("put"%string, 122, 1%Z) ]
  /\ positions (_close_all_positions after_one_bar monday_bar) = []
  /\ map (fun t => (Trade.strategy t, Qred (Trade.entry_price t), Qred (Trade.exit_price t),
                    Trade.quantity t, Qred (Trade.pnl t)))
         (trades (_close_all_positions after_one_bar monday_bar))
     = [ ("butterfly"%string, 139, 139, 1%Z, 0); ("butterfly"%string, 122, 122, 1%Z, 0) ]
  /\ current_capital (_close_all_positions after_one_bar monday_bar) == 986950.
Proof.
  split; [vm_compute; reflexivity|].
  assert (Hpaid : Forall (fun p => ~ entry_price p == 0) (positions after_one_bar)).
  { vm_compute.
    constructor; [intros H; vm_compute in H; discriminate H|].
    constructor; [intros H; vm_compute in H; discriminate H|].
    constructor. }
  pose proof (close_all_positions_closes_every_position after_one_bar monday_bar Hpaid) as H.
  cbv zeta in H. destruct H as (Hnone & Htrades & Hcash).
  split; [exact Hnone|]. split.
  - rewrite Htrades. vm_compute. reflexivity.
  - rewrite Hcash. vm_compute. reflexivity.
Defined.

End BacktestRunFacts.

(** *** The equity curve of a run *)

Module BacktestCurveFacts.
Import PyNum PyStr Risk RationalPricing Backtest RiskLimitFacts BacktestFacts.
Local Open Scope Q_scope.

Section Run.
Variable now : Z.
Variable closed_form : Q -> Q -> Q -> Q -> Q -> string -> Q.
Variable annualized_std : list Q -> Q.

Lemma list_remove_length (position : Position) (held : list Position) :
  (length (list_remove position held) <= length held)%nat.
Proof.
  induction held as [|p rest IH]; cbn [list_remove length]; [lia|].
  destruct (position_eqb p position); cbn [length]; lia.
Qed.

Lemma close_position_frame (self : BacktestEngine) (position : Position) (date : Z)
    (reason : string) :
  equity_curve (_close_position self position date reason) = equity_curve self
  /\ (length (positions (_close_position self position date reason))
      <= length (positions self))%nat.
Proof.
  unfold _close_position. destruct (Qeq_bool _ 0); cbn [equity_curve positions].
  - split; [reflexivity|lia].
  - split; [reflexivity|apply list_remove_length].
Qed.

Lemma close_each_frame {A : Type} (close : BacktestEngine -> A -> BacktestEngine)
    (items : list A) (self : BacktestEngine) :
  (forall engine item,
      equity_curve (close engine item) = equity_curve engine
      /\ (length (positions (close engine item)) <= length (positions engine))%nat) ->
  equity_curve (fold_left close items self) = equity_curve self
  /\ (length (positions (fold_left close items self)) <= length (positions self))%nat.
Proof.
  intros Hclose. revert self.
  induction items as [|item rest IH]; intros self; cbn [fold_left]; [split; [reflexivity|lia]|].
  destruct (IH (close self item)) as [H1 H2]. destruct (Hclose self item) as [H3 H4].
  split; [congruence|lia].
Qed.

Lemma check_exit_signals_frame (self : BacktestEngine) (date : Z) :
  equity_curve (_check_exit_signals now self date) = equity_curve self
  /\ (length (positions (_check_exit_signals now self date)) <= length (positions self))%nat.
Proof.
  unfold _check_exit_signals. apply close_each_frame.
  intros engine [position reason]. apply close_position_frame.
Qed.

Lemma close_all_positions_frame (self : BacktestEngine) (last_row : Bar) :
  equity_curve (_close_all_positions self last_row) = equity_curve self.
Proof.
  unfold _close_all_positions.
  apply (close_each_frame
           (fun engine position =>
              _close_position engine position (date last_row) "end_of_backtest")).
  intros engine position. apply close_position_frame.
Qed.

Lemma enter_trade_frame (self : BacktestEngine) (row : Bar) (strategy : string) :
  positions self = [] ->
  equity_curve (_enter_trade now closed_form self row strategy) = equity_curve self
  /\ (length (positions (_enter_trade now closed_form self row strategy)) <= 2)%nat.
Proof.
  intros Hnone. unfold _enter_trade. cbv zeta.
  destruct (0 <? _)%Z; cbn [equity_curve positions]; rewrite Hnone; cbn [app length];
    split; try reflexivity; lia.
Qed.

(** A day leaves the equity curve alone, and never leaves more positions
    open than there were, or than the two legs of one entry. *)
Lemma process_day_frame (self : BacktestEngine) (row : Bar) (data : list Bar)
    (strategies : list string) :
  equity_curve (_process_day now closed_form annualized_std self row data strategies)
  = equity_curve self
  /\ (length (positions (_process_day now closed_form annualized_std self row data strategies))
      <= Nat.max 2 (length (positions self)))%nat.
Proof.
  unfold _process_day. cbv zeta.
  destruct (check_exit_signals_frame self (date row)) as [Hcurve Hheld].
  set (checked := _check_exit_signals now self (date row)) in *. clearbody checked.
  unfold _update_position_values. cbn [equity_curve positions]. rewrite length_map.
  destruct (_should_enter_trade annualized_std checked data) eqn:Eenter.
  - assert (Hnone : positions checked = []).
    { unfold _should_enter_trade in Eenter.
      destruct (positions checked) as [|p rest]; [reflexivity|]. cbn in Eenter. discriminate. }
    destruct (negb _).
    + destruct (enter_trade_frame checked row
                  (_select_strategy annualized_std row strategies) Hnone) as [H1 H2].
      split; [congruence|lia].
    + split; [exact Hcurve|lia].
  - split; [exact Hcurve|lia].
Qed.

Lemma run_days_curve (rows data : list Bar) (strategies : list string)
    (self : BacktestEngine) :
  (length (positions self) <= 2)%nat ->
  let self' := run_days now closed_form annualized_std self rows data strategies in
  exists points : list EquityPoint,
    equity_curve self' = equity_curve self ++ points
    /\ map point_date points = map date rows
    /\ Forall (fun point => (open_positions point <= 2)%nat) points
    /\ (length (positions self') <= 2)%nat.
Proof.
  cbn zeta. unfold run_days. revert self.
  induction rows as [|row rest IH]; intros self Hheld; cbn [fold_left].
  - exists []. rewrite app_nil_r. repeat split; [constructor|exact Hheld].
  - destruct (process_day_frame self row data strategies) as [Hcurve Hlen].
    set (processed := _process_day now closed_form annualized_std self row data strategies) in *.
    clearbody processed.
    assert (Hprocessed : (length (positions processed) <= 2)%nat) by lia.
    destruct (IH (_update_equity_curve processed (date row)) Hprocessed)
      as (points & H1 & H2 & H3 & H4).
    exists (mkEquityPoint (date row)
              (current_capital processed + position_value processed)
              (current_capital processed) (length (positions processed)) :: points).
    split; [|split; [|split]].
    + rewrite H1. unfold _update_equity_curve. cbn [equity_curve].
      rewrite Hcurve, <- app_assoc. reflexivity.
    + cbn [map point_date]. now rewrite H2.
    + constructor; [exact Hprocessed|exact H3].
    + exact H4.
Qed.

End Run.

(** A backtest that finds bars in the date range records exactly one
    equity point per bar, dated as the bars are and in their order, and no
    point ever counts more than two open positions (the call and the put of
    one entry); with no bar in the range nothing is run. *)
Theorem run_backtest_equity_curve_shape (now : Z)
    (closed_form : Q -> Q -> Q -> Q -> Q -> string -> Q) (annualized_std : list Q -> Q)
    (self : BacktestEngine) (historical_data : list Bar) (start_date end_date : Z)
    (strategies : list string) :
  let data :=
    filter (fun row => (start_date <=? date row)%Z && (date row <=? end_date)%Z)
           historical_data in
  match run_backtest now closed_form annualized_std self historical_data
                     start_date end_date strategies with
  | None => data = []
  | Some engine =>
      map point_date (equity_curve engine) = map date data
      /\ Forall (fun point => (open_positions point <= 2)%nat) (equity_curve engine)
  end.
Proof.
  cbn zeta. unfold run_backtest.
  set (data := filter _ historical_data). clearbody data.
  destruct data as [|row rest] eqn:E; [reflexivity|]. rewrite <- E. clear E.
  rewrite close_all_positions_frame.
  destruct (run_days_curve now closed_form annualized_std data data strategies
              (mkEngine (initial_capital self) (initial_capital self) [] [] []
                        (risk_manager self)))
    as (points & H1 & H2 & H3 & _); [cbn; lia|].
  cbn zeta in H1. rewrite H1. cbn [equity_curve app]. split; assumption.
Qed.

End BacktestCurveFacts.

(** *** The statistics of a backtest *)

Module BacktestResultFacts.
Import PyNum Backtest BacktestResults RiskLimitFacts BacktestFacts.
Local Open Scope Q_scope.

Lemma py_max_spec (x : Q) (xs : list Q) :
  x <= py_max x xs /\ Forall (fun y => y <= py_max x xs) xs.
Proof.
  unfold py_max. revert x. induction xs as [|y ys IH]; intros x; cbn [fold_left].
  - split; [apply Qle_refl|constructor].
  - destruct (IH (Qmax x y)) as [H1 H2]. split.
    + eapply Qle_trans; [apply Q.le_max_l|exact H1].
    + constructor; [|exact H2]. eapply Qle_trans; [apply Q.le_max_r|exact H1].
Qed.

Lemma py_min_spec (x : Q) (xs : list Q) :
  py_min x xs <= x /\ Forall (fun y => py_min x xs <= y) xs.
Proof.
  unfold py_min. revert x. induction xs as [|y ys IH]; intros x; cbn [fold_left].
  - split; [apply Qle_refl|constructor].
  - destruct (IH (Qmin x y)) as [H1 H2]. split.
    + eapply Qle_trans; [exact H1|apply Q.le_min_l].
    + constructor; [|exact H2]. eapply Qle_trans; [exact H1|apply Q.le_min_r].
Qed.

(** The minimum and the maximum are taken by an element. *)
Lemma py_min_in (P : Q -> Prop) (x : Q) (xs : list Q) :
  P x -> Forall P xs -> P (py_min x xs).
Proof.
  unfold py_min. revert x. induction xs as [|y ys IH]; intros x Hx Hxs; cbn [fold_left].
  - exact Hx.
  - inversion Hxs; subst. apply IH; [|assumption].
    unfold Qmin, GenericMinMax.gmin. destruct (x ?= y); assumption.
Qed.

Lemma length_filter_le {A : Type} (f : A -> bool) (xs : list A) :
  (length (List.filter f xs) <= length xs)%nat.
Proof.
  induction xs as [|x xs IH]; cbn [List.filter length]; [lia|].
  destruct (f x); cbn [length]; lia.
Qed.

Lemma winners_and_losers (trades : list Trade) :
  (length (List.filter (fun t => Qlt_bool 0 (Trade.pnl t)) trades)
   + length (List.filter (fun t => Qlt_bool (Trade.pnl t) 0) trades)
   <= length trades)%nat.
Proof.
  induction trades as [|t rest IH]; cbn [List.filter length]; [lia|].
  destruct (Qlt_bool 0 (Trade.pnl t)) eqn:E1, (Qlt_bool (Trade.pnl t) 0) eqn:E2;
    cbn [length]; try lia.
  apply Qlt_bool_iff in E1, E2. lra.
Qed.

Lemma inject_nat_pos (n : nat) : (0 < n)%nat -> 0 < inject_Z (Z.of_nat n).
Proof. intros H. change 0 with (inject_Z 0). rewrite <- Zlt_Qlt. lia. Qed.

(** The mean of numbers that all satisfy a bound satisfies it. *)
Lemma py_sum_bounds (lo hi : Q) (xs : list Q) :
  Forall (fun x => lo <= x /\ x <= hi) xs ->
  inject_Z (Z.of_nat (length xs)) * lo <= py_sum xs
  /\ py_sum xs <= inject_Z (Z.of_nat (length xs)) * hi.
Proof.
  induction 1 as [|x xs [Hlo Hhi] _ [IH1 IH2]].
  - change (py_sum []) with 0. cbn [length]. change (inject_Z (Z.of_nat 0)) with 0. split; lra.
  - rewrite py_sum_cons. cbn [length]. rewrite Nat2Z.inj_succ.
    unfold Z.succ. rewrite inject_Z_plus. change (inject_Z 1) with 1. split; lra.
Qed.

Lemma py_sum_positive (xs : list Q) :
  xs <> [] -> Forall (fun x => 0 < x) xs -> 0 < py_sum xs.
Proof.
  intros Hne H. induction H as [|x xs Hx Hxs IH]; [contradiction|].
  rewrite py_sum_cons. destruct xs as [|y ys].
  - change (py_sum []) with 0. lra.
  - assert (0 < py_sum (y :: ys)) by (apply IH; discriminate). lra.
Qed.

Lemma np_mean_bounds (lo hi : Q) (xs : list Q) :
  xs <> [] ->
  Forall (fun x => lo <= x /\ x <= hi) xs ->
  lo <= np_mean xs /\ np_mean xs <= hi.
Proof.
  intros Hne H. destruct (py_sum_bounds lo hi xs H) as [H1 H2].
  assert (Hn : 0 < inject_Z (Z.of_nat (length xs))).
  { apply inject_nat_pos. destruct xs; [contradiction|cbn; lia]. }
  unfold np_mean. split.
  - apply Qle_shift_div_l; [exact Hn|]. lra.
  - apply Qle_shift_div_r; [exact Hn|]. lra.
Qed.

Lemma np_mean_positive (xs : list Q) :
  xs <> [] -> Forall (fun x => 0 < x) xs -> 0 < np_mean xs.
Proof.
  intros Hne H. unfold np_mean. apply Qlt_shift_div_l.
  - apply inject_nat_pos. destruct xs; [contradiction|cbn; lia].
  - rewrite Qmult_0_l. now apply py_sum_positive.
Qed.

Lemma py_sum_opp (xs : list Q) : py_sum (map Qopp xs) == - py_sum xs.
Proof.
  induction xs as [|x xs IH]; [reflexivity|].
  cbn [map]. rewrite !py_sum_cons, IH. ring.
Qed.

Lemma np_mean_negative (xs : list Q) :
  xs <> [] -> Forall (fun x => x < 0) xs -> np_mean xs < 0.
Proof.
  intros Hne H.
  assert (Hpos : 0 < np_mean (map Qopp xs)).
  { apply np_mean_positive; [destruct xs; [contradiction|discriminate]|].
    apply List.Forall_map. eapply List.Forall_impl; [|exact H]. cbn beta. intros x Hx. lra. }
  unfold np_mean in *. rewrite length_map, py_sum_opp in Hpos.
  assert (E : - py_sum xs / inject_Z (Z.of_nat (length xs))
              == - (py_sum xs / inject_Z (Z.of_nat (length xs)))).
  { unfold Qdiv. ring. }
  rewrite E in Hpos. lra.
Qed.

(** The trade statistics are consistent with one another: winners and
    losers are counted among the trades, the win rate is the share of
    winners and lies between 0 and 1, every profit or loss lies between
    [max_loss] and [max_win], the average win is positive and at most
    [max_win] when there is a winner, the average loss is negative and at
    least [max_loss] when there is a loser, and the profit factor is
    infinite exactly when trades were made with no loser among them. *)
Theorem trade_statistics_consistent (trades : list Trade) :
  let stats := trade_statistics trades in
  total_trades stats = length trades
  /\ (winning_trades stats + losing_trades stats <= total_trades stats)%nat
  /\ 0 <= win_rate stats <= 1
  /\ win_rate stats * inject_Z (Z.of_nat (total_trades stats))
     == inject_Z (Z.of_nat (winning_trades stats))
  /\ Forall (fun t => max_loss stats <= Trade.pnl t <= max_win stats) trades
  /\ (if (0 <? winning_trades stats)%nat
      then 0 < avg_win stats <= max_win stats else avg_win stats = 0)
  /\ (if (0 <? losing_trades stats)%nat
      then max_loss stats <= avg_loss stats < 0 else avg_loss stats = 0)
  /\ match profit_factor stats with
     | Inf => trades <> [] /\ losing_trades stats = 0%nat
     | Ratio x => 0 <= x /\ (trades = [] \/ (0 < losing_trades stats)%nat)
     end.
Proof.
  cbn zeta. unfold trade_statistics.
  pose proof (winners_and_losers trades) as Hcount.
  pose proof (length_filter_le (fun t => Qlt_bool 0 (Trade.pnl t)) trades) as Hw.
  assert (Hwin : Forall (fun x => 0 < x)
                   (map Trade.pnl (List.filter (fun t => Qlt_bool 0 (Trade.pnl t)) trades))).
  { apply List.Forall_map, List.Forall_forall. intros t Ht.
    apply List.filter_In in Ht. destruct Ht as [_ Ht]. now apply Qlt_bool_iff in Ht. }
  assert (Hlose : Forall (fun x => x < 0)
                    (map Trade.pnl (List.filter (fun t => Qlt_bool (Trade.pnl t) 0) trades))).
  { apply List.Forall_map, List.Forall_forall. intros t Ht.
    apply List.filter_In in Ht. destruct Ht as [_ Ht]. now apply Qlt_bool_iff in Ht. }
  destruct trades as [|first rest] eqn:Etrades.
  - cbn. repeat split; try reflexivity; try lra; try lia; try constructor. reflexivity.
  - rewrite <- Etrades in *.
    set (winning := List.filter (fun t => Qlt_bool 0 (Trade.pnl t)) trades) in *.
    set (losing := List.filter (fun t => Qlt_bool (Trade.pnl t) 0) trades) in *.
    cbn [total_trades winning_trades losing_trades win_rate avg_win avg_loss max_win
         max_loss profit_factor].
    assert (Hn : 0 < inject_Z (Z.of_nat (length trades))).
    { apply inject_nat_pos. rewrite Etrades. cbn. lia. }
    destruct (py_max_spec (Trade.pnl first) (map Trade.pnl rest)) as [Hmax1 Hmax2].
    destruct (py_min_spec (Trade.pnl first) (map Trade.pnl rest)) as [Hmin1 Hmin2].
    set (hi := py_max (Trade.pnl first) (map Trade.pnl rest)) in *.
    set (lo := py_min (Trade.pnl first) (map Trade.pnl rest)) in *.
    assert (Hall : Forall (fun t => lo <= Trade.pnl t <= hi) trades).
    { rewrite Etrades. constructor; [split; assumption|].
      apply List.Forall_forall. intros t Ht.
      rewrite List.Forall_forall in Hmax2, Hmin2.
      split; [apply Hmin2|apply Hmax2]; now apply in_map. }
    assert (Hsub : forall f, Forall (fun x => lo <= x /\ x <= hi)
                               (map Trade.pnl (List.filter f trades))).
    { intros f. apply List.Forall_map, List.Forall_forall. intros t Ht.
      apply List.filter_In in Ht. destruct Ht as [Ht _].
      rewrite List.Forall_forall in Hall. now apply Hall. }
    assert (Hnw : 0 <= inject_Z (Z.of_nat (length winning))).
    { change 0 with (inject_Z 0). rewrite <- Zle_Qle. lia. }
    assert (Hwn : inject_Z (Z.of_nat (length winning)) <= inject_Z (Z.of_nat (length trades))).
    { rewrite <- Zle_Qle. lia. }
    split; [reflexivity|]. split; [exact Hcount|]. split.
    { split.
      - apply Qle_shift_div_l; [exact Hn|]. lra.
      - apply Qle_shift_div_r; [exact Hn|]. lra. }
    split; [field; lra|]. split; [exact Hall|].
    assert (Havg_win :
              if (0 <? length winning)%nat
              then 0 < match winning with [] => 0 | _ => np_mean (map Trade.pnl winning) end
                   /\ match winning with [] => 0 | _ => np_mean (map Trade.pnl winning) end <= hi
              else match winning with [] => 0 | _ => np_mean (map Trade.pnl winning) end = 0).
    { specialize (Hsub (fun t => Qlt_bool 0 (Trade.pnl t))). fold winning in Hsub.
      destruct winning as [|w ws]; [reflexivity|].
      cbn [length Nat.ltb Nat.leb]. split.
      - apply np_mean_positive; [discriminate|exact Hwin].
      - apply (np_mean_bounds lo hi); [discriminate|exact Hsub]. }
    assert (Havg_loss :
              if (0 <? length losing)%nat
              then lo <= match losing with [] => 0 | _ => np_mean (map Trade.pnl losing) end
                   /\ match losing with [] => 0 | _ => np_mean (map Trade.pnl losing) end < 0
              else match losing with [] => 0 | _ => np_mean (map Trade.pnl losing) end = 0).
    { specialize (Hsub (fun t => Qlt_bool (Trade.pnl t) 0)). fold losing in Hsub.
      destruct losing as [|l ls]; [reflexivity|].
      cbn [length Nat.ltb Nat.leb]. split.
      - apply (np_mean_bounds lo hi); [discriminate|exact Hsub].
      - apply np_mean_negative; [discriminate|exact Hlose]. }
    split; [exact Havg_win|]. split; [exact Havg_loss|].
    destruct (Qeq_bool _ 0) eqn:Ezero; cbn [negb].
    + split; [rewrite Etrades; discriminate|].
      destruct (length losing) as [|k] eqn:Ek; [reflexivity|].
      cbn [Nat.ltb Nat.leb] in Havg_loss. apply Qeq_bool_iff in Ezero. lra.
    + split; [apply Qabs_nonneg|right].
      destruct (length losing) as [|k] eqn:Ek; [|lia].
      cbn [Nat.ltb Nat.leb] in Havg_loss. rewrite Havg_loss in Ezero. discriminate.
Qed.

(** *** Drawdown *)

Lemma drawdown_bounds (peak : Q) (values : list Q) :
  0 < peak ->
  Forall (fun value => 0 < value) values ->
  Forall (fun d => - (1) < d /\ d <= 0)
         (map (fun '(value, peak) => (value - peak) / peak)
              (combine values (maximum_accumulate peak values))).
Proof.
  intros Hpeak H. revert peak Hpeak.
  induction H as [|x xs Hx _ IH]; intros peak Hpeak; cbn [maximum_accumulate combine map].
  - constructor.
  - assert (Hm : 0 < Qmax peak x).
    { eapply Qlt_le_trans; [exact Hpeak|apply Q.le_max_l]. }
    constructor; [|apply IH; exact Hm].
    pose proof (Q.le_max_r peak x) as Hr.
    set (m := Qmax peak x) in *. clearbody m. split.
    + apply Qlt_shift_div_l; [exact Hm|]. lra.
    + apply Qle_shift_div_r; [exact Hm|]. lra.
Qed.

(** While every recorded equity is positive the maximum drawdown lies
    between -100% (excluded) and 0. *)
Theorem max_drawdown_between_minus_one_and_zero (equity_values : list Q) :
  Forall (fun value => 0 < value) equity_values ->
  - (1) < max_drawdown equity_values /\ max_drawdown equity_values <= 0.
Proof.
  intros H. unfold max_drawdown.
  destruct equity_values as [|first rest]; [lra|].
  inversion H as [|? ? Hfirst Hrest]; subst.
  cbn [combine map].
  apply (py_min_in (fun d => - (1) < d /\ d <= 0)).
  - split.
    + apply Qlt_shift_div_l; [exact Hfirst|]. lra.
    + apply Qle_shift_div_r; [exact Hfirst|]. lra.
  - now apply drawdown_bounds.
Qed.

(** *** Instances *)

Lemma max_drawdown_between_minus_one_and_zero_witness :
  - (1) < max_drawdown [1000000; 980000; 990000]
  /\ max_drawdown [1000000; 980000; 990000] <= 0.
Proof.
  apply (max_drawdown_between_minus_one_and_zero [1000000; 980000; 990000]).
  repeat constructor.
Defined.

End BacktestResultFacts.

(** *** The Greeks are the derivatives of the price *)

Module GreeksFacts.
Import PyStr RealAnalysis Gaussian Pricing GaussianFacts PricingFacts.
Local Open Scope R_scope.

(** Derivatives of functions written pointwise. *)
Lemma dl_value (f : R -> R) (x l l' : R) :
  derivable_pt_lim f x l -> l = l' -> derivable_pt_lim f x l'.
Proof. intros H <-. exact H. Qed.

Lemma dl_const (c x : R) : derivable_pt_lim (fun _ => c) x 0.
Proof. apply derivable_pt_lim_const. Qed.

Lemma dl_id (x : R) : derivable_pt_lim (fun y => y) x 1.
Proof. apply derivable_pt_lim_id. Qed.

Lemma dl_plus (f g : R -> R) (x a b : R) :
  derivable_pt_lim f x a -> derivable_pt_lim g x b ->
  derivable_pt_lim (fun y => f y + g y) x (a + b).
Proof. apply derivable_pt_lim_plus. Qed.

Lemma dl_minus (f g : R -> R) (x a b : R) :
  derivable_pt_lim f x a -> derivable_pt_lim g x b ->
  derivable_pt_lim (fun y => f y - g y) x (a - b).
Proof. apply derivable_pt_lim_minus. Qed.

Lemma dl_opp (f : R -> R) (x a : R) :
  derivable_pt_lim f x a -> derivable_pt_lim (fun y => - f y) x (- a).
Proof. apply derivable_pt_lim_opp. Qed.

Lemma dl_mult (f g : R -> R) (x a b : R) :
  derivable_pt_lim f x a -> derivable_pt_lim g x b ->
  derivable_pt_lim (fun y => f y * g y) x (a * g x + f x * b).
Proof. apply derivable_pt_lim_mult. Qed.

Lemma dl_div (f g : R -> R) (x a b : R) :
  derivable_pt_lim f x a -> derivable_pt_lim g x b -> g x <> 0 ->
  derivable_pt_lim (fun y => f y / g y) x ((a * g x - b * f x) / Rsqr (g x)).
Proof. apply derivable_pt_lim_div. Qed.

Lemma dl_comp (F g : R -> R) (x a b : R) :
  derivable_pt_lim g x a -> derivable_pt_lim F (g x) b ->
  derivable_pt_lim (fun y => F (g y)) x (b * a).
Proof. intros Hg HF. apply (derivable_pt_lim_comp g F); assumption. Qed.

Lemma dl_pow (f : R -> R) (n : nat) (x a : R) :
  derivable_pt_lim f x a ->
  derivable_pt_lim (fun y => f y ^ n) x (INR n * f x ^ pred n * a).
Proof.
  intros Hf. apply (dl_comp (fun y => y ^ n) f); [exact Hf|]. apply derivable_pt_lim_pow.
Qed.

Ltac derive :=
  lazymatch goal with
  | |- derivable_pt_lim (fun _ => ?c) _ _ => apply dl_const
  | |- derivable_pt_lim (fun y => y) _ _ => apply dl_id
  | |- derivable_pt_lim (fun y => @?f y + @?g y) _ _ => apply (dl_plus f g); derive
  | |- derivable_pt_lim (fun y => @?f y - @?g y) _ _ => apply (dl_minus f g); derive
  | |- derivable_pt_lim (fun y => @?f y * @?g y) _ _ => apply (dl_mult f g); derive
  | |- derivable_pt_lim (fun y => @?f y / @?g y) _ _ =>
      apply (dl_div f g); [derive|derive|cbv beta]
  | |- derivable_pt_lim (fun y => - @?f y) _ _ => apply (dl_opp f); derive
  | |- derivable_pt_lim (fun y => @?f y ^ ?n) _ _ => apply (dl_pow f n); derive
  | |- derivable_pt_lim (fun y => exp (@?f y)) _ _ =>
      apply (dl_comp exp f); [derive|apply derivable_pt_lim_exp]
  | |- derivable_pt_lim (fun y => ln (@?f y)) _ _ =>
      apply (dl_comp ln f); [derive|apply derivable_pt_lim_ln; cbv beta]
  | |- derivable_pt_lim (fun y => sqrt (@?f y)) _ _ =>
      apply (dl_comp sqrt f); [derive|apply derivable_pt_lim_sqrt; cbv beta]
  | |- derivable_pt_lim (fun y => norm_cdf (@?f y)) _ _ =>
      apply (dl_comp norm_cdf f); [derive|apply norm_cdf_derivable_pt_lim]
  | |- derivable_pt_lim (fun y => norm_pdf (@?f y)) _ _ => fail "density"
  end.

Ltac positive :=
  repeat first [ assumption
               | lra
               | apply Rdiv_lt_0_compat
               | apply Rinv_0_lt_compat
               | apply Rmult_lt_0_compat
               | apply Rgt_not_eq; unfold Rgt ].

(** The chain rule for a price [A N(D) - B N(D - W)] whose two density
    terms balance: the derivatives of [D] cancel. *)
Lemma bs_chain (A B D W : R -> R) (x A' B' D' W' : R) :
  derivable_pt_lim A x A' -> derivable_pt_lim B x B' ->
  derivable_pt_lim D x D' -> derivable_pt_lim W x W' ->
  A x * norm_pdf (D x) = B x * norm_pdf (D x - W x) ->
  derivable_pt_lim (fun y => A y * norm_cdf (D y) - B y * norm_cdf (D y - W y)) x
    (A' * norm_cdf (D x) - B' * norm_cdf (D x - W x) + A x * norm_pdf (D x) * W')
  /\ derivable_pt_lim (fun y => B y * norm_cdf (- (D y - W y)) - A y * norm_cdf (- D y)) x
       (B' * norm_cdf (- (D x - W x)) - A' * norm_cdf (- D x) + A x * norm_pdf (D x) * W').
Proof.
  intros HA HB HD HW Hbalance.
  assert (Hcall :
            derivable_pt_lim (fun y => A y * norm_cdf (D y) - B y * norm_cdf (D y - W y)) x
              (A' * norm_cdf (D x) - B' * norm_cdf (D x - W x)
               + A x * norm_pdf (D x) * W')).
  { eapply dl_value.
    - apply (dl_minus (fun y => A y * norm_cdf (D y)) (fun y => B y * norm_cdf (D y - W y))).
      + apply (dl_mult A (fun y => norm_cdf (D y))); [exact HA|].
        apply (dl_comp norm_cdf D); [exact HD|apply norm_cdf_derivable_pt_lim].
      + apply (dl_mult B (fun y => norm_cdf (D y - W y))); [exact HB|].
        apply (dl_comp norm_cdf (fun y => D y - W y));
          [apply (dl_minus D W); [exact HD|exact HW]|apply norm_cdf_derivable_pt_lim].
    - cbv beta.
      replace (B x * (norm_pdf (D x - W x) * (D' - W')))
        with (A x * norm_pdf (D x) * (D' - W')) by (rewrite Hbalance; ring).
      ring. }
  split; [exact Hcall|].
  apply derivable_pt_lim_local
    with (f := fun y => (A y * norm_cdf (D y) - B y * norm_cdf (D y - W y)) - A y + B y)
         (delta := mkposreal 1 Rlt_0_1).
  - intros y _. rewrite !norm_cdf_opp. ring.
  - eapply dl_value.
    + apply (dl_plus (fun y => (A y * norm_cdf (D y) - B y * norm_cdf (D y - W y)) - A y) B);
        [|exact HB].
      apply (dl_minus (fun y => A y * norm_cdf (D y) - B y * norm_cdf (D y - W y)) A);
        [exact Hcall|exact HA].
    + rewrite !norm_cdf_opp. ring.
Qed.

Section ClosedForm.

Variables spot strike expiry rate yield vol : R.
Hypothesis spot_pos : 0 < spot.
Hypothesis strike_pos : 0 < strike.
Hypothesis expiry_pos : 0 < expiry.
Hypothesis vol_pos : 0 < vol.

(** The closed form as a function of its six inputs. *)
Definition d1_at (spot strike expiry rate yield vol : R) : R :=
  (ln (spot / strike) + (rate - yield + 1 / 2 * vol ^ 2) * expiry) / (vol * sqrt expiry).

Definition call_at (spot strike expiry rate yield vol : R) : R :=
  spot * exp (- yield * expiry) * norm_cdf (d1_at spot strike expiry rate yield vol)
  - strike * exp (- rate * expiry)
    * norm_cdf (d1_at spot strike expiry rate yield vol - vol * sqrt expiry).

Definition put_at (spot strike expiry rate yield vol : R) : R :=
  strike * exp (- rate * expiry)
  * norm_cdf (- (d1_at spot strike expiry rate yield vol - vol * sqrt expiry))
  - spot * exp (- yield * expiry) * norm_cdf (- d1_at spot strike expiry rate yield vol).

Let d1 : R := d1_at spot strike expiry rate yield vol.

Lemma sqrt_expiry_pos : 0 < sqrt expiry.
Proof. apply sqrt_lt_R0. exact expiry_pos. Qed.

(** The two density terms of the closed form balance. *)
Lemma density_balance :
  spot * exp (- yield * expiry) * norm_pdf d1
  = strike * exp (- rate * expiry) * norm_pdf (d1 - vol * sqrt expiry).
Proof.
  pose proof sqrt_expiry_pos as Hw.
  pose proof (sqrt_sqrt expiry (Rlt_le _ _ expiry_pos)) as Hww.
  assert (Hd1 : d1 * (vol * sqrt expiry)
                = ln spot - ln strike + (rate - yield + 1 / 2 * vol ^ 2) * expiry).
  { unfold d1, d1_at. rewrite ln_ratio by assumption. field. split; lra. }
  assert (E : exp (ln spot) * exp (- yield * expiry) * exp (- (d1 * d1 / 2))
              = exp (ln strike) * exp (- rate * expiry)
                * exp (- ((d1 - vol * sqrt expiry) * (d1 - vol * sqrt expiry) / 2))).
  { rewrite <- !exp_plus. f_equal.
    set (w := sqrt expiry) in *.
    replace (- ((d1 - vol * w) * (d1 - vol * w) / 2))
      with (- (d1 * d1 / 2) + d1 * (vol * w) - vol * vol * (w * w) / 2) by field.
    rewrite Hd1, Hww. field. }
  rewrite !exp_ln in E by assumption.
  unfold norm_pdf, kernel.
  transitivity (spot * exp (- yield * expiry) * exp (- (d1 * d1 / 2)) / mass);
    [unfold Rdiv; ring|].
  rewrite E. unfold Rdiv. ring.
Qed.

(** For positive spot, strike, expiry and volatility the pricer returns
    the closed form. *)
Lemma price_closed_form (option_type : string) :
  BlackScholesPricer.calculate_price
    (mkOptionParams spot strike expiry rate vol yield) option_type
  = Ok (if is_call option_type
        then call_at spot strike expiry rate yield vol
        else put_at spot strike expiry rate yield vol).
Proof.
  unfold BlackScholesPricer.calculate_price.
  cbn [spot_price strike_price time_to_expiry risk_free_rate volatility dividend_yield].
  destruct (Rle_dec expiry 0) as [H|_]; [lra|].
  rewrite py_div_nonzero by lra. cbn [bind].
  destruct (closed_form_values spot strike expiry rate yield vol
              spot_pos strike_pos vol_pos expiry_pos) as (Hcall & Hput & _).
  cbv zeta in Hcall, Hput.
  destruct (is_call option_type); rewrite Rmax_0_of_nonneg by assumption; reflexivity.
Qed.

Lemma norm_pdf_opp (x : R) : norm_pdf (- x) = norm_pdf x.
Proof. unfold norm_pdf, kernel. replace (- x * - x) with (x * x) by ring. reflexivity. Qed.

(** ... and for a non-zero strike and a positive expiry
    [calculate_greeks] returns these five closed forms. *)
Definition greeks_at (spot strike expiry rate yield vol : R) (option_type : string) : Greeks :=
  let d1 := d1_at spot strike expiry rate yield vol in
  let d2 := d1 - vol * sqrt expiry in
  {| delta := if is_call option_type
              then exp (- yield * expiry) * norm_cdf d1
              else - exp (- yield * expiry) * norm_cdf (- d1);
     gamma := exp (- yield * expiry) * norm_pdf d1 / (spot * vol * sqrt expiry);
     theta := if is_call option_type
              then (- spot * exp (- yield * expiry) * norm_pdf d1 * vol / (2 * sqrt expiry)
                    - rate * strike * exp (- rate * expiry) * norm_cdf d2
                    + yield * spot * exp (- yield * expiry) * norm_cdf d1) / 365
              else (- spot * exp (- yield * expiry) * norm_pdf d1 * vol / (2 * sqrt expiry)
                    + rate * strike * exp (- rate * expiry) * norm_cdf (- d2)
                    - yield * spot * exp (- yield * expiry) * norm_cdf (- d1)) / 365;
     vega := spot * exp (- yield * expiry) * norm_pdf d1 * sqrt expiry / 100;
     rho := if is_call option_type
            then strike * expiry * exp (- rate * expiry) * norm_cdf d2 / 100
            else - strike * expiry * exp (- rate * expiry) * norm_cdf (- d2) / 100 |}.

Lemma greeks_closed_form (option_type : string) :
  BlackScholesPricer.calculate_greeks
    (mkOptionParams spot strike expiry rate vol yield) option_type
  = Ok (greeks_at spot strike expiry rate yield vol option_type).
Proof.
  unfold BlackScholesPricer.calculate_greeks.
  cbn [spot_price strike_price time_to_expiry risk_free_rate volatility dividend_yield].
  destruct (Rle_dec expiry 0) as [H|_]; [lra|].
  rewrite py_div_nonzero by lra. reflexivity.
Qed.

Lemma d1_spot_derivative :
  derivable_pt_lim (fun s => d1_at s strike expiry rate yield vol) spot
    (/ (spot * (vol * sqrt expiry))).
Proof.
  pose proof sqrt_expiry_pos as Hw.
  unfold d1_at. eapply dl_value; [derive; positive|].
  unfold Rsqr. field. repeat split; lra.
Qed.

(** Delta is the derivative of the price in the spot. *)
Lemma price_spot_derivative :
  derivable_pt_lim (fun s => call_at s strike expiry rate yield vol) spot
    (exp (- yield * expiry) * norm_cdf d1)
  /\ derivable_pt_lim (fun s => put_at s strike expiry rate yield vol) spot
       (- exp (- yield * expiry) * norm_cdf (- d1)).
Proof.
  destruct (bs_chain (fun s => s * exp (- yield * expiry))
                     (fun _ => strike * exp (- rate * expiry))
                     (fun s => d1_at s strike expiry rate yield vol)
                     (fun _ => vol * sqrt expiry)
                     spot (exp (- yield * expiry)) 0
                     (/ (spot * (vol * sqrt expiry))) 0) as [Hcall Hput].
  - eapply dl_value; [derive|ring].
  - apply dl_const.
  - apply d1_spot_derivative.
  - apply dl_const.
  - apply density_balance.
  - split; (eapply dl_value; [eassumption|fold d1; ring]).
Qed.

(** Gamma is the derivative of delta in the spot. *)
Lemma delta_spot_derivative :
  derivable_pt_lim (fun s => exp (- yield * expiry)
                             * norm_cdf (d1_at s strike expiry rate yield vol)) spot
    (exp (- yield * expiry) * norm_pdf d1 / (spot * vol * sqrt expiry))
  /\ derivable_pt_lim (fun s => - exp (- yield * expiry)
                                * norm_cdf (- d1_at s strike expiry rate yield vol)) spot
       (exp (- yield * expiry) * norm_pdf d1 / (spot * vol * sqrt expiry)).
Proof.
  pose proof sqrt_expiry_pos as Hw. pose proof d1_spot_derivative as HD.
  split.
  - eapply dl_value.
    + apply (dl_mult (fun _ => exp (- yield * expiry))
                     (fun s => norm_cdf (d1_at s strike expiry rate yield vol)));
        [apply dl_const|].
      apply (dl_comp norm_cdf (fun s => d1_at s strike expiry rate yield vol));
        [exact HD|apply norm_cdf_derivable_pt_lim].
    + cbv beta. fold d1. field. repeat split; lra.
  - eapply dl_value.
    + apply (dl_mult (fun _ => - exp (- yield * expiry))
                     (fun s => norm_cdf (- d1_at s strike expiry rate yield vol)));
        [apply dl_const|].
      apply (dl_comp norm_cdf (fun s => - d1_at s strike expiry rate yield vol));
        [apply (dl_opp (fun s => d1_at s strike expiry rate yield vol)); exact HD
        |apply norm_cdf_derivable_pt_lim].
    + cbv beta. fold d1. rewrite norm_pdf_opp. field. repeat split; lra.
Qed.

(** A hundred times vega is the derivative of the price in the volatility. *)
Lemma price_vol_derivative :
  derivable_pt_lim (fun v => call_at spot strike expiry rate yield v) vol
    (spot * exp (- yield * expiry) * norm_pdf d1 * sqrt expiry)
  /\ derivable_pt_lim (fun v => put_at spot strike expiry rate yield v) vol
       (spot * exp (- yield * expiry) * norm_pdf d1 * sqrt expiry).
Proof.
  pose proof sqrt_expiry_pos as Hw.
  assert (HD : exists D', derivable_pt_lim (fun v => d1_at spot strike expiry rate yield v)
                            vol D').
  { eexists. unfold d1_at. derive; positive. }
  destruct HD as [D' HD].
  destruct (bs_chain (fun _ => spot * exp (- yield * expiry))
                     (fun _ => strike * exp (- rate * expiry))
                     (fun v => d1_at spot strike expiry rate yield v)
                     (fun v => v * sqrt expiry)
                     vol 0 0 D' (sqrt expiry)) as [Hcall Hput].
  - apply dl_const.
  - apply dl_const.
  - exact HD.
  - eapply dl_value; [derive|ring].
  - apply density_balance.
  - split; (eapply dl_value; [eassumption|fold d1; ring]).
Qed.

(** A hundred times rho is the derivative of the price in the rate. *)
Lemma price_rate_derivative :
  derivable_pt_lim (fun x => call_at spot strike expiry x yield vol) rate
    (strike * expiry * exp (- rate * expiry) * norm_cdf (d1 - vol * sqrt expiry))
  /\ derivable_pt_lim (fun x => put_at spot strike expiry x yield vol) rate
       (- strike * expiry * exp (- rate * expiry)
        * norm_cdf (- (d1 - vol * sqrt expiry))).
Proof.
  pose proof sqrt_expiry_pos as Hw.
  assert (HD : exists D', derivable_pt_lim (fun x => d1_at spot strike expiry x yield vol)
                            rate D').
  { eexists. unfold d1_at. derive; positive. }
  destruct HD as [D' HD].
  destruct (bs_chain (fun _ => spot * exp (- yield * expiry))
                     (fun x => strike * exp (- x * expiry))
                     (fun x => d1_at spot strike expiry x yield vol)
                     (fun _ => vol * sqrt expiry)
                     rate 0 (- strike * expiry * exp (- rate * expiry)) D' 0)
    as [Hcall Hput].
  - apply dl_const.
  - eapply dl_value; [derive|ring].
  - exact HD.
  - apply dl_const.
  - apply density_balance.
  - split; (eapply dl_value; [eassumption|fold d1; ring]).
Qed.

(** Theta is minus the derivative of the price in the time to expiry, per
    day of a 365-day year. *)
Lemma price_expiry_derivative :
  derivable_pt_lim (fun t => call_at spot strike t rate yield vol) expiry
    (- (- spot * exp (- yield * expiry) * norm_pdf d1 * vol / (2 * sqrt expiry)
        - rate * strike * exp (- rate * expiry) * norm_cdf (d1 - vol * sqrt expiry)
        + yield * spot * exp (- yield * expiry) * norm_cdf d1))
  /\ derivable_pt_lim (fun t => put_at spot strike t rate yield vol) expiry
       (- (- spot * exp (- yield * expiry) * norm_pdf d1 * vol / (2 * sqrt expiry)
           + rate * strike * exp (- rate * expiry) * norm_cdf (- (d1 - vol * sqrt expiry))
           - yield * spot * exp (- yield * expiry) * norm_cdf (- d1))).
Proof.
  pose proof sqrt_expiry_pos as Hw.
  assert (HD : exists D', derivable_pt_lim (fun t => d1_at spot strike t rate yield vol)
                            expiry D').
  { eexists. unfold d1_at. derive; positive. }
  destruct HD as [D' HD].
  destruct (bs_chain (fun t => spot * exp (- yield * t))
                     (fun t => strike * exp (- rate * t))
                     (fun t => d1_at spot strike t rate yield vol)
                     (fun t => vol * sqrt t)
                     expiry (- yield * spot * exp (- yield * expiry))
                     (- rate * strike * exp (- rate * expiry)) D'
                     (vol / (2 * sqrt expiry))) as [Hcall Hput].
  - eapply dl_value; [derive|ring].
  - eapply dl_value; [derive|ring].
  - exact HD.
  - eapply dl_value; [derive; positive|]. field. lra.
  - apply density_balance.
  - split; (eapply dl_value; [eassumption|fold d1; field; lra]).
Qed.

End ClosedForm.

(** The ['price'] the pricer answers, and the Greeks, with 0 standing for
    an exception. *)
Definition price_or_zero (result : outcome R) : R :=
  match result with
  | Ok price => price
  | Raised _ => 0
  end.

Definition greeks_or_zero (result : outcome Greeks) : Greeks :=
  match result with
  | Ok greeks => greeks
  | Raised _ => mkGreeks 0 0 0 0 0
  end.

(** The parameters with one field replaced. *)
Definition with_spot (params : OptionParams) (spot : R) : OptionParams :=
  mkOptionParams spot (strike_price params) (time_to_expiry params)
                 (risk_free_rate params) (volatility params) (dividend_yield params).

Definition with_rate (params : OptionParams) (rate : R) : OptionParams :=
  mkOptionParams (spot_price params) (strike_price params) (time_to_expiry params)
                 rate (volatility params) (dividend_yield params).

Definition with_expiry (params : OptionParams) (expiry : R) : OptionParams :=
  mkOptionParams (spot_price params) (strike_price params) expiry
                 (risk_free_rate params) (volatility params) (dividend_yield params).

Lemma near_positive (x y : R) : Rabs (y - x) < x -> 0 < y.
Proof. intros H. apply Rabs_def2 in H. lra. Qed.

(** For positive spot, strike, expiry and volatility, the delta that
    [calculate_greeks] returns is the derivative of the price of
    [calculate_price] in the spot, and its gamma is the derivative of its
    delta in the spot; for calls and for puts. *)
Theorem delta_and_gamma_are_spot_derivatives (params : OptionParams) (option_type : string) :
  0 < spot_price params -> 0 < strike_price params ->
  0 < time_to_expiry params -> 0 < volatility params ->
  exists greeks : Greeks,
    BlackScholesPricer.calculate_greeks params option_type = Ok greeks
    /\ derivable_pt_lim
         (fun spot => price_or_zero
                        (BlackScholesPricer.calculate_price (with_spot params spot) option_type))
         (spot_price params) (delta greeks)
    /\ derivable_pt_lim
         (fun spot => delta (greeks_or_zero
                               (BlackScholesPricer.calculate_greeks (with_spot params spot)
                                                                    option_type)))
         (spot_price params) (gamma greeks).
Proof.
  destruct params as [spot strike expiry rate vol yield].
  cbn [spot_price strike_price time_to_expiry volatility].
  intros Hspot Hstrike Hexpiry Hvol.
  exists (greeks_at spot strike expiry rate yield vol option_type).
  split; [now apply greeks_closed_form|].
  unfold with_spot.
  cbn [spot_price strike_price time_to_expiry risk_free_rate volatility dividend_yield].
  split.
  - apply derivable_pt_lim_local
      with (f := fun s => if is_call option_type
                          then call_at s strike expiry rate yield vol
                          else put_at s strike expiry rate yield vol)
           (delta := mkposreal spot Hspot).
    + intros y Hy. cbn [pos] in Hy. apply near_positive in Hy.
      rewrite price_closed_form by assumption. reflexivity.
    + destruct (price_spot_derivative spot strike expiry rate yield vol
                  Hspot Hstrike Hexpiry Hvol) as [Hcall Hput].
      unfold greeks_at. cbn [delta]. destruct (is_call option_type); assumption.
  - apply derivable_pt_lim_local
      with (f := fun s => if is_call option_type
                          then exp (- yield * expiry)
                               * norm_cdf (d1_at s strike expiry rate yield vol)
                          else - exp (- yield * expiry)
                               * norm_cdf (- d1_at s strike expiry rate yield vol))
           (delta := mkposreal spot Hspot).
    + intros y Hy. cbn [pos] in Hy. apply near_positive in Hy.
      rewrite greeks_closed_form by assumption. reflexivity.
    + destruct (delta_spot_derivative spot strike expiry rate yield vol
                  Hspot Hstrike Hexpiry Hvol) as [Hcall Hput].
      unfold greeks_at. cbn [gamma]. destruct (is_call option_type); assumption.
Qed.

(** Under the same conditions vega, rho and theta are the derivatives of
    the price in the volatility and in the rate, per percentage point, and
    minus its derivative in the time to expiry, per day of a 365-day year. *)
Theorem vega_rho_theta_are_price_derivatives (params : OptionParams) (option_type : string) :
  0 < spot_price params -> 0 < strike_price params ->
  0 < time_to_expiry params -> 0 < volatility params ->
  exists greeks : Greeks,
    BlackScholesPricer.calculate_greeks params option_type = Ok greeks
    /\ derivable_pt_lim
         (fun vol => price_or_zero
                       (BlackScholesPricer.calculate_price
                          (BlackScholesPricer.set_volatility params vol) option_type))
         (volatility params) (100 * vega greeks)
    /\ derivable_pt_lim
         (fun rate => price_or_zero
                        (BlackScholesPricer.calculate_price (with_rate params rate) option_type))
         (risk_free_rate params) (100 * rho greeks)
    /\ derivable_pt_lim
         (fun expiry => price_or_zero
                          (BlackScholesPricer.calculate_price (with_expiry params expiry)
                                                              option_type))
         (time_to_expiry params) (- (365 * theta greeks)).
Proof.
  destruct params as [spot strike expiry rate vol yield].
  cbn [spot_price strike_price time_to_expiry volatility risk_free_rate].
  intros Hspot Hstrike Hexpiry Hvol.
  exists (greeks_at spot strike expiry rate yield vol option_type).
  split; [now apply greeks_closed_form|].
  unfold with_rate, with_expiry, BlackScholesPricer.set_volatility.
  cbn [spot_price strike_price time_to_expiry risk_free_rate volatility dividend_yield].
  split; [|split].
  - apply derivable_pt_lim_local
      with (f := fun v => if is_call option_type
                          then call_at spot strike expiry rate yield v
                          else put_at spot strike expiry rate yield v)
           (delta := mkposreal vol Hvol).
    + intros y Hy. cbn [pos] in Hy. apply near_positive in Hy.
      rewrite price_closed_form by assumption. reflexivity.
    + destruct (price_vol_derivative spot strike expiry rate yield vol
                  Hspot Hstrike Hexpiry Hvol) as [Hcall Hput].
      unfold greeks_at. cbn [vega].
      destruct (is_call option_type); (eapply dl_value; [eassumption|field]).
  - apply derivable_pt_lim_local
      with (f := fun x => if is_call option_type
                          then call_at spot strike expiry x yield vol
                          else put_at spot strike expiry x yield vol)
           (delta := mkposreal 1 Rlt_0_1).
    + intros y _. rewrite price_closed_form by assumption. reflexivity.
    + destruct (price_rate_derivative spot strike expiry rate yield vol
                  Hspot Hstrike Hexpiry Hvol) as [Hcall Hput].
      unfold greeks_at. cbn [rho].
      destruct (is_call option_type); (eapply dl_value; [eassumption|field]).
  - apply derivable_pt_lim_local
      with (f := fun t => if is_call option_type
                          then call_at spot strike t rate yield vol
                          else put_at spot strike t rate yield vol)
           (delta := mkposreal expiry Hexpiry).
    + intros y Hy. cbn [pos] in Hy. apply near_positive in Hy.
      rewrite price_closed_form by assumption. reflexivity.
    + destruct (price_expiry_derivative spot strike expiry rate yield vol
                  Hspot Hstrike Hexpiry Hvol) as [Hcall Hput].
      pose proof (sqrt_expiry_pos expiry Hexpiry) as Hw.
      unfold greeks_at. cbn [theta].
      destruct (is_call option_type); (eapply dl_value; [eassumption|field; lra]).
Qed.

(** *** Instances

    An at-the-money option: spot and strike 18000, thirty days to expiry,
    rate 5%, volatility 25%, no dividend. *)
Definition at_the_money : OptionParams :=
  mkOptionParams 18000 18000 (30 / 365) (5 / 100) (25 / 100) 0.

Lemma delta_and_gamma_are_spot_derivatives_witness :
  exists greeks : Greeks,
    BlackScholesPricer.calculate_greeks at_the_money "call" = Ok greeks
    /\ derivable_pt_lim
         (fun spot => price_or_zero
                        (BlackScholesPricer.calculate_price (with_spot at_the_money spot)
                                                            "call"))
         18000 (delta greeks)
    /\ derivable_pt_lim
         (fun spot => delta (greeks_or_zero
                               (BlackScholesPricer.calculate_greeks
                                  (with_spot at_the_money spot) "call")))
         18000 (gamma greeks).
Proof.
  apply (delta_and_gamma_are_spot_derivatives at_the_money "call"); cbn; lra.
Defined.

Lemma vega_rho_theta_are_price_derivatives_witness :
  exists greeks : Greeks,
    BlackScholesPricer.calculate_greeks at_the_money "put" = Ok greeks
    /\ derivable_pt_lim
         (fun vol => price_or_zero
                       (BlackScholesPricer.calculate_price
                          (BlackScholesPricer.set_volatility at_the_money vol) "put"))
         (25 / 100) (100 * vega greeks)
    /\ derivable_pt_lim
         (fun rate => price_or_zero
                        (BlackScholesPricer.calculate_price (with_rate at_the_money rate)
                                                            "put"))
         (5 / 100) (100 * rho greeks)
    /\ derivable_pt_lim
         (fun expiry => price_or_zero
                          (BlackScholesPricer.calculate_price
                             (with_expiry at_the_money expiry) "put"))
         (30 / 365) (- (365 * theta greeks)).
Proof.
  apply (vega_rho_theta_are_price_derivatives at_the_money "put"); cbn; lra.
Defined.

End GreeksFacts.

(** *** The binomial tree *)

Module BinomialFacts.
Import PyStr RealAnalysis Gaussian Pricing PricingFacts.
Local Open Scope R_scope.

Section Sweep.
Variables p disc : R.

Lemma backward_sweep_length (n : nat) (values : list R) :
  length (BinomialPricer.backward_sweep p disc n values) = length values.
Proof.
  revert values. induction n as [|n IH]; intros values; cbn [BinomialPricer.backward_sweep].
  - reflexivity.
  - destruct values as [|a [|b rest]]; try reflexivity.
    cbn [length]. f_equal. apply (IH (b :: rest)).
Qed.

(** A sweep over the first [n] entries replaces each of them by the
    discounted expectation of the entry and its successor. *)
Lemma backward_sweep_nth (n : nat) (values : list R) (i : nat) :
  (i < n)%nat -> (n < length values)%nat ->
  nth i (BinomialPricer.backward_sweep p disc n values) 0
  = (p * nth i values 0 + (1 - p) * nth (Datatypes.S i) values 0) * disc.
Proof.
  revert values i. induction n as [|n IH]; intros values i Hi Hn; [lia|].
  destruct values as [|a [|b rest]]; cbn [length] in Hn; try lia.
  cbn [BinomialPricer.backward_sweep]. destruct i as [|i].
  - reflexivity.
  - cbn [nth]. rewrite (IH (b :: rest) i) by (cbn [length]; lia). reflexivity.
Qed.

(** The backward induction of [calculate_price] from level [k]. *)
Definition sweeps (k : nat) (values : list R) : list R :=
  fold_left (fun values step => BinomialPricer.backward_sweep p disc (step + 1) values)
            (rev (seq 0 k)) values.

Lemma sweeps_succ (k : nat) (values : list R) :
  sweeps (Datatypes.S k) values
  = sweeps k (BinomialPricer.backward_sweep p disc (Datatypes.S k) values).
Proof.
  unfold sweeps. rewrite seq_S, rev_app_distr. cbn [rev app fold_left Nat.add].
  rewrite Nat.add_1_r. reflexivity.
Qed.

Variables u d g : R.
Hypothesis expectation : p * u + (1 - p) * d = g.

(** Two value lists whose entries differ by [a u^(k-i) d^i - b] at level
    [k] end with roots that differ by the discounted [a g^k - b]. *)
Lemma sweeps_difference (k : nat) :
  forall (calls puts : list R) (a b : R),
    (k < length calls)%nat -> (k < length puts)%nat ->
    (forall i, (i <= k)%nat ->
               nth i calls 0 - nth i puts 0 = a * u ^ (k - i) * d ^ i - b) ->
    nth 0 (sweeps k calls) 0 - nth 0 (sweeps k puts) 0 = disc ^ k * (a * g ^ k - b).
Proof.
  induction k as [|k IH]; intros calls puts a b Hc Hp Hdiff.
  - unfold sweeps. cbn [seq rev fold_left]. rewrite (Hdiff 0%nat) by lia.
    cbn [Nat.sub pow]. ring.
  - rewrite !sweeps_succ.
    rewrite (IH _ _ (a * g * disc) (b * disc)).
    + cbn [pow]. ring.
    + rewrite backward_sweep_length. lia.
    + rewrite backward_sweep_length. lia.
    + intros i Hi. rewrite !backward_sweep_nth by lia.
      pose proof (Hdiff i ltac:(lia)) as H1.
      pose proof (Hdiff (Datatypes.S i) ltac:(lia)) as H2.
      replace (Datatypes.S k - i)%nat with (Datatypes.S (k - i)) in H1 by lia.
      cbn [Nat.sub] in H2. cbn [pow] in H1, H2.
      transitivity ((p * (nth i calls 0 - nth i puts 0)
                     + (1 - p) * (nth (Datatypes.S i) calls 0 - nth (Datatypes.S i) puts 0))
                    * disc); [ring|].
      rewrite H1, H2, <- expectation. ring.
Qed.

End Sweep.

Lemma exp_pow (x : R) (n : nat) : exp x ^ n = exp (INR n * x).
Proof.
  induction n as [|n IH].
  - cbn [pow INR]. rewrite Rmult_0_l, exp_0. reflexivity.
  - rewrite S_INR. cbn [pow]. rewrite IH, <- exp_plus. f_equal. ring.
Qed.

Lemma nth_payoffs (payoff : R -> R) (price : nat -> R) (n i : nat) :
  (i <= n)%nat ->
  nth i (map payoff (map price (seq 0 (n + 1)))) 0 = payoff (price i).
Proof.
  intros Hi. rewrite map_map.
  rewrite (nth_indep _ 0 (payoff (price 0%nat)))
    by (rewrite length_map, length_seq; lia).
  rewrite (map_nth (fun j => payoff (price j)) (seq 0 (n + 1)) 0%nat i).
  rewrite seq_nth by lia. reflexivity.
Qed.

(** The binomial prices of a call and of a put obey put-call parity
    exactly, whatever the number of steps: the risk-neutral probability of
    the tree makes the expected growth of the stock that of the forward. *)
Theorem binomial_put_call_parity (params : OptionParams) (steps : nat) :
  0 < time_to_expiry params ->
  volatility params <> 0 ->
  (0 < steps)%nat ->
  exists call put : R,
    BinomialPricer.calculate_price params "call" steps = Ok call
    /\ BinomialPricer.calculate_price params "put" steps = Ok put
    /\ call - put
       = spot_price params * exp (- dividend_yield params * time_to_expiry params)
         - strike_price params * exp (- risk_free_rate params * time_to_expiry params).
Proof.
  destruct params as [S K T r sigma q].
  cbn [spot_price strike_price time_to_expiry risk_free_rate volatility dividend_yield].
  intros HT Hsigma Hsteps.
  assert (Hn : INR steps <> 0) by (apply not_0_INR; lia).
  unfold BinomialPricer.calculate_price.
  cbn [spot_price strike_price time_to_expiry risk_free_rate volatility dividend_yield].
  destruct (Rle_dec T 0) as [H|_]; [lra|].
  rewrite py_div_nonzero by exact Hn. cbn [bind].
  change (is_call "call") with true. change (is_call "put") with false. cbv iota.
  eexists _, _. split; [reflexivity|]. split; [reflexivity|].
  set (dt := T / INR steps).
  set (u := exp (sigma * sqrt dt)).
  set (p := (exp ((r - q) * dt) - 1 / u) / (u - 1 / u)).
  set (disc := exp (- r * dt)).
  assert (Hdt : 0 < dt).
  { unfold dt. apply Rdiv_lt_0_compat; [exact HT|]. apply lt_0_INR. lia. }
  assert (Hu : 0 < u) by apply exp_pos.
  assert (Hud : u - 1 / u <> 0).
  { assert (Hx : sigma * sqrt dt <> 0).
    { apply Rmult_integral_contrapositive_currified; [exact Hsigma|].
      apply Rgt_not_eq, sqrt_lt_R0. exact Hdt. }
    assert (E : 1 / u = exp (- (sigma * sqrt dt))).
    { unfold u. rewrite exp_Ropp. unfold Rdiv. ring. }
    rewrite E. unfold u. intros Heq.
    apply Rminus_diag_uniq in Heq. apply exp_inv in Heq. lra. }
  assert (Hexpect : p * u + (1 - p) * (1 / u) = exp ((r - q) * dt)).
  { assert (Hp : p * (u - 1 / u) = exp ((r - q) * dt) - 1 / u).
    { unfold p. set (x := exp ((r - q) * dt) - 1 / u). set (y := u - 1 / u) in *.
      unfold Rdiv. rewrite Rmult_assoc, Rinv_l by exact Hud. ring. }
    replace (p * u + (1 - p) * (1 / u)) with (p * (u - 1 / u) + 1 / u) by ring.
    rewrite Hp. ring. }
  change (fold_left (fun values step => BinomialPricer.backward_sweep p disc (step + 1) values)
                    (rev (seq 0 steps)))
    with (sweeps p disc steps).
  rewrite (sweeps_difference p disc u (1 / u) (exp ((r - q) * dt)) Hexpect steps _ _ S K).
  - unfold disc. rewrite !exp_pow.
    replace (INR steps * (- r * dt)) with (- r * T) by (unfold dt; field; exact Hn).
    replace (INR steps * ((r - q) * dt)) with ((r - q) * T) by (unfold dt; field; exact Hn).
    rewrite Rmult_minus_distr_l.
    replace (exp (- r * T) * (S * exp ((r - q) * T)))
      with (S * (exp (- r * T) * exp ((r - q) * T))) by ring.
    rewrite <- exp_plus. replace (- r * T + (r - q) * T) with (- q * T) by ring.
    ring.
  - rewrite !length_map, length_seq. lia.
  - rewrite !length_map, length_seq. lia.
  - intros i Hi.
    rewrite (nth_payoffs (fun price => Rmax (price - K) 0)
                         (fun i => S * u ^ (steps - i) * (1 / u) ^ i) steps i Hi).
    rewrite (nth_payoffs (fun price => Rmax (K - price) 0)
                         (fun i => S * u ^ (steps - i) * (1 / u) ^ i) steps i Hi).
    apply intrinsic_difference.
Qed.

(** *** Instances *)

Lemma binomial_put_call_parity_witness :
  exists call put : R,
    BinomialPricer.calculate_price
      (mkOptionParams 18000 18000 (30 / 365) (5 / 100) (25 / 100) 0) "call" 100 = Ok call
    /\ BinomialPricer.calculate_price
         (mkOptionParams 18000 18000 (30 / 365) (5 / 100) (25 / 100) 0) "put" 100 = Ok put
    /\ call - put
       = 18000 * exp (- 0 * (30 / 365)) - 18000 * exp (- (5 / 100) * (30 / 365)).
Proof.
  apply (binomial_put_call_parity
           (mkOptionParams 18000 18000 (30 / 365) (5 / 100) (25 / 100) 0) 100).
  - cbn. lra.
  - cbn. lra.
  - apply Nat.ltb_lt. reflexivity.
Defined.

End BinomialFacts.

(** *** Bounds on the Black-Scholes price and relations between the Greeks *)

Module PriceBoundFacts.
Import PyStr RealAnalysis Gaussian Pricing GaussianFacts PricingFacts GreeksFacts.
Local Open Scope R_scope.

(** The no-arbitrage bounds: a call is worth at least the discounted
    forward minus the discounted strike and at most the discounted spot; a
    put at least the discounted strike minus the discounted forward and at
    most the discounted strike. *)
Theorem black_scholes_price_bounds (params : OptionParams) :
  0 < spot_price params -> 0 < strike_price params ->
  0 < time_to_expiry params -> 0 < volatility params ->
  let forward := spot_price params * exp (- dividend_yield params * time_to_expiry params) in
  let bond := strike_price params * exp (- risk_free_rate params * time_to_expiry params) in
  exists call put : R,
    BlackScholesPricer.calculate_price params "call" = Ok call
    /\ BlackScholesPricer.calculate_price params "put" = Ok put
    /\ Rmax (forward - bond) 0 <= call /\ call <= forward
    /\ Rmax (bond - forward) 0 <= put /\ put <= bond.
Proof.
  destruct params as [spot strike expiry rate vol yield].
  cbn [spot_price strike_price time_to_expiry volatility risk_free_rate dividend_yield].
  intros Hspot Hstrike Hexpiry Hvol. cbv zeta.
  rewrite !price_closed_form by assumption.
  change (is_call "call") with true. change (is_call "put") with false. cbv iota.
  eexists _, _. split; [reflexivity|]. split; [reflexivity|].
  destruct (closed_form_values spot strike expiry rate yield vol Hspot Hstrike Hvol Hexpiry)
    as (Hcall & Hput & Hparity).
  cbv zeta in Hcall, Hput, Hparity.
  fold (d1_at spot strike expiry rate yield vol) in Hcall, Hput, Hparity.
  fold (call_at spot strike expiry rate yield vol) in Hcall, Hparity.
  fold (put_at spot strike expiry rate yield vol) in Hput, Hparity.
  assert (Hupper : put_at spot strike expiry rate yield vol
                   <= strike * exp (- rate * expiry)).
  { unfold put_at.
    pose proof (norm_cdf_le_1 (- (d1_at spot strike expiry rate yield vol - vol * sqrt expiry))).
    pose proof (norm_cdf_nonneg (- d1_at spot strike expiry rate yield vol)).
    pose proof (exp_pos (- rate * expiry)). pose proof (exp_pos (- yield * expiry)).
    assert (0 < strike * exp (- rate * expiry)) by (apply Rmult_lt_0_compat; assumption).
    assert (0 < spot * exp (- yield * expiry)) by (apply Rmult_lt_0_compat; assumption).
    nra. }
  set (call := call_at spot strike expiry rate yield vol) in *.
  set (put := put_at spot strike expiry rate yield vol) in *.
  clearbody call put.
  repeat split; try (apply Rmax_lub); lra.
Qed.

(** The Greeks of a call and of a put with the same parameters: the deltas
    differ by the discount of the dividend yield, gamma and vega are
    common and positive, theta and rho differ as the carry of the forward
    and of the strike; the call delta lies between 0 and that discount, the
    put delta between minus that discount and 0. *)
Theorem greeks_put_call_relations (params : OptionParams) :
  0 < spot_price params -> 0 < strike_price params ->
  0 < time_to_expiry params -> 0 < volatility params ->
  let S := spot_price params in
  let K := strike_price params in
  let T := time_to_expiry params in
  let r := risk_free_rate params in
  let q := dividend_yield params in
  exists call put : Greeks,
    BlackScholesPricer.calculate_greeks params "call" = Ok call
    /\ BlackScholesPricer.calculate_greeks params "put" = Ok put
    /\ delta call - delta put = exp (- q * T)
    /\ gamma call = gamma put /\ 0 < gamma call
    /\ vega call = vega put /\ 0 < vega call
    /\ theta call - theta put = (q * S * exp (- q * T) - r * K * exp (- r * T)) / 365
    /\ rho call - rho put = K * T * exp (- r * T) / 100
    /\ 0 <= delta call <= exp (- q * T)
    /\ - exp (- q * T) <= delta put <= 0
    /\ 0 <= rho call /\ rho put <= 0.
Proof.
  destruct params as [spot strike expiry rate vol yield].
  cbn [spot_price strike_price time_to_expiry volatility risk_free_rate dividend_yield].
  intros Hspot Hstrike Hexpiry Hvol. cbv zeta.
  rewrite !greeks_closed_form by assumption.
  eexists _, _. split; [reflexivity|]. split; [reflexivity|].
  unfold greeks_at. cbn [delta gamma theta vega rho].
  change (is_call "call") with true. change (is_call "put") with false. cbv iota.
  set (d1 := d1_at spot strike expiry rate yield vol).
  rewrite !norm_cdf_opp.
  pose proof (sqrt_expiry_pos expiry Hexpiry) as Hw.
  pose proof (norm_cdf_nonneg d1) as Hd1. pose proof (norm_cdf_le_1 d1) as Hd1'.
  pose proof (norm_cdf_nonneg (d1 - vol * sqrt expiry)) as Hd2.
  pose proof (norm_cdf_le_1 (d1 - vol * sqrt expiry)) as Hd2'.
  pose proof (norm_pdf_pos d1) as Hpdf.
  pose proof (exp_pos (- yield * expiry)) as Hq. pose proof (exp_pos (- rate * expiry)) as Hr.
  assert (Hbond : 0 < strike * expiry * exp (- rate * expiry)).
  { positive. }
  split; [ring|]. split; [reflexivity|].
  split; [positive|]. split; [reflexivity|]. split; [positive|].
  split; [field; lra|]. split; [field|].
  assert (H1 : 0 <= exp (- yield * expiry) * norm_cdf d1) by (apply Rmult_le_pos; lra).
  assert (H2 : 0 <= exp (- yield * expiry) * (1 - norm_cdf d1))
    by (apply Rmult_le_pos; lra).
  assert (H3 : 0 <= strike * expiry * exp (- rate * expiry)
                    * norm_cdf (d1 - vol * sqrt expiry))
    by (apply Rmult_le_pos; lra).
  assert (H4 : 0 <= strike * expiry * exp (- rate * expiry)
                    * (1 - norm_cdf (d1 - vol * sqrt expiry)))
    by (apply Rmult_le_pos; lra).
  repeat split; lra.
Qed.

(** *** Instances *)

Lemma black_scholes_price_bounds_witness :
  exists call put : R,
    BlackScholesPricer.calculate_price at_the_money "call" = Ok call
    /\ BlackScholesPricer.calculate_price at_the_money "put" = Ok put
    /\ call <= 18000 * exp (- 0 * (30 / 365))
    /\ put <= 18000 * exp (- (5 / 100) * (30 / 365)).
Proof.
  destruct (black_scholes_price_bounds at_the_money) as (call & put & H1 & H2 & _ & H3 & _ & H4);
    try (cbn; lra).
  exists call, put. repeat split; assumption.
Defined.

Lemma greeks_put_call_relations_witness :
  exists call put : Greeks,
    BlackScholesPricer.calculate_greeks at_the_money "call" = Ok call
    /\ BlackScholesPricer.calculate_greeks at_the_money "put" = Ok put
    /\ delta call - delta put = exp (- 0 * (30 / 365))
    /\ gamma call = gamma put
    /\ vega call = vega put.
Proof.
  destruct (greeks_put_call_relations at_the_money)
    as (call & put & H1 & H2 & H3 & H4 & _ & H5 & _); try (cbn; lra).
  exists call, put. repeat split; assumption.
Defined.

End PriceBoundFacts.

(** *** Portfolio Greeks of the pricing engine *)

Module PortfolioAdditivityFacts.
Import PyStr Pricing OptionPricingEngine PricingFacts.
Local Open Scope R_scope.

(** The field-wise sum of two dictionaries of Greeks. *)
Definition greeks_plus (a b : Greeks) : Greeks :=
  mkGreeks (delta a + delta b) (gamma a + gamma b) (theta a + theta b)
           (vega a + vega b) (rho a + rho b).

Lemma greeks_eq (a b : Greeks) :
  delta a = delta b -> gamma a = gamma b -> theta a = theta b ->
  vega a = vega b -> rho a = rho b -> a = b.
Proof. destruct a, b. cbn. intros -> -> -> -> ->. reflexivity. Qed.

Lemma portfolio_greeks_from_total (positions : list GreekPosition) (total : Greeks) :
  calculate_portfolio_greeks_from total positions
  = let* greeks := calculate_portfolio_greeks positions in
    Ok (greeks_plus total greeks).
Proof.
  unfold calculate_portfolio_greeks. revert total.
  induction positions as [|position rest IH]; intros total;
    cbn [calculate_portfolio_greeks_from bind].
  - f_equal. apply greeks_eq; cbn; ring.
  - destruct (BlackScholesPricer.calculate_greeks _ _) as [greeks|exc]; cbn [bind];
      [|reflexivity].
    rewrite (IH (add_scaled total greeks _)), (IH (add_scaled (mkGreeks 0 0 0 0 0) greeks _)).
    destruct (calculate_portfolio_greeks_from (mkGreeks 0 0 0 0 0) rest) as [tail|exc];
      cbn [bind]; [|reflexivity].
    f_equal. apply greeks_eq; cbn; ring.
Qed.

Lemma portfolio_greeks_from_app (positions more : list GreekPosition) (total : Greeks) :
  calculate_portfolio_greeks_from total (positions ++ more)
  = let* subtotal := calculate_portfolio_greeks_from total positions in
    calculate_portfolio_greeks_from subtotal more.
Proof.
  revert total. induction positions as [|position rest IH]; intros total;
    cbn [app calculate_portfolio_greeks_from bind]; [reflexivity|].
  destruct (BlackScholesPricer.calculate_greeks _ _) as [greeks|exc]; cbn [bind];
    [apply IH|reflexivity].
Qed.

(** The Greeks of a portfolio are the sums of the Greeks of its parts:
    when both parts are computed, the Greeks of the concatenated list are
    their field-wise sums; when a part raises, the whole raises the
    exception of the first part that does. *)
Theorem portfolio_greeks_additive (positions more : list GreekPosition) :
  calculate_portfolio_greeks (positions ++ more)
  = match calculate_portfolio_greeks positions, calculate_portfolio_greeks more with
    | Ok first, Ok second => Ok (greeks_plus first second)
    | Ok _, Raised exc => Raised exc
    | Raised exc, _ => Raised exc
    end.
Proof.
  unfold calculate_portfolio_greeks. rewrite portfolio_greeks_from_app.
  destruct (calculate_portfolio_greeks_from (mkGreeks 0 0 0 0 0) positions)
    as [first|exc]; cbn [bind]; [|reflexivity].
  rewrite portfolio_greeks_from_total. unfold calculate_portfolio_greeks.
  destruct (calculate_portfolio_greeks_from (mkGreeks 0 0 0 0 0) more)
    as [second|exc]; reflexivity.
Qed.

End PortfolioAdditivityFacts.

(** *** The strikes and the legs of the live engine *)

Module TradingEngineFacts.
Import PyNum PyStr Risk RationalPricing TradingEngine.
Local Open Scope Z_scope.

(** For each of the four strategies the strikes that
    [_calculate_strike_prices] returns are those the position builder
    expects, in the order it expects them: counted from the at-the-money
    strike, a straddle is a call and a put at 0; a strangle a call at +100
    and a put at -100; an iron condor a put at -200, a short put at -100, a
    short call at +100 and a call at +200; a butterfly a call at -100, two
    short calls at 0 and a call at +100. *)
Theorem trading_engine_legs (now : Z) (closed_form : Q -> Q -> Q -> Q -> Q -> string -> Q)
    (spot_price : Q) (strategy_name : string) (quantity : Z) :
  let atm_strike := py_round (spot_price / 50) * 50 in
  let opened :=
    create_positions now closed_form spot_price strategy_name
      (_calculate_strike_prices spot_price strategy_name) quantity in
  map (fun p => (option_type p, Risk.quantity p, strike_price p)) opened
  = (if String.eqb strategy_name "straddle" then
       [ ("call", quantity, inject_Z atm_strike); ("put", quantity, inject_Z atm_strike) ]
     else if String.eqb strategy_name "strangle" then
       [ ("call", quantity, inject_Z (atm_strike + 100));
         ("put", quantity, inject_Z (atm_strike - 100)) ]
     else if String.eqb strategy_name "iron_condor" then
       [ ("put", quantity, inject_Z (atm_strike - 200));
         ("put", - quantity, inject_Z (atm_strike - 100));
         ("call", - quantity, inject_Z (atm_strike + 100));
         ("call", quantity, inject_Z (atm_strike + 200)) ]
     else if String.eqb strategy_name "butterfly" then
       [ ("call", quantity, inject_Z (atm_strike - 100));
         ("call", -2 * quantity, inject_Z atm_strike);
         ("call", quantity, inject_Z (atm_strike + 100)) ]
     else [])%string
  /\ Forall (fun p => expiry_date p = _get_next_expiry now
                      /\ Risk.entry_price p = current_price p
                      /\ Risk.strategy_name p = strategy_name) opened.
Proof.
  cbv zeta. unfold create_positions, _calculate_strike_prices.
  destruct (String.eqb_spec strategy_name "straddle") as [->|_];
    [split; [reflexivity|repeat constructor]|].
  destruct (String.eqb_spec strategy_name "strangle") as [->|_];
    [split; [reflexivity|repeat constructor]|].
  destruct (String.eqb_spec strategy_name "iron_condor") as [->|_];
    [split; [reflexivity|repeat constructor]|].
  destruct (String.eqb_spec strategy_name "butterfly") as [->|_];
    [split; [reflexivity|repeat constructor]|].
  split; [reflexivity|constructor].
Qed.

End TradingEngineFacts.
